(** * BrainSAIT Identity on Demand: verification session orchestration

    A shallow embedding of the session-creation path of the repository:

    - [Security]: the risk scorer of [src/services/security.ts]
      ([BrainSAITSecurityService]);
    - [Oid]: the hierarchical session identifiers built by
      [generateOID] and by the [onRequestPost] handler;
    - [Client]: [StripeIdentityService.createVerificationSession] and the
      regional gateway services of [src/services];
    - [Api]: the [onRequestPost] handler of
      [functions/api/create-verification-session.ts].

    JavaScript numbers that occur here are small integers and epoch
    milliseconds; they are embedded as [Z].  Promises are awaited one after
    the other in the source, so asynchronous code is embedded as sequential
    state passing; a rejected promise is an exception. *)

From Stdlib Require Import ZArith Lia List String Ascii.
From Stdlib Require Import DecimalString DecimalZ.
From stdpp Require Import base option gmap strings.

Local Open Scope string_scope.
Local Open Scope Z_scope.

(** ** JavaScript odds and ends *)

(** Truthiness of an optional string: [undefined], [null] and the empty
    string are falsy. *)
Definition truthy (o : option string) : bool :=
  match o with
  | Some s => negb (String.eqb s "")
  | None => false
  end.

(** [a || b] on optional strings. *)
Definition or_else (o : option string) (d : string) : string :=
  if truthy o then default d o else d.

(** [hay.includes(needle)], which is what [/needle/.test(hay)] computes for
    a pattern without metacharacters. *)
Fixpoint includes (needle hay : string) : bool :=
  String.prefix needle hay ||
  match hay with
  | EmptyString => false
  | String _ rest => includes needle rest
  end.

(** ** The risk scorer: [src/services/security.ts] *)

Module Security.

Record SecurityConfig := {
  enableAdvancedFraudDetection : bool;
  enableRealTimeValidation : bool;
  enableCSP : bool;
  maxVerificationAttempts : Z;
  sessionTimeout : Z
}.

Record SecurityMetrics := {
  verificationAttempts : Z;
  lastAttemptTimestamp : Z;
  suspiciousActivityScore : Z;
  deviceFingerprint : option string;
  ipAddress : option string;
  userAgent : option string
}.

(** What the scorer reads from the browser during one call. *)
Record Navigator := {
  nav_webdriver : bool;          (* navigator.webdriver === true *)
  nav_userAgent : string;
  nav_plugins : nat;             (* navigator.plugins.length *)
  nav_languages : nat            (* navigator.languages.length *)
}.

Record Window := {
  win_PhantomJS : bool;          (* 'PhantomJS' in window *)
  win_phantom : bool;            (* '_phantom' in window *)
  win_selenium : bool;           (* '_selenium' in window *)
  win_nightmare : bool           (* '__nightmare' in window *)
}.

Record Ambient := {
  clock : Z;                     (* Date.now() *)
  navigator : Navigator;
  window : Window;
  canvasPrint : string           (* what generateDeviceFingerprint returns *)
}.

Record UserContext := {
  uc_type : string;
  uc_countryCode : option string
}.

(** An entry of [localStorage.brainsait_security_incidents]. *)
Record Incident := {
  inc_type : string;
  inc_session : string;
  inc_risk : Z
}.

(** The singleton service together with the browser storage it uses. *)
Record Service := {
  securityMetrics : gmap string SecurityMetrics;
  config : SecurityConfig;
  realTimeMonitoringActive : bool;
  deviceFingerprintingActive : bool;
  cspActive : bool;
  sessionStorage : gmap string string;
  incidents : list Incident
}.

Record Verdict := {
  isValid : bool;
  riskScore : Z;
  blockedReason : option string
}.

(** The configuration the constructor builds: the three switches come from
    the build environment, the two numbers are literals. *)
Definition mkConfig (fraud realtime csp : bool) : SecurityConfig :=
  {| enableAdvancedFraudDetection := fraud;
     enableRealTimeValidation := realtime;
     enableCSP := csp;
     maxVerificationAttempts := 3;
     sessionTimeout := 30 * 60 * 1000 |}.

Definition fp_key : string := "brainsait_device_fp".

Definition initializeDeviceFingerprinting (a : Ambient) (s : Service)
  : string * Service :=
  let fingerprint := canvasPrint a in
  (fingerprint,
   {| securityMetrics := securityMetrics s;
      config := config s;
      realTimeMonitoringActive := realTimeMonitoringActive s;
      deviceFingerprintingActive := true;
      cspActive := cspActive s;
      sessionStorage := <[fp_key := fingerprint]> (sessionStorage s);
      incidents := incidents s |}).

Definition detectHeadlessBrowser (a : Ambient) : bool :=
  nav_webdriver (navigator a)
  || win_PhantomJS (window a)
  || win_phantom (window a)
  || win_selenium (window a)
  || win_nightmare (window a).

Definition detectAutomationTools (a : Ambient) : bool :=
  Nat.eqb (nav_plugins (navigator a)) 0
  || Nat.eqb (nav_languages (navigator a)) 0
  || includes "HeadlessChrome" (nav_userAgent (navigator a)).

Definition detectLocationMismatch (_countryCode : string)
  (_ipAddress : option string) : bool := false.

Definition detectVPNUsage (_ipAddress : option string) : bool := false.

Definition getUserIP : string := "client-side-detection".

(** The accumulation and the final [Math.min(fraudScore, 100)] of
    [performAdvancedFraudChecks], as a function of its four tests. *)
Definition fraudScoreOf (headless tools mismatch vpn : bool) : Z :=
  let fraudScore := 0 in
  let fraudScore := if headless then fraudScore + 60 else fraudScore in
  let fraudScore := if tools then fraudScore + 50 else fraudScore in
  let fraudScore := if mismatch then fraudScore + 20 else fraudScore in
  let fraudScore := if vpn then fraudScore + 25 else fraudScore in
  Z.min fraudScore 100.

Definition performAdvancedFraudChecks (a : Ambient) (userContext : UserContext)
  (metrics : SecurityMetrics) : Z :=
  fraudScoreOf
    (detectHeadlessBrowser a)
    (detectAutomationTools a)
    (match uc_countryCode userContext with
     | Some cc => truthy (Some cc) && detectLocationMismatch cc (ipAddress metrics)
     | None => false
     end)
    (detectVPNUsage (ipAddress metrics)).

Definition getRiskReason (riskScore : Z) : string :=
  if 90 <=? riskScore then "High fraud risk detected"
  else if 70 <=? riskScore then "Suspicious activity patterns"
  else if 50 <=? riskScore then "Multiple failed attempts"
  else "Security threshold exceeded".

(** [reportSecurityIncident]: append, then keep the last 100 entries. *)
Definition reportSecurityIncident (i : Incident) (l : list Incident)
  : list Incident :=
  let l := (l ++ [i])%list in
  if (100 <? length l)%nat then drop (length l - 100)%nat l else l.

Definition logSecurityEvent (sessionId : string) (result : Verdict)
  (l : list Incident) : list Incident :=
  if 50 <? riskScore result then
    reportSecurityIncident
      {| inc_type := "high_risk_verification";
         inc_session := sessionId;
         inc_risk := riskScore result |} l
  else l.

(** The [!==] of the device-consistency test. *)
Definition fp_differs (recorded : option string) (current : string) : bool :=
  match recorded with
  | Some fp => negb (String.eqb fp current)
  | None => true
  end.

Definition validateVerificationRequest (a : Ambient) (sessionId : string)
  (userContext : UserContext) (s : Service) : Service * Verdict :=
  let '(deviceFingerprint0, s) :=
    match sessionStorage s !! fp_key with
    | Some fp => if truthy (Some fp) then (fp, s)
                 else initializeDeviceFingerprinting a s
    | None => initializeDeviceFingerprinting a s
    end in
  let currentTime := clock a in
  (* Get or create security metrics for this session *)
  let metrics :=
    match securityMetrics s !! sessionId with
    | Some m => m
    | None =>
        {| verificationAttempts := 0;
           lastAttemptTimestamp := 0;
           suspiciousActivityScore := 0;
           deviceFingerprint := Some deviceFingerprint0;
           ipAddress := Some getUserIP;
           userAgent := Some (nav_userAgent (navigator a)) |}
    end in
  (* Update attempt count *)
  let attempts := verificationAttempts metrics + 1 in
  let lastAttempt := currentTime in
  (* Calculate risk score *)
  let riskScore0 := 0 in
  let riskScore0 :=
    if maxVerificationAttempts (config s) <? attempts
    then riskScore0 + 50 else riskScore0 in
  let riskScore0 :=
    if currentTime - lastAttempt <? 5000
    then riskScore0 + 30 else riskScore0 in
  let riskScore0 :=
    if fp_differs (deviceFingerprint metrics) deviceFingerprint0
    then riskScore0 + 40 else riskScore0 in
  let riskScore0 :=
    if enableAdvancedFraudDetection (config s)
    then riskScore0 + performAdvancedFraudChecks a userContext metrics
    else riskScore0 in
  (* Update metrics *)
  let metrics :=
    {| verificationAttempts := attempts;
       lastAttemptTimestamp := lastAttempt;
       suspiciousActivityScore := riskScore0;
       deviceFingerprint := deviceFingerprint metrics;
       ipAddress := ipAddress metrics;
       userAgent := userAgent metrics |} in
  let valid := riskScore0 <? 70 in
  let result :=
    {| isValid := valid;
       riskScore := riskScore0;
       blockedReason := if valid then None else Some (getRiskReason riskScore0) |} in
  ({| securityMetrics := <[sessionId := metrics]> (securityMetrics s);
      config := config s;
      realTimeMonitoringActive := realTimeMonitoringActive s;
      deviceFingerprintingActive := deviceFingerprintingActive s;
      cspActive := cspActive s;
      sessionStorage := sessionStorage s;
      incidents := logSecurityEvent sessionId result (incidents s) |},
   result).

(** The two values every call settles first: the device fingerprint it
    works with, and the metrics it gets or creates for the session key. *)
Definition resolvedFingerprint (a : Ambient) (s : Service) : string :=
  match sessionStorage s !! fp_key with
  | Some fp => if truthy (Some fp) then fp else canvasPrint a
  | None => canvasPrint a
  end.

Definition recordedMetrics (a : Ambient) (sessionId : string) (s : Service)
  : SecurityMetrics :=
  match securityMetrics s !! sessionId with
  | Some m => m
  | None =>
      {| verificationAttempts := 0;
         lastAttemptTimestamp := 0;
         suspiciousActivityScore := 0;
         deviceFingerprint := Some (resolvedFingerprint a s);
         ipAddress := Some getUserIP;
         userAgent := Some (nav_userAgent (navigator a)) |}
  end.

(** The same request submitted once per element of [calls], in order,
    under one session key; the verdicts come back in order. *)
Fixpoint submit (calls : list Ambient) (sessionId : string)
  (userContext : UserContext) (s : Service) : Service * list Verdict :=
  match calls with
  | [] => (s, [])
  | a :: rest =>
      let '(s1, v) := validateVerificationRequest a sessionId userContext s in
      let '(s2, vs) := submit rest sessionId userContext s1 in
      (s2, v :: vs)
  end.

(** The constructor with [initializeSecurityFeatures]: it switches the
    CSP monitor on when configured, and fingerprints the device when
    advanced fraud detection is on.  The metrics map starts empty; the
    page has no incident history. *)
Definition construct (a : Ambient) (cfg : SecurityConfig) : Service :=
  let s := {| securityMetrics := ∅;
              config := cfg;
              realTimeMonitoringActive := false;
              deviceFingerprintingActive := false;
              cspActive := enableCSP cfg;
              sessionStorage := ∅;
              incidents := [] |} in
  if enableAdvancedFraudDetection cfg
  then snd (initializeDeviceFingerprinting a s)
  else s.

(** An ordinary desktop browser: no automation marker of any kind. *)
Definition plainBrowser (now : Z) : Ambient :=
  {| clock := now;
     navigator := {| nav_webdriver := false;
                     nav_userAgent := "Mozilla/5.0 (X11; Linux x86_64) Firefox/128.0";
                     nav_plugins := 5;
                     nav_languages := 2 |};
     window := {| win_PhantomJS := false; win_phantom := false;
                  win_selenium := false; win_nightmare := false |};
     canvasPrint := "eyJ1c2VyQWdlbnQiOiJNb3ppbGxhLzUu" |}.

(** The singleton as a page load in a plain browser leaves it. *)
Definition fresh (cfg : SecurityConfig) : Service :=
  construct (plainBrowser 1699999990000) cfg.

(** The same browser driven by automation: [navigator.webdriver] is set,
    nothing else differs. *)
Definition webdriverBrowser (now : Z) : Ambient :=
  {| clock := now;
     navigator := {| nav_webdriver := true;
                     nav_userAgent := nav_userAgent (navigator (plainBrowser now));
                     nav_plugins := 5;
                     nav_languages := 2 |};
     window := window (plainBrowser now);
     canvasPrint := canvasPrint (plainBrowser now) |}.

Definition documentSA : UserContext :=
  {| uc_type := "document"; uc_countryCode := Some "SA" |}.

(** A service that has seen three attempts for ["k"] from another
    device. *)
Definition thirdAttemptElsewhere : Service :=
  {| securityMetrics :=
       {[ "k" := {| verificationAttempts := 3;
                    lastAttemptTimestamp := 1699999990000;
                    suspiciousActivityScore := 30;
                    deviceFingerprint := Some "b3RoZXItZGV2aWNlLWZpbmdlcnByaW50";
                    ipAddress := Some getUserIP;
                    userAgent := Some "Mozilla/5.0" |} ]};
     config := mkConfig false false false;
     realTimeMonitoringActive := false;
     deviceFingerprintingActive := true;
     cspActive := false;
     sessionStorage := {[ fp_key := canvasPrint (plainBrowser 0) ]};
     incidents := [] |}.

(** Four submissions from one plain browser, 1.2 seconds apart. *)
Definition fourWithinFiveSeconds : list Ambient :=
  [plainBrowser 1700000000000; plainBrowser 1700000001200;
   plainBrowser 1700000002400; plainBrowser 1700000003600].

(** [getSecurityMetrics(sessionId?)]: the metrics of one session, zeroed
    and without fingerprint when there are none, or the whole map when the
    argument is missing or empty. *)
Definition getSecurityMetrics (sessionId : option string) (s : Service)
  : SecurityMetrics + gmap string SecurityMetrics :=
  if truthy sessionId then
    inl (match securityMetrics s !! default "" sessionId with
         | Some m => m
         | None => {| verificationAttempts := 0;
                      lastAttemptTimestamp := 0;
                      suspiciousActivityScore := 0;
                      deviceFingerprint := None;
                      ipAddress := None;
                      userAgent := None |}
         end)
  else inr (securityMetrics s).

Definition set_securityMetrics (m : gmap string SecurityMetrics) (s : Service)
  : Service :=
  {| securityMetrics := m;
     config := config s;
     realTimeMonitoringActive := realTimeMonitoringActive s;
     deviceFingerprintingActive := deviceFingerprintingActive s;
     cspActive := cspActive s;
     sessionStorage := sessionStorage s;
     incidents := incidents s |}.

(** [clearSecurityMetrics(sessionId?)] *)
Definition clearSecurityMetrics (sessionId : option string) (s : Service)
  : Service :=
  if truthy sessionId
  then set_securityMetrics (delete (default "" sessionId) (securityMetrics s)) s
  else set_securityMetrics ∅ s.

End Security.

(** ** Session identifiers *)

Module Oid.

(** [`${n}`] for an integral number: its decimal digits, with a leading
    minus sign below zero. *)
Definition Number_toString (n : Z) : string :=
  NilZero.string_of_int (Z.to_int n).

Definition code_is (code : string) (countryCode : option string) : bool :=
  match countryCode with
  | Some c => String.eqb c code
  | None => false
  end.

Inductive OidType := verification | healthcare | national.

Definition oidPrefix : string := "1.3.6.1.4.1.61026".

Definition typeId (type : OidType) : string :=
  match type with
  | verification => "1"
  | healthcare => "2"
  | national => "3"
  end.

(** The country arc in the browser (unknown countries: 000) ... *)
Definition country (countryCode : option string) : string :=
  if code_is "SA" countryCode then "682"
  else if code_is "SD" countryCode then "729" else "000".

(** ... and in the edge handler (unknown countries: 840). *)
Definition countryOid (country_code : option string) : string :=
  if code_is "SA" country_code then "682"
  else if code_is "SD" country_code then "729" else "840".

(** [StripeIdentityService.generateOID], with [Date.now()] as [now]. *)
Definition generateOID (type : OidType) (countryCode : option string)
  (now : Z) : string :=
  let timestamp := now in
  oidPrefix ++ "." ++ typeId type ++ "." ++ country countryCode
            ++ "." ++ Number_toString timestamp.

(** The identifier the [onRequestPost] handler builds for a session. *)
Definition sessionOID (root : string) (country_code : option string)
  (now : Z) : string :=
  let timestamp := now in
  root ++ ".1." ++ countryOid country_code ++ "." ++ Number_toString timestamp.

End Oid.

(** ** Sequential code that can throw *)

(** A computation over a store [S] that either returns or throws an [E];
    the store survives a throw, as JavaScript's heap does. *)
Definition M (S E A : Type) : Type := S -> S * (E + A).

#[export] Instance M_ret {S E} : MRet (M S E) :=
  fun A a s => (s, inr a).

#[export] Instance M_bind {S E} : MBind (M S E) :=
  fun A B k m s =>
    match m s with
    | (s', inr a) => k a s'
    | (s', inl e) => (s', inl e)
    end.

Definition throw {S E A} (e : E) : M S E A := fun s => (s, inl e).

(** [try { m } catch (e) { h e }] *)
Definition try_catch {S E A} (m : M S E A) (h : E -> M S E A) : M S E A :=
  fun s =>
    match m s with
    | (s', inl e) => h e s'
    | r => r
    end.

Definition modify {S E} (f : S -> S) : M S E unit := fun s => (f s, inr tt).

Definition gets {S E A} (f : S -> A) : M S E A := fun s => (s, inr (f s)).

Definition when {S E} (b : bool) (m : M S E unit) : M S E unit :=
  if b then m else mret tt.

(** ** JSON values, as far as the code looks into them *)

(** The code reads top-level fields only; a nested array or object is
    carried along as its text. *)
Inductive Json :=
| JNull
| JBool (b : bool)
| JNum (n : Z)
| JStr (s : string)
| JNested (text : string).

Definition JsObject := list (string * Json).

Fixpoint obj_get (k : string) (o : JsObject) : option Json :=
  match o with
  | [] => None
  | (k', v) :: o' => if String.eqb k' k then Some v else obj_get k o'
  end.

(** [{ ...o, k: v }] *)
Fixpoint obj_set (k : string) (v : Json) (o : JsObject) : JsObject :=
  match o with
  | [] => [(k, v)]
  | (k', v') :: o' =>
      if String.eqb k' k then (k, v) :: o' else (k', v') :: obj_set k v o'
  end.

Definition js_truthy (v : option Json) : bool :=
  match v with
  | None | Some JNull | Some (JBool false) => false
  | Some (JNum n) => negb (n =? 0)
  | Some (JStr s) => negb (String.eqb s "")
  | Some _ => true
  end.

(** An object whose values are strings, as the list of its entries: the
    last entry for a key is the one that counts. *)
Definition entry_get (k : string) (o : list (string * string)) : option string :=
  snd <$> List.find (fun kv => String.eqb (fst kv) k) (rev o).

(** [{ ...o, k: v }] as [JSON.stringify] writes it: a field set to
    [undefined] is left out, also when [o] had it. *)
Definition entry_put (k : string) (v : option string)
  (o : list (string * string)) : list (string * string) :=
  let others := List.filter (fun kv => negb (String.eqb (fst kv) k)) o in
  match v with
  | Some v => (others ++ [(k, v)])%list
  | None => others
  end.

(** The outcome of one [fetch]: the promise rejects (network failure,
    timeout), or resolves to a response.  [body] is what [json()] resolves
    to, [None] when the body does not parse. *)
Record HttpResponse := {
  ok : bool;
  status : Z;
  statusText : string;
  body : option JsObject
}.

Inductive Fetch :=
| Rejected (message : string)
| Resolved (r : HttpResponse).

(** What the code writes with [console.warn] and [console.error]; lines
    written with [console.log] are not recorded. *)
Inductive LogLine :=
| console_warn (label message : string)
| console_error (label message : string).

(** The [validationErrors] of a gateway answer: the messages the service itself puts there, or
    whatever the registry's reply carried in [errors]. *)
Inductive Errors :=
| Messages (messages : list string)
| Reported (errors : Json).

#[warning="-uniform-inheritance"]
Coercion Messages : list >-> Errors.

(** ** The browser-side service: [src/services/stripe.ts] *)

Module Client.

Import Security Oid.

Record HealthcareContext := {
  nphiesId : option string;
  facilityCode : option string;
  practitionerId : option string
}.

Record NationalIdContext := {
  sudanNationalId : option string;
  ministryCode : option string;
  wilayaCode : option string
}.

Record Options := {
  type : string;
  returnUrl : string;
  metadata : option (list (string * string));
  countryCode : option string;
  healthcareContext : option HealthcareContext;
  nationalIdContext : option NationalIdContext
}.

(** The three endpoints the service reads from the build environment. *)
Record Endpoints := {
  neuralSyncEndpoint : option string;
  nphiesEndpoint : option string;
  sudanNidEndpoint : option string
}.

(** The page: the security singleton, the console, and the URLs fetched
    so far. *)
Record Page := {
  security : Service;
  console : list LogLine;
  fetched : list string
}.

(** Everything outside the page that one call of
    [createVerificationSession] meets. *)
Record Outside := {
  oidClock : Z;                  (* Date.now() inside generateOID *)
  ambient : Ambient;
  nphiesReply : Fetch;
  sudanNidReply : Fetch;
  apiReply : Fetch;
  neuralReply : Fetch
}.

Definition log (l : LogLine) : M Page string unit :=
  modify (fun p => {| security := security p;
                      console := (console p ++ [l])%list;
                      fetched := fetched p |}).

Definition fetch (url : string) (outcome : Fetch) : M Page string HttpResponse :=
  fun p =>
    let p := {| security := security p;
                console := console p;
                fetched := (fetched p ++ [url])%list |} in
    match outcome with
    | Rejected message => (p, inl message)
    | Resolved r => (p, inr r)
    end.

Definition json (r : HttpResponse) : M Page string JsObject :=
  match body r with
  | Some o => mret o
  | None => throw "Unexpected end of JSON input"
  end.

(** [await securityService.validateVerificationRequest(...)].  A score
    over 50 makes [logSecurityEvent] report an incident, and
    [reportSecurityIncident] writes it to the console before the verdict
    is returned; the incident is shown by its type. *)
Definition securityCheck (a : Ambient) (sessionId : string)
  (ctx : UserContext) : M Page string Verdict :=
  fun p =>
    let '(s, v) := validateVerificationRequest a sessionId ctx (security p) in
    ({| security := s;
        console :=
          if 50 <? riskScore v
          then (console p
                ++ [console_warn "Security incident reported:"
                                 "high_risk_verification"])%list
          else console p;
        fetched := fetched p |}, inr v).

Section Service.

Variable ep : Endpoints.
Variable out : Outside.

Definition validateNPHIESContext (context : HealthcareContext)
  : M Page string unit :=
  if negb (truthy (nphiesEndpoint ep)) || negb (truthy (nphiesId context))
  then mret tt
  else
    try_catch
      (response ← fetch (or_else (nphiesEndpoint ep) "" ++ "/validate")
                        (nphiesReply out);
       if negb (ok response)
       then throw ("NPHIES validation failed: " ++ statusText response)
       else mret tt)
      (fun error => log (console_warn "NPHIES validation warning:" error)).

Definition validateSudanNIDContext (context : NationalIdContext)
  : M Page string unit :=
  if negb (truthy (sudanNidEndpoint ep)) || negb (truthy (sudanNationalId context))
  then mret tt
  else
    try_catch
      (response ← fetch (or_else (sudanNidEndpoint ep) "" ++ "/validate")
                        (sudanNidReply out);
       if negb (ok response)
       then throw ("Sudan NID validation failed: " ++ statusText response)
       else mret tt)
      (fun error => log (console_warn "Sudan NID validation warning:" error)).

Definition syncWithNeuralSystem : M Page string unit :=
  try_catch
    (_ ← fetch (or_else (neuralSyncEndpoint ep) "") (neuralReply out);
     mret tt)
    (fun error => log (console_warn "Neural sync warning:" error)).

Definition createVerificationSession (options : Options)
  : M Page string JsObject :=
  try_catch
    (let sessionOID := generateOID verification (countryCode options)
                                   (oidClock out) in
     (* Advanced security validation *)
     check ← securityCheck (ambient out) sessionOID
               {| uc_type := type options;
                  uc_countryCode := countryCode options |};
     if negb (isValid check)
     then throw ("Security validation failed: "
                 ++ default "undefined" (blockedReason check))
     else
       (* Pre-verification with regional systems *)
       match healthcareContext options with
       | Some context =>
           when (code_is "SA" (countryCode options))
                (validateNPHIESContext context)
       | None => mret tt
       end;;
       match nationalIdContext options with
       | Some context =>
           when (code_is "SD" (countryCode options))
                (validateSudanNIDContext context)
       | None => mret tt
       end;;
       response ← fetch "/api/create-verification-session" (apiReply out);
       if negb (ok response)
       then throw ("Failed to create verification session: "
                   ++ statusText response)
       else
         session ← json response;
         (* Sync with Neural Integration System *)
         when (truthy (neuralSyncEndpoint ep)) syncWithNeuralSystem;;
         mret (obj_set "oid" (JStr sessionOID) session))
    (fun error =>
       log (console_error "Error creating verification session:" error);;
       throw error).

End Service.

(** *** What the session endpoint is sent *)

(** The body of the request to [/api/create-verification-session]: three
    top-level fields and nothing else.  The country code and the two
    regional contexts travel inside [metadata], the contexts as text. *)
Record RequestBody := {
  rb_type : string;
  rb_return_url : string;
  rb_metadata : list (string * string)
}.

Section Request.

Variable stringifyHealthcare : HealthcareContext -> string.   (* JSON.stringify *)
Variable stringifyNational : NationalIdContext -> string.     (* JSON.stringify *)
Variable environment : option string.     (* VITE_APP_ENVIRONMENT *)

Definition requestBody (sessionOID : string) (options : Options) : RequestBody :=
  {| rb_type := type options;
     rb_return_url := returnUrl options;
     rb_metadata :=
       entry_put "neural_sync" (Some "enabled")
       (entry_put "national_context"
                  (stringifyNational <$> nationalIdContext options)
       (entry_put "healthcare_context"
                  (stringifyHealthcare <$> healthcareContext options)
       (entry_put "country_code" (countryCode options)
       (entry_put "session_oid" (Some sessionOID)
       (entry_put "environment" (Some (or_else environment "production"))
       (entry_put "brainsait_app" (Some "identity-verification")
       (entry_put "iod_integration" (Some "true")
                  (default [] (metadata options))))))))) |}.

End Request.

(** *** The regional gateway services (second half of the file) *)

Record ValidationResponse := {
  v_isValid : bool;
  v_details : JsObject;          (* the fields copied from the reply *)
  validationErrors : Errors
}.

Section Gateway.

Variable baseUrl : option string.
Variable reply : Fetch.

(** The shape shared by [NPHIESIntegrationService.validateHealthcareContext]
    and [SudanNIDIntegrationService.validateNationalIdContext]; [name] is
    "NPHIES" or "Sudan NID".  On a reply that is OK, [validationErrors] is
    [result.errors || []]. *)
Definition validateContext (name : string) : M Page string ValidationResponse :=
  if negb (truthy baseUrl)
  then throw (name ++ " API endpoint not configured")
  else
    try_catch
      (response ← fetch (or_else baseUrl "" ++ "/validate") reply;
       if negb (ok response)
       then throw (name ++ " validation failed: "
                   ++ Number_toString (status response) ++ " "
                   ++ statusText response)
       else
         result ← json response;
         mret {| v_isValid := js_truthy (obj_get "valid" result);
                 v_details := result;
                 validationErrors :=
                   match obj_get "errors" result with
                   | Some errors =>
                       if js_truthy (Some errors) then Reported errors
                       else Messages []
                   | None => Messages []
                   end |})
      (fun error =>
         log (console_error (name ++ " validation error:") error);;
         mret {| v_isValid := false;
                 v_details := [];
                 validationErrors := [error] |}).

Definition validateHealthcareContext := validateContext "NPHIES".
Definition validateNationalIdContext := validateContext "Sudan NID".

End Gateway.

Definition emptyPage (s : Service) : Page :=
  {| security := s; console := []; fetched := [] |}.

(** The same surroundings with other replies from the two registries, or
    from the neural endpoint. *)
Definition with_registries (nphies sudanNid : Fetch) (out : Outside) : Outside :=
  {| oidClock := oidClock out;
     ambient := ambient out;
     nphiesReply := nphies;
     sudanNidReply := sudanNid;
     apiReply := apiReply out;
     neuralReply := neuralReply out |}.

Definition with_neural (neural : Fetch) (out : Outside) : Outside :=
  {| oidClock := oidClock out;
     ambient := ambient out;
     nphiesReply := nphiesReply out;
     sudanNidReply := sudanNidReply out;
     apiReply := apiReply out;
     neuralReply := neural |}.

(** *** A Saudi healthcare request in a deployment with every endpoint
    configured *)

Definition allEndpoints : Endpoints :=
  {| neuralSyncEndpoint := Some "https://neural.brainsait.example/sync";
     nphiesEndpoint := Some "https://nphies.example/api";
     sudanNidEndpoint := Some "https://nid.example/api" |}.

Definition replied (fields : JsObject) : Fetch :=
  Resolved {| ok := true; status := 200; statusText := "OK"; body := Some fields |}.

Definition createdSession : JsObject :=
  [("id", JStr "vs_1PqX"); ("status", JStr "requires_input");
   ("brainsait_oid", JStr "1.3.6.1.4.1.61026.1.682.1700000000003")].

Definition allUp : Outside :=
  {| oidClock := 1700000000000;
     ambient := plainBrowser 1700000000001;
     nphiesReply := replied [("valid", JBool true)];
     sudanNidReply := replied [("valid", JBool true)];
     apiReply := replied createdSession;
     neuralReply := replied [] |}.

Definition saudiClinic : Options :=
  {| type := "document";
     returnUrl := "https://iod.brainsait.example/return";
     metadata := None;
     countryCode := Some "SA";
     healthcareContext := Some {| nphiesId := Some "NPH-1001";
                                  facilityCode := Some "KSA001";
                                  practitionerId := None |};
     nationalIdContext := None |}.

Definition firstVisit : Page := emptyPage (fresh (mkConfig true true true)).

(** The same surroundings, with the browser driven through WebDriver. *)
Definition drivenByWebdriver : Outside :=
  {| oidClock := oidClock allUp;
     ambient := webdriverBrowser 1700000000001;
     nphiesReply := nphiesReply allUp;
     sudanNidReply := sudanNidReply allUp;
     apiReply := apiReply allUp;
     neuralReply := neuralReply allUp |}.

(** A step is best effort when it cannot throw and leaves the security
    service alone: all it may do is fetch and write to the console. *)
Definition best_effort (m : M Page string unit) : Prop :=
  forall p, exists p', m p = (p', inr tt) /\ security p' = security p.

(** What the call returns, read off the replies it depends on: the verdict
    of the security check and the reply of the session endpoint. *)
Definition outcome_of (oid : string) (v : Verdict) (api : Fetch)
  : string + JsObject :=
  if negb (isValid v)
  then inl ("Security validation failed: " ++ default "undefined" (blockedReason v))
  else match api with
       | Rejected message => inl message
       | Resolved response =>
           if negb (ok response)
           then inl ("Failed to create verification session: " ++ statusText response)
           else match body response with
                | Some session => inr (obj_set "oid" (JStr oid) session)
                | None => inl "Unexpected end of JSON input"
                end
       end.

(** *** The same calls, with requests that may never be answered *)

(** Every request of the service is awaited, and none carries a timeout
    or an abort signal.  An awaited call thus ends in one more way than by
    returning or throwing: the promise it waits for never settles. *)
Inductive Stop :=
| Thrown (message : string)
| Pending.

(** Which of the four endpoints never answer during one call. *)
Record Silent := {
  nphiesSilent : bool;
  sudanNidSilent : bool;
  apiSilent : bool;
  neuralSilent : bool
}.

Definition allAnswer : Silent :=
  {| nphiesSilent := false; sudanNidSilent := false;
     apiSilent := false; neuralSilent := false |}.

(** A step that settles: it returns or throws as before. *)
Definition settled {A} (m : M Page string A) : M Page Stop A :=
  fun p =>
    match m p with
    | (p', inl message) => (p', inl (Thrown message))
    | (p', inr x) => (p', inr x)
    end.

(** [await fetch(url, ...)]: the request is sent either way. *)
Definition await_fetch (url : string) (outcome : Fetch) (silent : bool)
  : M Page Stop HttpResponse :=
  if silent
  then fun p => (fst (fetch url outcome p), inl Pending)
  else settled (fetch url outcome).

(** [try { m } catch (error) { h error }]: only what is thrown is caught. *)
Definition try_catch_thrown {A} (m : M Page Stop A)
  (h : string -> M Page Stop A) : M Page Stop A :=
  fun p =>
    match m p with
    | (p', inl (Thrown message)) => h message p'
    | r => r
    end.

Module Awaited.

Section Service.

Variable ep : Endpoints.
Variable out : Outside.
Variable quiet : Silent.

Definition validateNPHIESContext (context : HealthcareContext)
  : M Page Stop unit :=
  if negb (truthy (nphiesEndpoint ep)) || negb (truthy (nphiesId context))
  then mret tt
  else
    try_catch_thrown
      (response ← await_fetch (or_else (nphiesEndpoint ep) "" ++ "/validate")
                              (nphiesReply out) (nphiesSilent quiet);
       if negb (ok response)
       then throw (Thrown ("NPHIES validation failed: " ++ statusText response))
       else mret tt)
      (fun error => settled (log (console_warn "NPHIES validation warning:" error))).

Definition validateSudanNIDContext (context : NationalIdContext)
  : M Page Stop unit :=
  if negb (truthy (sudanNidEndpoint ep)) || negb (truthy (sudanNationalId context))
  then mret tt
  else
    try_catch_thrown
      (response ← await_fetch (or_else (sudanNidEndpoint ep) "" ++ "/validate")
                              (sudanNidReply out) (sudanNidSilent quiet);
       if negb (ok response)
       then throw (Thrown ("Sudan NID validation failed: " ++ statusText response))
       else mret tt)
      (fun error => settled (log (console_warn "Sudan NID validation warning:" error))).

Definition syncWithNeuralSystem : M Page Stop unit :=
  try_catch_thrown
    (_ ← await_fetch (or_else (neuralSyncEndpoint ep) "") (neuralReply out)
                     (neuralSilent quiet);
     mret tt)
    (fun error => settled (log (console_warn "Neural sync warning:" error))).

Definition createVerificationSession (options : Options)
  : M Page Stop JsObject :=
  try_catch_thrown
    (let sessionOID := generateOID verification (countryCode options)
                                   (oidClock out) in
     (* Advanced security validation *)
     check ← settled (securityCheck (ambient out) sessionOID
                        {| uc_type := type options;
                           uc_countryCode := countryCode options |});
     if negb (isValid check)
     then throw (Thrown ("Security validation failed: "
                         ++ default "undefined" (blockedReason check)))
     else
       (* Pre-verification with regional systems *)
       match healthcareContext options with
       | Some context =>
           when (code_is "SA" (countryCode options))
                (validateNPHIESContext context)
       | None => mret tt
       end;;
       match nationalIdContext options with
       | Some context =>
           when (code_is "SD" (countryCode options))
                (validateSudanNIDContext context)
       | None => mret tt
       end;;
       response ← await_fetch "/api/create-verification-session"
                              (apiReply out) (apiSilent quiet);
       if negb (ok response)
       then throw (Thrown ("Failed to create verification session: "
                           ++ statusText response))
       else
         session ← settled (json response);
         (* Sync with Neural Integration System *)
         when (truthy (neuralSyncEndpoint ep)) syncWithNeuralSystem;;
         mret (obj_set "oid" (JStr sessionOID) session))
    (fun error =>
       settled (log (console_error "Error creating verification session:" error));;
       throw (Thrown error)).

End Service.

End Awaited.

(** Only the neural endpoint never answers. *)
Definition neuralNeverAnswers : Silent :=
  {| nphiesSilent := false; sudanNidSilent := false;
     apiSilent := false; neuralSilent := true |}.

End Client.

(** ** The edge handler: [functions/api/create-verification-session.ts] *)

Module Api.

Import Oid.

Record HealthcareContext := {
  nphiesId : option string;
  facilityCode : option string;
  practitionerId : option string
}.

Record NationalContext := {
  sudanNationalId : option string;
  ministryCode : option string;
  wilayaCode : option string
}.

Record VerificationRequest := {
  type : string;
  return_url : string;
  metadata : option (list (string * string));
  country_code : option string;
  healthcare_context : option HealthcareContext;
  national_context : option NationalContext
}.

Record Env := {
  VITE_STRIPE_SECRET_KEY : string;
  BRAINSAIT_OID_ROOT : string
}.

(** Rows of the D1 tables, with the columns the handler reads or writes. *)
Record FacilityRow := {
  facility_code : string;
  facility_is_active : bool;
  nphies_certified : bool
}.

Record WilayaRow := {
  wilaya_code : string;
  wilaya_is_active : bool
}.

(** What the [session_data] column holds: the five fields of the request
    that the handler serialises (the request's [country_code] is not among
    them, it goes to [country_context]). *)
Record SessionData := {
  sd_type : string;
  sd_return_url : string;
  sd_healthcare_context : option HealthcareContext;
  sd_national_context : option NationalContext;
  sd_metadata : option (list (string * string))
}.

Record SessionRow := {
  session_oid : string;
  stripe_session_id : string;
  session_status : string;
  country_context : string;
  session_data : SessionData;
  expires_at : string
}.

(** Values of the SESSIONS and NEURAL_CONTEXT key-value namespaces. *)
Record KvSession := {
  kv_session_oid : string;
  kv_created_at : string;
  kv_country_code : option string;
  kv_type : string
}.

Record NeuralContext := {
  nc_session_oid : string;
  nc_stripe_session_id : string;
  nc_country_context : option string;
  nc_verification_type : string;
  nc_real_time_sync : bool;
  nc_obsidian_integration : bool;
  nc_regional_integration : bool;
  nc_created_at : string
}.

(** The durable store, the two caches, and the requests sent to the
    identity provider so far (each as its form parameters). *)
Record Cloud := {
  healthcare_facilities : list FacilityRow;
  sudan_wilayas : list WilayaRow;
  verification_sessions : list SessionRow;
  SESSIONS : gmap string KvSession;
  NEURAL_CONTEXT : gmap string NeuralContext;
  provider_calls : list (gmap string string);
  console : list LogLine
}.

Record StripeSession := {
  id : string;
  fields : JsObject
}.

Record StripeResponse := {
  s_ok : bool;
  s_status : Z;
  s_text : string;                   (* what text() resolves to *)
  s_json : option StripeSession      (* what json() resolves to *)
}.

Inductive StripeFetch :=
| StripeRejected (message : string)
| StripeResolved (r : StripeResponse).

(** One incoming request and the behaviour of the services behind the
    handler while it runs: an [Some message] fault makes the operation
    throw. *)
Record Incoming := {
  request_body : option VerificationRequest;   (* None: request.json() rejects *)
  now : Z;                                     (* Date.now() *)
  isoNow : string;            (* new Date().toISOString(), cached session *)
  isoNowNeural : string;      (* new Date().toISOString(), neural context *)
  expiry : string;            (* datetime('now', '+24 hours'), in the database *)
  stripe : StripeFetch;
  d1_select_fault : option string;
  d1_insert_fault : option string;
  kv_sessions_fault : option string;
  kv_neural_fault : option string
}.

Inductive Payload :=
| ErrorPayload (error : string) (detail : option string)
| SessionPayload (session : StripeSession) (brainsait_oid : string)
                 (neural_integration regional_context : bool).

Record Response := {
  status : Z;
  payload : Payload
}.

Definition set_verification_sessions (rows : list SessionRow) (c : Cloud) : Cloud :=
  {| healthcare_facilities := healthcare_facilities c;
     sudan_wilayas := sudan_wilayas c;
     verification_sessions := rows;
     SESSIONS := SESSIONS c;
     NEURAL_CONTEXT := NEURAL_CONTEXT c;
     provider_calls := provider_calls c;
     console := console c |}.

Definition set_SESSIONS (m : gmap string KvSession) (c : Cloud) : Cloud :=
  {| healthcare_facilities := healthcare_facilities c;
     sudan_wilayas := sudan_wilayas c;
     verification_sessions := verification_sessions c;
     SESSIONS := m;
     NEURAL_CONTEXT := NEURAL_CONTEXT c;
     provider_calls := provider_calls c;
     console := console c |}.

Definition set_NEURAL_CONTEXT (m : gmap string NeuralContext) (c : Cloud) : Cloud :=
  {| healthcare_facilities := healthcare_facilities c;
     sudan_wilayas := sudan_wilayas c;
     verification_sessions := verification_sessions c;
     SESSIONS := SESSIONS c;
     NEURAL_CONTEXT := m;
     provider_calls := provider_calls c;
     console := console c |}.

Definition set_provider_calls (l : list (gmap string string)) (c : Cloud) : Cloud :=
  {| healthcare_facilities := healthcare_facilities c;
     sudan_wilayas := sudan_wilayas c;
     verification_sessions := verification_sessions c;
     SESSIONS := SESSIONS c;
     NEURAL_CONTEXT := NEURAL_CONTEXT c;
     provider_calls := l;
     console := console c |}.

Definition set_console (l : list LogLine) (c : Cloud) : Cloud :=
  {| healthcare_facilities := healthcare_facilities c;
     sudan_wilayas := sudan_wilayas c;
     verification_sessions := verification_sessions c;
     SESSIONS := SESSIONS c;
     NEURAL_CONTEXT := NEURAL_CONTEXT c;
     provider_calls := provider_calls c;
     console := l |}.

Section Handler.

Variable env : Env.
Variable i : Incoming.

Definition faulty (fault : option string) : M Cloud string unit :=
  match fault with
  | Some message => throw message
  | None => mret tt
  end.

(** [SELECT id FROM healthcare_facilities WHERE facility_code = ? AND
    is_active = 1 AND nphies_certified = 1], [.first()]. *)
Definition select_facility (code : string) : M Cloud string (option FacilityRow) :=
  faulty (d1_select_fault i);;
  rows ← gets healthcare_facilities;
  mret (List.find (fun r => String.eqb (facility_code r) code
                            && facility_is_active r && nphies_certified r)
                  rows).

(** [SELECT id FROM sudan_wilayas WHERE wilaya_code = ? AND is_active = 1],
    [.first()]. *)
Definition select_wilaya (code : string) : M Cloud string (option WilayaRow) :=
  faulty (d1_select_fault i);;
  rows ← gets sudan_wilayas;
  mret (List.find (fun r => String.eqb (wilaya_code r) code
                            && wilaya_is_active r)
                  rows).

Definition validateSaudiFacility (facilityCode : option string)
  : M Cloud string bool :=
  if negb (truthy facilityCode) then mret true
  else
    result ← select_facility (default "" facilityCode);
    mret (bool_decide (is_Some result)).

Definition validateSudanWilaya (wilayaCode : option string)
  : M Cloud string bool :=
  if negb (truthy wilayaCode) then mret true
  else
    result ← select_wilaya (default "" wilayaCode);
    mret (bool_decide (is_Some result)).

(** The form parameters of the provider request: the five fixed ones, then
    one [metadata[k]] per entry of the request's metadata, later entries
    overriding earlier ones. *)
Definition stripe_params (body : VerificationRequest) (sessionOID : string)
  : gmap string string :=
  let base : gmap string string :=
    <["metadata[neural_integration]" := "enabled"]>
    (<["metadata[country_code]" := or_else (country_code body) "US"]>
    (<["metadata[brainsait_oid]" := sessionOID]>
    (<["return_url" := return_url body]>
    (<["type" := type body]> ∅)))) in
  match metadata body with
  | Some entries =>
      fold_left (fun acc kv => <["metadata[" ++ fst kv ++ "]" := snd kv]> acc)
                entries base
  | None => base
  end.

Definition stripe_fetch (params : gmap string string)
  : M Cloud string StripeResponse :=
  fun c =>
    let c := set_provider_calls (provider_calls c ++ [params])%list c in
    match stripe i with
    | StripeRejected message => (c, inl message)
    | StripeResolved r => (c, inr r)
    end.

Definition stripe_json (r : StripeResponse) : M Cloud string StripeSession :=
  match s_json r with
  | Some s => mret s
  | None => throw "Unexpected end of JSON input"
  end.

(** [INSERT INTO verification_sessions ...], [.run()]: both identifier
    columns are declared UNIQUE in the schema. *)
Definition d1_insert (row : SessionRow) : M Cloud string unit :=
  faulty (d1_insert_fault i);;
  rows ← gets verification_sessions;
  if existsb (fun r => String.eqb (session_oid r) (session_oid row)
                       || String.eqb (stripe_session_id r) (stripe_session_id row))
             rows
  then throw "UNIQUE constraint failed"
  else modify (set_verification_sessions (rows ++ [row])%list).

Definition kv_sessions_put (key : string) (v : KvSession) : M Cloud string unit :=
  faulty (kv_sessions_fault i);;
  modify (fun c => set_SESSIONS (<[key := v]> (SESSIONS c)) c).

Definition kv_neural_put (key : string) (v : NeuralContext) : M Cloud string unit :=
  faulty (kv_neural_fault i);;
  modify (fun c => set_NEURAL_CONTEXT (<[key := v]> (NEURAL_CONTEXT c)) c).

Definition reply (status : Z) (error : string) (detail : option string) : Response :=
  {| status := status; payload := ErrorPayload error detail |}.

(** [body.metadata?.neural_integration === 'enabled']: the last entry for
    the key decides, as in a JavaScript object. *)
Definition neural_enabled (body : VerificationRequest) : bool :=
  match metadata body with
  | Some entries =>
      match List.find (fun kv => String.eqb (fst kv) "neural_integration")
                      (rev entries) with
      | Some kv => String.eqb (snd kv) "enabled"
      | None => false
      end
  | None => false
  end.

Definition handle : M Cloud string Response :=
  body ← match request_body i with
         | Some b => mret b
         | None => throw "Unexpected end of JSON input"
         end;
  (* Generate BrainSAIT OID for this session *)
  let sessionOID := sessionOID (BRAINSAIT_OID_ROOT env) (country_code body) (now i) in
  (* Validate regional context if provided *)
  facilityValid ← match healthcare_context body with
                  | Some hc =>
                      if code_is "SA" (country_code body)
                      then validateSaudiFacility (facilityCode hc)
                      else mret true
                  | None => mret true
                  end;
  if negb facilityValid
  then mret (reply 400 "Invalid Saudi healthcare facility" None)
  else
    wilayaValid ← match national_context body with
                  | Some nc =>
                      if code_is "SD" (country_code body)
                      then validateSudanWilaya (wilayaCode nc)
                      else mret true
                  | None => mret true
                  end;
    if negb wilayaValid
    then mret (reply 400 "Invalid Sudan wilaya" None)
    else
      (* Create Stripe Identity verification session *)
      stripeResponse ← stripe_fetch (stripe_params body sessionOID);
      if negb (s_ok stripeResponse)
      then mret (reply (s_status stripeResponse) "Stripe API error"
                       (Some (s_text stripeResponse)))
      else
        stripeSession ← stripe_json stripeResponse;
        (* Store session in D1 database *)
        d1_insert {| session_oid := sessionOID;
                     stripe_session_id := id stripeSession;
                     session_status := "created";
                     country_context := or_else (country_code body) "US";
                     session_data :=
                       {| sd_type := type body;
                          sd_return_url := return_url body;
                          sd_healthcare_context := healthcare_context body;
                          sd_national_context := national_context body;
                          sd_metadata := metadata body |};
                     expires_at := expiry i |};;
        (* Store session in KV for quick access *)
        kv_sessions_put (id stripeSession)
          {| kv_session_oid := sessionOID;
             kv_created_at := isoNow i;
             kv_country_code := country_code body;
             kv_type := type body |};;
        (* Store neural context if enabled *)
        when (neural_enabled body)
          (kv_neural_put sessionOID
             {| nc_session_oid := sessionOID;
                nc_stripe_session_id := id stripeSession;
                nc_country_context := country_code body;
                nc_verification_type := type body;
                nc_real_time_sync := true;
                nc_obsidian_integration := true;
                nc_regional_integration := negb (code_is "US" (country_code body));
                nc_created_at := isoNowNeural i |});;
        mret {| status := 200;
                payload := SessionPayload stripeSession sessionOID
                             (neural_enabled body)
                             (negb (code_is "US" (country_code body))) |}.

(** The handler: [handle] inside the outer [try], whose [catch] turns
    whatever was thrown into a 500. *)
Definition onRequestPost (c : Cloud) : Cloud * Response :=
  match handle c with
  | (c', inr response) => (c', response)
  | (c', inl message) =>
      (set_console
         (console c' ++ [console_error "Verification session creation error:" message])%list
         c',
       reply 500 "Internal server error" (Some message))
  end.

End Handler.

(** *** What the properties below speak of *)

(** No active row carries this wilaya code: the code is unknown, or its
    row is inactive. *)
Definition wilaya_unknown_or_inactive (c : Cloud) (code : string) : Prop :=
  forall r, In r (sudan_wilayas c) -> wilaya_code r = code ->
            wilaya_is_active r = false.

(** No row with this facility code is both active and certified. *)
Definition facility_inactive_or_uncertified (c : Cloud) (code : string) : Prop :=
  forall r, In r (healthcare_facilities c) -> facility_code r = code ->
            facility_is_active r && nphies_certified r = false.

(** The request names a regional code that the registry tables do not
    accept, and the message the handler answers with. *)
Definition bad_regional_code (c : Cloud) (body : VerificationRequest)
  (error : string) : Prop :=
  (country_code body = Some "SD"
   /\ error = "Invalid Sudan wilaya"
   /\ exists nc code,
        national_context body = Some nc /\ wilayaCode nc = Some code
        /\ code <> "" /\ wilaya_unknown_or_inactive c code)
  \/
  (country_code body = Some "SA"
   /\ error = "Invalid Saudi healthcare facility"
   /\ exists hc code,
        healthcare_context body = Some hc /\ facilityCode hc = Some code
        /\ code <> "" /\ facility_inactive_or_uncertified c code).

(** Every cached session has its durable row. *)
Definition cache_backed (c : Cloud) : Prop :=
  forall key v, SESSIONS c !! key = Some v ->
    exists row, In row (verification_sessions c)
                /\ stripe_session_id row = key
                /\ session_oid row = kv_session_oid v.

(** [row] went into the durable session table between [c] and [c'], past
    the two uniqueness constraints of the schema. *)
Definition appended (c c' : Cloud) (row : SessionRow) : Prop :=
  verification_sessions c' = (verification_sessions c ++ [row])%list
  /\ forall r, In r (verification_sessions c) ->
               session_oid r <> session_oid row
               /\ stripe_session_id r <> stripe_session_id row.

(** One run either left the session cache alone, or appended the session's
    row to the durable table and then cached that same session. *)
Definition written_through (c c' : Cloud) : Prop :=
  (SESSIONS c' = SESSIONS c
   /\ (verification_sessions c' = verification_sessions c
       \/ exists row, appended c c' row))
  \/
  (exists row v,
      appended c c' row
      /\ SESSIONS c' = <[stripe_session_id row := v]> (SESSIONS c)
      /\ kv_session_oid v = session_oid row).

(** The stored sessions have pairwise different identifiers. *)
Definition oids_distinct (c : Cloud) : Prop :=
  NoDup (session_oid <$> verification_sessions c).

(** The request makes the handler query a registry table. *)
Definition needs_registry (body : VerificationRequest) : bool :=
  (code_is "SA" (country_code body)
   && match healthcare_context body with
      | Some hc => truthy (facilityCode hc)
      | None => false
      end)
  || (code_is "SD" (country_code body)
      && match national_context body with
         | Some nc => truthy (wilayaCode nc)
         | None => false
         end).

(** A step keeps the session stores when it touches neither the durable
    session table nor the session cache, however it ends. *)
Definition keeps {A} (m : M Cloud string A) : Prop :=
  forall c c' r, m c = (c', r) ->
    SESSIONS c' = SESSIONS c
    /\ verification_sessions c' = verification_sessions c.

(** The identifier a response carries, and the one a provider request
    carries. *)
Definition oid_of (r : Response) : option string :=
  match payload r with
  | SessionPayload _ oid _ _ => Some oid
  | ErrorPayload _ _ => None
  end.

Definition oid_sent (params : gmap string string) : option string :=
  params !! "metadata[brainsait_oid]".

(** The codes the request supplies are accepted by the registry tables:
    an active and certified facility for a Saudi request, an active wilaya
    for a Sudanese one. *)
Definition regional_codes_accepted (c : Cloud) (body : VerificationRequest)
  : Prop :=
  (forall hc code,
      code_is "SA" (country_code body) = true ->
      healthcare_context body = Some hc ->
      facilityCode hc = Some code -> code <> "" ->
      exists r, In r (healthcare_facilities c)
                /\ facility_code r = code
                /\ facility_is_active r = true
                /\ nphies_certified r = true)
  /\ (forall nc code,
         code_is "SD" (country_code body) = true ->
         national_context body = Some nc ->
         wilayaCode nc = Some code -> code <> "" ->
         exists r, In r (sudan_wilayas c)
                   /\ wilaya_code r = code
                   /\ wilaya_is_active r = true).

(** The request gets past regional validation: it needs no registry, or
    the registry answers and accepts its codes. *)
Definition passes_regional (i : Incoming) (c : Cloud)
  (body : VerificationRequest) : Prop :=
  needs_registry body = false
  \/ (d1_select_fault i = None /\ regional_codes_accepted c body).

(** [metadata[k]] of a request, as a JavaScript object reads it: the last
    entry for the key. *)
Definition metadata_get (k : string) (body : VerificationRequest)
  : option string :=
  match metadata body with
  | Some entries =>
      snd <$> List.find (fun kv => String.eqb (fst kv) k) (rev entries)
  | None => None
  end.

(** What [request.json()] gives the handler for a request sent by the
    browser service: the fields the handler reads at the top level and the
    browser does not send are undefined. *)
Definition fromBrowser (sent : Client.RequestBody) : VerificationRequest :=
  {| type := Client.rb_type sent;
     return_url := Client.rb_return_url sent;
     metadata := Some (Client.rb_metadata sent);
     country_code := None;
     healthcare_context := None;
     national_context := None |}.

(** *** A small deployment *)

Definition production : Env :=
  {| VITE_STRIPE_SECRET_KEY := "sk_live_redacted";
     BRAINSAIT_OID_ROOT := "1.3.6.1.4.1.61026" |}.

Definition seeded : Cloud :=
  {| healthcare_facilities :=
       [ {| facility_code := "KSA001"; facility_is_active := true;
            nphies_certified := true |};
         {| facility_code := "KSA002"; facility_is_active := true;
            nphies_certified := false |};
         {| facility_code := "KSA003"; facility_is_active := false;
            nphies_certified := true |} ];
     sudan_wilayas :=
       [ {| wilaya_code := "SD01"; wilaya_is_active := true |};
         {| wilaya_code := "SD02"; wilaya_is_active := false |} ];
     verification_sessions := [];
     SESSIONS := ∅;
     NEURAL_CONTEXT := ∅;
     provider_calls := [];
     console := [] |}.

Definition sudanRequest (wilaya : string) : VerificationRequest :=
  {| type := "id_number";
     return_url := "https://iod.brainsait.example/return";
     metadata := Some [("neural_integration", "enabled")];
     country_code := Some "SD";
     healthcare_context := None;
     national_context := Some {| sudanNationalId := Some "19900101-1234";
                                 ministryCode := None;
                                 wilayaCode := Some wilaya |} |}.

Definition saudiRequest (kind facility : string) : VerificationRequest :=
  {| type := kind;
     return_url := "https://iod.brainsait.example/return";
     metadata := None;
     country_code := Some "SA";
     healthcare_context := Some {| nphiesId := Some "NPH-1001";
                                   facilityCode := Some facility;
                                   practitionerId := None |};
     national_context := None |}.

Definition stripeCreated (session : string) : StripeFetch :=
  StripeResolved {| s_ok := true; s_status := 200; s_text := "";
                    s_json := Some {| id := session;
                                      fields := [("status", JStr "requires_input")] |} |}.

(** A request arriving at [now] with every service behind the handler
    healthy. *)
Definition arriving (body : VerificationRequest) (at_ : Z) (session : string)
  : Incoming :=
  {| request_body := Some body;
     now := at_;
     isoNow := "2023-11-14T22:13:20.004Z";
     isoNowNeural := "2023-11-14T22:13:20.009Z";
     expiry := "2023-11-15 22:13:20";
     stripe := stripeCreated session;
     d1_select_fault := None;
     d1_insert_fault := None;
     kv_sessions_fault := None;
     kv_neural_fault := None |}.

(** The same, with the registry query failing ... *)
Definition registry_down (i : Incoming) (message : string) : Incoming :=
  {| request_body := request_body i;
     now := now i;
     isoNow := isoNow i;
     isoNowNeural := isoNowNeural i;
     expiry := expiry i;
     stripe := stripe i;
     d1_select_fault := Some message;
     d1_insert_fault := d1_insert_fault i;
     kv_sessions_fault := kv_sessions_fault i;
     kv_neural_fault := kv_neural_fault i |}.

(** ... and with the durable insert failing. *)
Definition insert_down (i : Incoming) (message : string) : Incoming :=
  {| request_body := request_body i;
     now := now i;
     isoNow := isoNow i;
     isoNowNeural := isoNowNeural i;
     expiry := expiry i;
     stripe := stripe i;
     d1_select_fault := d1_select_fault i;
     d1_insert_fault := Some message;
     kv_sessions_fault := kv_sessions_fault i;
     kv_neural_fault := kv_neural_fault i |}.

(** The provider answers with an error of its own. *)
Definition stripeRefuses (status : Z) (text : string) : StripeFetch :=
  StripeResolved {| s_ok := false; s_status := status; s_text := text;
                    s_json := None |}.

Definition with_stripe (s : StripeFetch) (i : Incoming) : Incoming :=
  {| request_body := request_body i;
     now := now i;
     isoNow := isoNow i;
     isoNowNeural := isoNowNeural i;
     expiry := expiry i;
     stripe := s;
     d1_select_fault := d1_select_fault i;
     d1_insert_fault := d1_insert_fault i;
     kv_sessions_fault := kv_sessions_fault i;
     kv_neural_fault := kv_neural_fault i |}.

(** A request from elsewhere, without regional context, whose metadata
    tries to name its own identifier. *)
Definition foreignRequest : VerificationRequest :=
  {| type := "document";
     return_url := "https://iod.brainsait.example/return";
     metadata := Some [("brainsait_oid", "1.2.3"); ("campaign", "spring")];
     country_code := Some "US";
     healthcare_context := None;
     national_context := None |}.

End Api.

(** ** The neural integration store and service: [src/services/neural.ts] *)

Module Neural.

Import Oid.

(** *** [String.prototype.hashCode] *)

(** [ToInt32]: the signed 32-bit value of a number. *)
Definition toInt32 (z : Z) : Z := (z + 2 ^ 31) mod 2 ^ 32 - 2 ^ 31.

(** [a << n] for a shift count below 32. *)
Definition shl32 (a n : Z) : Z := toInt32 (Z.shiftl (toInt32 a) n).

(** [a & b] *)
Definition and32 (a b : Z) : Z := Z.land (toInt32 a) (toInt32 b).

(** [charCodeAt] over a string of ASCII characters: its UTF-16 code units
    are its bytes. *)
Definition units (s : string) : list Z :=
  List.map (fun c => Z.of_nat (nat_of_ascii c)) (list_ascii_of_string s).

(** One turn of the loop. *)
Definition hashStep (hash char : Z) : Z :=
  let hash := (shl32 hash 5 - hash) + char in
  and32 hash hash.

(** The hash of a string given by its code units. *)
Definition hashCode (this : list Z) : Z :=
  let hash := 0 in
  if (length this =? 0)%nat then hash
  else Z.abs (fold_left hashStep this hash).

(** The polynomial the loop evaluates, without wrap-around. *)
Definition horner (this : list Z) : Z :=
  fold_left (fun h c => 31 * h + c) this 0.

(** *** [BrainSAITNeuralService.generateNeuralOID] *)

Inductive Branch := identity | healthcare | national | neural.

Definition root : string := "1.3.6.1.4.1.61026".

Definition branches (type : Branch) : string :=
  match type with
  | identity => "1.3.6.1.4.1.61026.1"
  | healthcare => "1.3.6.1.4.1.61026.2"
  | national => "1.3.6.1.4.1.61026.3"
  | neural => "1.3.6.1.4.1.61026.4"
  end.

(** The subtype is given by its code units; an absent or empty subtype
    adds no arc. *)
Definition generateNeuralOID (type : Branch) (subtype : option (list Z))
  (now : Z) : string :=
  let timestamp := now in
  let branch := branches type in
  let subtypeId := match subtype with
                   | Some (c :: rest) =>
                       "." ++ Number_toString (hashCode (c :: rest))
                   | _ => ""
                   end in
  branch ++ subtypeId ++ "." ++ Number_toString timestamp.

(** *** The store *)

Inductive SyncStatus := idle | syncing | connected | error.

Record Features := {
  real_time_sync : bool;
  obsidian_integration : bool;
  bilingual_support : bool;
  rtl_support : bool
}.

(** The context [createNeuralContext] builds. *)
Record VerificationContext := {
  neural_oid : string;
  verification_id : option Json;
  country_code : option string;
  timestamp : string;
  neural_features : Features
}.

(** A value of the [neuralContext] object: built here, or merged in from
    a message of the peer. *)
Inductive ContextValue :=
| Built (c : VerificationContext)
| FromPeer (j : Json).

Record Store := {
  isConnected : bool;
  mcpConnection : option nat;        (* the socket, by the order of its creation *)
  obsidianSyncStatus : SyncStatus;
  lastSyncTimestamp : option string;
  activeOID : option string;
  neuralContext : gmap string ContextValue
}.

Record SyncMessage := {
  sm_timestamp : string;
  sm_oid : option string;
  sm_data : VerificationContext
}.

(** The store, what has been sent over the socket, and the console. *)
Record World := {
  store : Store;
  sent : list SyncMessage;
  console : list LogLine
}.

Definition initial : Store :=
  {| isConnected := false;
     mcpConnection := None;
     obsidianSyncStatus := idle;
     lastSyncTimestamp := None;
     activeOID := None;
     neuralContext := ∅ |}.

Definition set_store (f : Store -> Store) (w : World) : World :=
  {| store := f (store w); sent := sent w; console := console w |}.

Definition log (l : LogLine) (w : World) : World :=
  {| store := store w; sent := sent w; console := (console w ++ [l])%list |}.

Definition with_status (st : SyncStatus) (s : Store) : Store :=
  {| isConnected := isConnected s;
     mcpConnection := mcpConnection s;
     obsidianSyncStatus := st;
     lastSyncTimestamp := lastSyncTimestamp s;
     activeOID := activeOID s;
     neuralContext := neuralContext s |}.

(** A message of the peer, parsed. *)
Record PeerMessage := {
  msg_type : option string;
  msg_context : gmap string Json
}.

(** [ws.onopen] *)
Definition onopen (ws : nat) (iso : string) (s : Store) : Store :=
  {| isConnected := true;
     mcpConnection := Some ws;
     obsidianSyncStatus := connected;
     lastSyncTimestamp := Some iso;
     activeOID := activeOID s;
     neuralContext := neuralContext s |}.

(** [ws.onmessage]; [None] is a message that does not parse. *)
Definition onmessage (data : option PeerMessage) (iso : string) (w : World)
  : World :=
  match data with
  | None => log (console_error "Error parsing MCP message:" "SyntaxError") w
  | Some d =>
      if code_is "obsidian_sync" (msg_type d)
      then set_store
             (fun s =>
                {| isConnected := isConnected s;
                   mcpConnection := mcpConnection s;
                   obsidianSyncStatus := obsidianSyncStatus s;
                   lastSyncTimestamp := Some iso;
                   activeOID := activeOID s;
                   neuralContext := (FromPeer <$> msg_context d) ∪ neuralContext s |})
             w
      else w
  end.

(** [ws.onerror] *)
Definition onerror (w : World) : World :=
  set_store (with_status error)
            (log (console_error "MCP connection error:" "error") w).

(** [ws.onclose] *)
Definition onclose (s : Store) : Store :=
  {| isConnected := false;
     mcpConnection := None;
     obsidianSyncStatus := idle;
     lastSyncTimestamp := lastSyncTimestamp s;
     activeOID := activeOID s;
     neuralContext := neuralContext s |}.

(** [syncWithObsidian(data)]: [open] says whether the socket's
    [readyState] is OPEN, [send_fails] whether [send] throws. *)
Definition syncWithObsidian (data : VerificationContext)
  (open send_fails : bool) (iso1 iso2 : string) (w : World) : World :=
  match mcpConnection (store w) with
  | Some ws =>
      if negb open
      then log (console_warn "MCP connection not available for sync" "") w
      else
        let w := set_store (with_status syncing) w in
        if send_fails
        then set_store (with_status error)
               (log (console_error "Obsidian sync error:" "send") w)
        else
          let w := {| store := store w;
                      sent := (sent w ++ [{| sm_timestamp := iso1;
                                             sm_oid := activeOID (store w);
                                             sm_data := data |}])%list;
                      console := console w |} in
          set_store
            (fun s =>
               {| isConnected := isConnected s;
                  mcpConnection := mcpConnection s;
                  obsidianSyncStatus := connected;
                  lastSyncTimestamp := Some iso2;
                  activeOID := activeOID s;
                  neuralContext := neuralContext s |})
            w
  | None => log (console_warn "MCP connection not available for sync" "") w
  end.

Definition updateNeuralContext (context : gmap string ContextValue)
  (s : Store) : Store :=
  {| isConnected := isConnected s;
     mcpConnection := mcpConnection s;
     obsidianSyncStatus := obsidianSyncStatus s;
     lastSyncTimestamp := lastSyncTimestamp s;
     activeOID := activeOID s;
     neuralContext := context ∪ neuralContext s |}.

Definition setActiveOID (oid : string) (s : Store) : Store :=
  {| isConnected := isConnected s;
     mcpConnection := mcpConnection s;
     obsidianSyncStatus := obsidianSyncStatus s;
     lastSyncTimestamp := lastSyncTimestamp s;
     activeOID := Some oid;
     neuralContext := neuralContext s |}.

Definition disconnect (s : Store) : Store :=
  {| isConnected := false;
     mcpConnection := None;
     obsidianSyncStatus := idle;
     lastSyncTimestamp := lastSyncTimestamp s;
     activeOID := None;
     neuralContext := neuralContext s |}.

(** [createNeuralContext(verificationData, countryCode)]: the context it
    returns, and what it does to the store. *)
Definition createNeuralContext (flags : Features) (verificationData : JsObject)
  (countryCode : option string) (now : Z) (iso : string)
  (open send_fails : bool) (iso1 iso2 : string) (w : World)
  : World * VerificationContext :=
  let neuralOID := generateNeuralOID neural (Some (units "verification")) now in
  let context := {| neural_oid := neuralOID;
                    verification_id := obj_get "id" verificationData;
                    country_code := countryCode;
                    timestamp := iso;
                    neural_features := flags |} in
  let neuralStore := store w in
  let w := set_store (setActiveOID neuralOID) w in
  let w := set_store
             (updateNeuralContext {[ "identity_verification" := Built context ]})
             w in
  let w := if isConnected neuralStore
           then syncWithObsidian context open send_fails iso1 iso2 w
           else w in
  (w, context).

(** What can happen to the store, one step at a time. *)
Inductive Event :=
| Opened (ws : nat) (iso : string)
| Message (data : option PeerMessage) (iso : string)
| Errored
| Closed
| Sync (data : VerificationContext) (open send_fails : bool) (iso1 iso2 : string)
| Update (context : gmap string ContextValue)
| Activate (oid : string)
| Disconnect
| Create (flags : Features) (verificationData : JsObject)
         (countryCode : option string) (now : Z) (iso : string)
         (open send_fails : bool) (iso1 iso2 : string).

Definition step (w : World) (e : Event) : World :=
  match e with
  | Opened ws iso => set_store (onopen ws iso) w
  | Message data iso => onmessage data iso w
  | Errored => onerror w
  | Closed => set_store onclose w
  | Sync data open send_fails iso1 iso2 =>
      syncWithObsidian data open send_fails iso1 iso2 w
  | Update context => set_store (updateNeuralContext context) w
  | Activate oid => set_store (setActiveOID oid) w
  | Disconnect => set_store disconnect w
  | Create flags data cc now iso open send_fails iso1 iso2 =>
      fst (createNeuralContext flags data cc now iso open send_fails iso1 iso2 w)
  end.

Definition run (events : list Event) (w : World) : World :=
  fold_left step events w.

Definition start : World := {| store := initial; sent := []; console := [] |}.

(** The store is coherent: connected exactly when it holds a socket, never
    resting in [syncing], and [connected] only while connected. *)
Definition coherent (s : Store) : Prop :=
  (isConnected s = true <-> mcpConnection s <> None)
  /\ obsidianSyncStatus s <> syncing
  /\ (obsidianSyncStatus s = connected -> isConnected s = true).

Definition allFeatures : Features :=
  {| real_time_sync := true; obsidian_integration := true;
     bilingual_support := true; rtl_support := true |}.

End Neural.

(** * Properties *)

(** ** The risk scorer *)

Section RiskScorer.

Import Security.

Variable a : Ambient.
Variable sessionId : string.
Variable userContext : UserContext.
Variable s : Service.

Let run := validateVerificationRequest a sessionId userContext s.

(** The score is the sum of four contributions.  The second one is the
    burst penalty: the call overwrites [lastAttemptTimestamp] with the
    current time before it compares the two, so the difference it tests is
    always zero. *)
Lemma riskScore_sum :
  riskScore (snd run) =
    (if maxVerificationAttempts (config s)
        <? verificationAttempts (recordedMetrics a sessionId s) + 1
     then 50 else 0)
    + 30
    + (if fp_differs (deviceFingerprint (recordedMetrics a sessionId s))
                     (resolvedFingerprint a s)
       then 40 else 0)
    + (if enableAdvancedFraudDetection (config s)
       then performAdvancedFraudChecks a userContext (recordedMetrics a sessionId s)
       else 0).
Proof.
  subst run.
  unfold validateVerificationRequest, recordedMetrics, resolvedFingerprint,
    initializeDeviceFingerprinting.
  rewrite Z.sub_diag. change (0 <? 5000) with true.
  destruct (sessionStorage s !! fp_key) as [fp|]; [destruct (truthy (Some fp))|];
    cbn [fst snd riskScore securityMetrics config sessionStorage];
    destruct (securityMetrics s !! sessionId) as [m|];
    cbn [fst snd riskScore];
    repeat match goal with
           | |- context [if ?b then _ else _] => destruct b
           end; cbn; lia.
Qed.

Lemma verdict_of_score :
  isValid (snd run) = (riskScore (snd run) <? 70)
  /\ blockedReason (snd run) =
       if riskScore (snd run) <? 70 then None
       else Some (getRiskReason (riskScore (snd run))).
Proof.
  subst run. unfold validateVerificationRequest.
  destruct (sessionStorage s !! fp_key) as [fp|]; [destruct (truthy (Some fp))|];
    cbn [initializeDeviceFingerprinting]; cbn [snd isValid riskScore blockedReason];
    auto.
Qed.

Lemma config_after : config (fst run) = config s.
Proof.
  subst run. unfold validateVerificationRequest.
  destruct (sessionStorage s !! fp_key) as [fp|]; [destruct (truthy (Some fp))|];
    reflexivity.
Qed.

Lemma storage_after :
  sessionStorage (fst run) !! fp_key = Some (resolvedFingerprint a s).
Proof.
  subst run. unfold validateVerificationRequest, resolvedFingerprint.
  destruct (sessionStorage s !! fp_key) as [fp|] eqn:E;
    [destruct (truthy (Some fp))|];
    cbn [initializeDeviceFingerprinting fst sessionStorage];
    rewrite ?lookup_insert_eq; auto.
Qed.

Lemma metrics_after :
  exists m,
    securityMetrics (fst run) !! sessionId = Some m
    /\ verificationAttempts m = verificationAttempts (recordedMetrics a sessionId s) + 1
    /\ lastAttemptTimestamp m = clock a
    /\ deviceFingerprint m = deviceFingerprint (recordedMetrics a sessionId s).
Proof.
  subst run. unfold validateVerificationRequest, recordedMetrics, resolvedFingerprint.
  destruct (sessionStorage s !! fp_key) as [fp|] eqn:E;
    [destruct (truthy (Some fp))|];
    cbn [initializeDeviceFingerprinting fst securityMetrics sessionStorage];
    rewrite lookup_insert_eq; eexists; (split; [reflexivity|]);
    destruct (securityMetrics s !! sessionId); cbn; auto.
Qed.

End RiskScorer.

Section RiskScorerClaims.

Import Security.

(** The burst penalty does not depend on the clock at all: every call is
    charged it. *)
Lemma burst_penalty_unconditional a sessionId userContext s :
  30 <= riskScore (snd (validateVerificationRequest a sessionId userContext s)).
Proof.
  rewrite riskScore_sum.
  unfold performAdvancedFraudChecks, fraudScoreOf.
  repeat match goal with
         | |- context [if ?b then _ else _] => destruct b
         end; lia.
Qed.

(** C1 (code defect).  A first attempt: no metrics are recorded for the
    session key, so the previous-attempt timestamp the call starts from is
    0 and the time since it is far above five seconds; the fingerprint is
    the one just recorded; the browser shows no automation marker.  The
    claim puts the score at 0; the call returns 30, because it compares the
    current time with the timestamp it has just overwritten. *)
Theorem C1_first_attempt_scores_30 :
  let s := fresh (mkConfig true true true) in
  let a := plainBrowser 1700000000000 in
  let key := "1.3.6.1.4.1.61026.1.682.1700000000000" in
  securityMetrics s !! key = None
  /\ 5000 <= clock a - lastAttemptTimestamp (recordedMetrics a key s)
  /\ fp_differs (deviceFingerprint (recordedMetrics a key s))
                (resolvedFingerprint a s) = false
  /\ detectHeadlessBrowser a = false
  /\ detectAutomationTools a = false
  /\ snd (validateVerificationRequest a key documentSA s)
     = {| isValid := true; riskScore := 30; blockedReason := None |}.
Proof.
  cbv zeta. repeat split; vm_compute; try reflexivity; discriminate.
Qed.

(** Fingerprints stay put along a resubmission when the device keeps
    producing the same print. *)
Lemma resolved_again a a' sessionId userContext s :
  canvasPrint a' = canvasPrint a ->
  resolvedFingerprint a'
    (fst (validateVerificationRequest a sessionId userContext s))
  = resolvedFingerprint a s.
Proof.
  intros Hprint.
  unfold resolvedFingerprint at 1. rewrite storage_after.
  destruct (truthy (Some (resolvedFingerprint a s))) eqn:T; [reflexivity|].
  unfold resolvedFingerprint in *.
  destruct (sessionStorage s !! fp_key) as [fp|]; [|exact Hprint].
  destruct (truthy (Some fp)) eqn:T'; [congruence|exact Hprint].
Qed.

Lemma recorded_again a a' sessionId userContext s :
  let s' := fst (validateVerificationRequest a sessionId userContext s) in
  verificationAttempts (recordedMetrics a' sessionId s')
    = verificationAttempts (recordedMetrics a sessionId s) + 1
  /\ deviceFingerprint (recordedMetrics a' sessionId s')
    = deviceFingerprint (recordedMetrics a sessionId s).
Proof.
  cbv zeta.
  destruct (metrics_after a sessionId userContext s) as (m & Hm & Hn & _ & Hfp).
  unfold recordedMetrics at 1 3. rewrite Hm. auto.
Qed.

(** C2 (amended).  The same request submitted four times in a row under a
    fresh session key, the fourth within five seconds of the third, from a
    device that keeps the same fingerprint and shows no automation marker,
    with the configured maximum of three attempts: the fourth verdict has
    score 80 (50 for exceeding the maximum, 30 burst), blocks, and gives the
    reason "Suspicious activity patterns". *)
Theorem C2_fourth_submission_scores_80
  (a1 a2 a3 a4 : Ambient) (sessionId : string) (userContext : UserContext)
  (s : Service) :
  securityMetrics s !! sessionId = None ->
  maxVerificationAttempts (config s) = 3 ->
  canvasPrint a2 = canvasPrint a1 ->
  canvasPrint a3 = canvasPrint a1 ->
  canvasPrint a4 = canvasPrint a1 ->
  0 <= clock a4 - clock a3 < 5000 ->
  detectHeadlessBrowser a4 = false ->
  detectAutomationTools a4 = false ->
  last (snd (submit [a1; a2; a3; a4] sessionId userContext s))
  = Some {| isValid := false;
            riskScore := 80;
            blockedReason := Some "Suspicious activity patterns" |}.
Proof.
  intros Hnew Hmax H2 H3 H4 Hclock Hhead Htools.
  cbn [submit].
  destruct (validateVerificationRequest a1 sessionId userContext s)
    as [s1 v1] eqn:E1.
  destruct (validateVerificationRequest a2 sessionId userContext s1)
    as [s2 v2] eqn:E2.
  destruct (validateVerificationRequest a3 sessionId userContext s2)
    as [s3 v3] eqn:E3.
  destruct (validateVerificationRequest a4 sessionId userContext s3)
    as [s4 v4] eqn:E4.
  cbn [snd last]. f_equal.
  assert (S1 : s1 = fst (validateVerificationRequest a1 sessionId userContext s))
    by (rewrite E1; reflexivity).
  assert (S2 : s2 = fst (validateVerificationRequest a2 sessionId userContext s1))
    by (rewrite E2; reflexivity).
  assert (S3 : s3 = fst (validateVerificationRequest a3 sessionId userContext s2))
    by (rewrite E3; reflexivity).
  assert (V4 : v4 = snd (validateVerificationRequest a4 sessionId userContext s3))
    by (rewrite E4; reflexivity).
  (* the fingerprint every call resolves, and the one on record *)
  assert (R2 : resolvedFingerprint a2 s1 = resolvedFingerprint a1 s)
    by (rewrite S1; apply resolved_again; assumption).
  assert (R3 : resolvedFingerprint a3 s2 = resolvedFingerprint a1 s)
    by (rewrite S2, <- R2; apply resolved_again; congruence).
  assert (R4 : resolvedFingerprint a4 s3 = resolvedFingerprint a1 s)
    by (rewrite S3, <- R3; apply resolved_again; congruence).
  destruct (recorded_again a1 a2 sessionId userContext s) as [N1 F1].
  destruct (recorded_again a2 a3 sessionId userContext s1) as [N2 F2].
  destruct (recorded_again a3 a4 sessionId userContext s2) as [N3 F3].
  rewrite <- S1 in N1, F1. rewrite <- S2 in N2, F2. rewrite <- S3 in N3, F3.
  assert (N0 : verificationAttempts (recordedMetrics a1 sessionId s) = 0
               /\ deviceFingerprint (recordedMetrics a1 sessionId s)
                  = Some (resolvedFingerprint a1 s))
    by (unfold recordedMetrics; rewrite Hnew; auto).
  destruct N0 as [N0 F0].
  assert (C3 : config s3 = config s)
    by (rewrite S3, config_after, S2, config_after, S1, config_after; reflexivity).
  (* the fourth score *)
  assert (Score : riskScore v4 = 80).
  { rewrite V4, riskScore_sum, C3, Hmax, N3, N2, N1, N0, F3, F2, F1, F0, R4.
    unfold fp_differs. rewrite String.eqb_refl.
    unfold performAdvancedFraudChecks, fraudScoreOf, detectLocationMismatch,
      detectVPNUsage.
    rewrite Hhead, Htools.
    destruct (enableAdvancedFraudDetection (config s));
      destruct (uc_countryCode userContext);
      rewrite ?andb_false_r; reflexivity. }
  destruct (verdict_of_score a4 sessionId userContext s3) as [Hv Hr].
  rewrite <- V4, Score in Hv, Hr.
  destruct v4 as [valid score reason]; cbn in *. subst. reflexivity.
Qed.

Lemma C2_fourth_submission_witness :
  last (snd (submit fourWithinFiveSeconds "k" documentSA
               (fresh (mkConfig true true true))))
  = Some {| isValid := false;
            riskScore := 80;
            blockedReason := Some "Suspicious activity patterns" |}.
Proof.
  apply (C2_fourth_submission_scores_80
           (plainBrowser 1700000000000) (plainBrowser 1700000001200)
           (plainBrowser 1700000002400) (plainBrowser 1700000003600)
           "k" documentSA (fresh (mkConfig true true true)));
    try reflexivity.
  vm_compute. split; [discriminate | reflexivity].
Defined.

(** C2, as stated, fails: four submissions 1.2 seconds apart from one plain
    browser end in score 80 and the reason for the 70..89 band, neither 100
    nor "High fraud risk detected". *)
Lemma C2_fourth_submission_not_100 :
  exists v,
    last (snd (submit fourWithinFiveSeconds "k" documentSA
                 (fresh (mkConfig true true true)))) = Some v
    /\ riskScore v <> 100
    /\ blockedReason v <> Some "High fraud risk detected".
Proof.
  eexists. split; [vm_compute; reflexivity|].
  split; cbn; discriminate.
Qed.

(** C4, as stated, fails: a fourth attempt from a device whose fingerprint
    differs from the recorded one scores 50 + 30 + 40 = 120. *)
Lemma C4_score_above_100 :
  let v := snd (validateVerificationRequest (plainBrowser 1700000000000) "k"
                  documentSA thirdAttemptElsewhere) in
  riskScore v = 120 /\ ~ (0 <= riskScore v <= 100).
Proof.
  cbv zeta. split; [vm_compute; reflexivity|].
  vm_compute. intros [_ H]. apply H. reflexivity.
Qed.

(** C4 (amended).  The score is a sum of non-negative contributions and
    lies between 0 and 220 (50 + 30 + 40 + 100); the aggregate is not
    clamped, only the advanced-check contribution is, to the interval from
    0 to 100. *)
Theorem C4_score_bounds a sessionId userContext s :
  0 <= riskScore (snd (validateVerificationRequest a sessionId userContext s)) <= 220
  /\ 0 <= performAdvancedFraudChecks a userContext (recordedMetrics a sessionId s) <= 100.
Proof.
  rewrite riskScore_sum.
  unfold performAdvancedFraudChecks, fraudScoreOf.
  repeat match goal with
         | |- context [if ?b then _ else _] => destruct b
         end; lia.
Qed.

(** C5, as stated, fails: the headless marker alone is worth 60, not 50. *)
Lemma C5_headless_is_60 :
  let m := recordedMetrics (plainBrowser 0) "k" (fresh (mkConfig true true true)) in
  detectHeadlessBrowser (webdriverBrowser 0) = true
  /\ detectAutomationTools (webdriverBrowser 0) = false
  /\ performAdvancedFraudChecks (plainBrowser 0) documentSA m = 0
  /\ performAdvancedFraudChecks (webdriverBrowser 0) documentSA m = 60
  /\ performAdvancedFraudChecks (webdriverBrowser 0) documentSA m <> 50.
Proof.
  cbv zeta. repeat split; vm_compute; try reflexivity; discriminate.
Qed.

(** C5 (amended).  The advanced checks add 60 for a headless marker, 50
    for a tooling signature, 20 for a location mismatch and 25 for VPN use,
    and return the sum capped at 100; the last two tests are placeholders
    that never fire, so the result is one of 0, 50, 60 and 100. *)
Theorem C5_fraud_category a userContext m :
  (forall headless tools mismatch vpn : bool,
      fraudScoreOf headless tools mismatch vpn
      = Z.min ((if headless then 60 else 0) + (if tools then 50 else 0)
               + (if mismatch then 20 else 0) + (if vpn then 25 else 0)) 100)
  /\ performAdvancedFraudChecks a userContext m
     = Z.min ((if detectHeadlessBrowser a then 60 else 0)
              + (if detectAutomationTools a then 50 else 0)) 100
  /\ performAdvancedFraudChecks a userContext m <= 100.
Proof.
  split; [intros [] [] [] []; reflexivity|].
  unfold performAdvancedFraudChecks, detectLocationMismatch, detectVPNUsage.
  destruct (uc_countryCode userContext);
    rewrite ?andb_false_r;
    destruct (detectHeadlessBrowser a), (detectAutomationTools a);
    unfold fraudScoreOf; split; (reflexivity || lia).
Qed.

(** C8.  The verdict of a call depends on the service only through its
    configuration, the metrics recorded for this session key and the stored
    device fingerprint: two runs from services that agree on these, with
    the same signals, return the same score, the same decision and the same
    reason, whatever else the two services hold (other sessions' metrics,
    incident history, monitoring flags). *)
Theorem C8_verdict_deterministic a sessionId userContext (s1 s2 : Service) :
  config s1 = config s2 ->
  securityMetrics s1 !! sessionId = securityMetrics s2 !! sessionId ->
  sessionStorage s1 !! fp_key = sessionStorage s2 !! fp_key ->
  snd (validateVerificationRequest a sessionId userContext s1)
  = snd (validateVerificationRequest a sessionId userContext s2)
  /\ securityMetrics (fst (validateVerificationRequest a sessionId userContext s1))
       !! sessionId
     = securityMetrics (fst (validateVerificationRequest a sessionId userContext s2))
       !! sessionId.
Proof.
  intros Hc Hm Hs.
  unfold validateVerificationRequest. rewrite Hs.
  destruct (sessionStorage s2 !! fp_key) as [fp|]; [destruct (truthy (Some fp))|];
    cbn [initializeDeviceFingerprinting securityMetrics config fst snd];
    rewrite Hm, Hc, !lookup_insert_eq; auto.
Qed.

Lemma C8_verdict_deterministic_witness :
  snd (validateVerificationRequest (plainBrowser 1700000000000) "k"
         documentSA thirdAttemptElsewhere)
  = snd (validateVerificationRequest (plainBrowser 1700000000000) "k"
           documentSA
           {| securityMetrics := <["other" := recordedMetrics (plainBrowser 5) "other"
                                                 thirdAttemptElsewhere]>
                                   (securityMetrics thirdAttemptElsewhere);
              config := config thirdAttemptElsewhere;
              realTimeMonitoringActive := true;
              deviceFingerprintingActive := true;
              cspActive := true;
              sessionStorage := sessionStorage thirdAttemptElsewhere;
              incidents := [{| inc_type := "csp_violation";
                               inc_session := "other";
                               inc_risk := 0 |}] |}).
Proof.
  apply (C8_verdict_deterministic (plainBrowser 1700000000000) "k" documentSA
           thirdAttemptElsewhere);
    [reflexivity | vm_compute; reflexivity | reflexivity].
Defined.

End RiskScorerClaims.

(** ** Session identifiers *)

Section Identifiers.

Import Oid.

Lemma to_int_proper z : Z.to_int z <> Decimal.Pos Decimal.Nil
                        /\ Z.to_int z <> Decimal.Neg Decimal.Nil.
Proof.
  destruct z as [|p|p]; cbn; split; try discriminate;
    intros [= H]; exact (DecimalPos.Unsigned.to_uint_nonnil p H).
Qed.

(** Printing a number loses nothing: the digits determine it. *)
Lemma Number_toString_inj n m : Number_toString n = Number_toString m -> n = m.
Proof.
  unfold Number_toString. intros H.
  apply DecimalZ.to_int_inj.
  destruct (to_int_proper n) as [Hn Hn'], (to_int_proper m) as [Hm Hm'].
  pose proof (NilZero.isi _ Hn Hn') as En.
  pose proof (NilZero.isi _ Hm Hm') as Em.
  rewrite H in En. congruence.
Qed.

Lemma append_cancel_l (p x y : string) : p ++ x = p ++ y -> x = y.
Proof.
  induction p as [|c p IH]; cbn; [auto|].
  intros [= H]. auto.
Qed.

Lemma country_cases c : country c = "682" \/ country c = "729" \/ country c = "000".
Proof.
  unfold country.
  destruct (code_is "SA" c); [auto|]. destruct (code_is "SD" c); auto.
Qed.

Lemma countryOid_cases c :
  countryOid c = "682" \/ countryOid c = "729" \/ countryOid c = "840".
Proof.
  unfold countryOid.
  destruct (code_is "SA" c); [auto|]. destruct (code_is "SD" c); auto.
Qed.

End Identifiers.

(** ** The browser-side service *)

Section MonadSteps.

Context {S E : Type}.

Lemma bind_returns {A B} (m : M S E A) (k : A -> M S E B) s s' x :
  m s = (s', inr x) -> (m ≫= k) s = k x s'.
Proof. intros H. unfold mbind, M_bind. rewrite H. reflexivity. Qed.

Lemma bind_throws {A B} (m : M S E A) (k : A -> M S E B) s s' e :
  m s = (s', inl e) -> (m ≫= k) s = (s', inl e).
Proof. intros H. unfold mbind, M_bind. rewrite H. reflexivity. Qed.

Lemma try_returns {A} (m : M S E A) h s s' x :
  m s = (s', inr x) -> try_catch m h s = (s', inr x).
Proof. intros H. unfold try_catch. rewrite H. reflexivity. Qed.

Lemma try_throws {A} (m : M S E A) h s s' e :
  m s = (s', inl e) -> try_catch m h s = h e s'.
Proof. intros H. unfold try_catch. rewrite H. reflexivity. Qed.

End MonadSteps.

Section Objects.

Lemma obj_get_set_same k v o : obj_get k (obj_set k v o) = Some v.
Proof.
  induction o as [|[k' v'] o IH]; cbn.
  - rewrite String.eqb_refl. reflexivity.
  - destruct (String.eqb k' k) eqn:E; cbn.
    + rewrite String.eqb_refl. reflexivity.
    + rewrite E. exact IH.
Qed.

Lemma obj_get_set_other k k0 v o :
  k0 <> k -> obj_get k0 (obj_set k v o) = obj_get k0 o.
Proof.
  intros Hne. induction o as [|[k' v'] o IH]; cbn.
  - rewrite (proj2 (String.eqb_neq k k0)) by congruence. reflexivity.
  - destruct (String.eqb_spec k' k) as [->|Hk]; cbn.
    + rewrite (proj2 (String.eqb_neq k k0)) by congruence. reflexivity.
    + rewrite IH. reflexivity.
Qed.

End Objects.

Section BestEffort.

Import Security Oid Client.

Lemma best_effort_ret : best_effort (mret tt).
Proof. intros p. exists p. auto. Qed.

Lemma best_effort_when b m : best_effort m -> best_effort (when b m).
Proof. destruct b; [auto | intros _; apply best_effort_ret]. Qed.

(** [try { fetch; check } catch { warn }] never throws. *)
Lemma best_effort_guarded url outcome (check : HttpResponse -> M Page string unit) label :
  (forall r p, exists x, check r p = (p, x)) ->
  best_effort
    (try_catch (response ← fetch url outcome; check response)
               (fun error => log (console_warn label error))).
Proof.
  intros Hcheck p. unfold try_catch, mbind, M_bind, fetch.
  destruct outcome as [message|r].
  - eexists. split; reflexivity.
  - match goal with |- context [check r ?q] => destruct (Hcheck r q) as [x Hx]; rewrite Hx end.
    destruct x as [e|[]]; eexists; split; reflexivity.
Qed.

Lemma validateNPHIESContext_best_effort ep out context :
  best_effort (validateNPHIESContext ep out context).
Proof.
  unfold validateNPHIESContext.
  destruct (negb _ || negb _); [apply best_effort_ret|].
  apply best_effort_guarded. intros r p. destruct (negb (ok r)); eexists; reflexivity.
Qed.

Lemma validateSudanNIDContext_best_effort ep out context :
  best_effort (validateSudanNIDContext ep out context).
Proof.
  unfold validateSudanNIDContext.
  destruct (negb _ || negb _); [apply best_effort_ret|].
  apply best_effort_guarded. intros r p. destruct (negb (ok r)); eexists; reflexivity.
Qed.

Lemma syncWithNeuralSystem_best_effort ep out :
  best_effort (syncWithNeuralSystem ep out).
Proof.
  unfold syncWithNeuralSystem.
  apply best_effort_guarded. intros r p. eexists; reflexivity.
Qed.

End BestEffort.

Section CreateSession.

Import Security Oid Client.

(** Closes a branch that ended in the outer [catch]: the handler rethrows
    what it caught and leaves the security service as it found it. *)
Ltac caught Hh S :=
  split;
  [ exact (proj1 (Hh _ _))
  | etransitivity; [exact (proj2 (Hh _ _)) | exact S] ].

Variable ep : Endpoints.
Variable options : Options.

Let ctx : UserContext :=
  {| uc_type := type options; uc_countryCode := countryCode options |}.

(** The replies of the two registries and of the neural endpoint appear
    nowhere in the result, nor in what the call leaves in the security
    service. *)
Lemma createVerificationSession_result out p :
  let oid := generateOID verification (countryCode options) (oidClock out) in
  let sv := validateVerificationRequest (ambient out) oid ctx (security p) in
  snd (createVerificationSession ep out options p)
    = outcome_of oid (snd sv) (apiReply out)
  /\ security (fst (createVerificationSession ep out options p)) = fst sv.
Proof.
  cbv zeta. unfold createVerificationSession, outcome_of.
  set (oid := generateOID verification (countryCode options) (oidClock out)).
  fold ctx.
  destruct (validateVerificationRequest (ambient out) oid ctx (security p))
    as [s1 v] eqn:Ev.
  cbn [fst snd].
  set (p1 := {| security := s1;
                console :=
                  if 50 <? riskScore v
                  then (console p
                        ++ [console_warn "Security incident reported:"
                                         "high_risk_verification"])%list
                  else console p;
                fetched := fetched p |}).
  assert (Hc : securityCheck (ambient out) oid ctx p = (p1, inr v))
    by (unfold securityCheck; rewrite Ev; reflexivity).
  set (handler := fun error : string =>
         log (console_error "Error creating verification session:" error);;
         throw error).
  assert (Hh : forall e q, snd (handler e q) = inl e
                           /\ security (fst (handler e q)) = security q)
    by (intros; split; reflexivity).
  destruct (isValid v) eqn:Hv; cbn [negb].
  2:{ erewrite try_throws.
      2:{ erewrite bind_returns by exact Hc. rewrite Hv. reflexivity. }
      caught Hh (eq_refl : security p1 = s1). }
  set (pre1 := match healthcareContext options with
               | Some context =>
                   when (code_is "SA" (countryCode options))
                        (validateNPHIESContext ep out context)
               | None => mret tt
               end).
  set (pre2 := match nationalIdContext options with
               | Some context =>
                   when (code_is "SD" (countryCode options))
                        (validateSudanNIDContext ep out context)
               | None => mret tt
               end).
  assert (B1 : best_effort pre1).
  { subst pre1. destruct (healthcareContext options);
      [apply best_effort_when, validateNPHIESContext_best_effort
      | apply best_effort_ret]. }
  assert (B2 : best_effort pre2).
  { subst pre2. destruct (nationalIdContext options);
      [apply best_effort_when, validateSudanNIDContext_best_effort
      | apply best_effort_ret]. }
  destruct (B1 p1) as (p2 & H2 & S2).
  destruct (B2 p2) as (p3 & H3 & S3).
  set (p4 := {| security := security p3; console := console p3;
                fetched := (fetched p3 ++ ["/api/create-verification-session"])%list |}).
  assert (S4 : security p4 = s1) by (cbn; rewrite S3, S2; reflexivity).
  destruct (apiReply out) as [message|response] eqn:Ha.
  { erewrite try_throws.
    2:{ erewrite bind_returns by exact Hc. rewrite Hv. cbn [negb].
        erewrite bind_returns by exact H2.
        erewrite bind_returns by exact H3.
        eapply bind_throws. unfold fetch. reflexivity. }
    caught Hh S4. }
  assert (Hf : fetch "/api/create-verification-session" (Resolved response) p3
               = (p4, inr response)) by reflexivity.
  destruct (ok response) eqn:Hok; cbn [negb].
  2:{ erewrite try_throws.
      2:{ erewrite bind_returns by exact Hc. rewrite Hv. cbn [negb].
          erewrite bind_returns by exact H2.
          erewrite bind_returns by exact H3.
          erewrite bind_returns by exact Hf. rewrite Hok. reflexivity. }
      caught Hh S4. }
  destruct (body response) as [session|] eqn:Hb.
  2:{ erewrite try_throws.
      2:{ erewrite bind_returns by exact Hc. rewrite Hv. cbn [negb].
          erewrite bind_returns by exact H2.
          erewrite bind_returns by exact H3.
          erewrite bind_returns by exact Hf. rewrite Hok. cbn [negb].
          eapply bind_throws. unfold json. rewrite Hb. reflexivity. }
      caught Hh S4. }
  destruct (best_effort_when (truthy (neuralSyncEndpoint ep)) _
              (syncWithNeuralSystem_best_effort ep out) p4) as (p5 & H5 & S5).
  erewrite try_returns.
  2:{ erewrite bind_returns by exact Hc. rewrite Hv. cbn [negb].
      erewrite bind_returns by exact H2.
      erewrite bind_returns by exact H3.
      erewrite bind_returns by exact Hf. rewrite Hok. cbn [negb].
      erewrite bind_returns by (unfold json; rewrite Hb; reflexivity).
      erewrite bind_returns by exact H5. reflexivity. }
  cbn [fst snd]. split; [reflexivity | congruence].
Qed.

End CreateSession.

(** ** The browser-side service, awaited *)

Section Awaiting.

Import Security Oid Client.

Lemma try_thrown_returns {A} (m : M Page Stop A) h p p' x :
  m p = (p', inr x) -> try_catch_thrown m h p = (p', inr x).
Proof. intros H. unfold try_catch_thrown. rewrite H. reflexivity. Qed.

Lemma try_thrown_pending {A} (m : M Page Stop A) h p p' :
  m p = (p', inl Pending) -> try_catch_thrown m h p = (p', inl Pending).
Proof. intros H. unfold try_catch_thrown. rewrite H. reflexivity. Qed.

Lemma settled_returns {A} (m : M Page string A) p p' x :
  m p = (p', inr x) -> settled m p = (p', inr x).
Proof. intros H. unfold settled. rewrite H. reflexivity. Qed.

(** With its endpoint answering, each awaited step is the step of the
    settled service. *)
Lemma validateNPHIESContext_answered ep out quiet context p :
  nphiesSilent quiet = false ->
  Awaited.validateNPHIESContext ep out quiet context p
  = settled (validateNPHIESContext ep out context) p.
Proof.
  intros H. unfold Awaited.validateNPHIESContext, validateNPHIESContext.
  rewrite H. destruct (negb _ || negb _); [reflexivity|].
  unfold settled, try_catch_thrown, try_catch, await_fetch, settled,
    mbind, M_bind, fetch.
  destruct (nphiesReply out) as [m|r]; [reflexivity|].
  destruct (negb (ok r)); reflexivity.
Qed.

Lemma validateSudanNIDContext_answered ep out quiet context p :
  sudanNidSilent quiet = false ->
  Awaited.validateSudanNIDContext ep out quiet context p
  = settled (validateSudanNIDContext ep out context) p.
Proof.
  intros H. unfold Awaited.validateSudanNIDContext, validateSudanNIDContext.
  rewrite H. destruct (negb _ || negb _); [reflexivity|].
  unfold settled, try_catch_thrown, try_catch, await_fetch, settled,
    mbind, M_bind, fetch.
  destruct (sudanNidReply out) as [m|r]; [reflexivity|].
  destruct (negb (ok r)); reflexivity.
Qed.

Lemma syncWithNeuralSystem_answered ep out quiet p :
  neuralSilent quiet = false ->
  Awaited.syncWithNeuralSystem ep out quiet p
  = settled (syncWithNeuralSystem ep out) p.
Proof.
  intros H. unfold Awaited.syncWithNeuralSystem, syncWithNeuralSystem.
  rewrite H.
  unfold settled, try_catch_thrown, try_catch, await_fetch, settled,
    mbind, M_bind, fetch.
  destruct (neuralReply out) as [m|r]; reflexivity.
Qed.

Lemma when_answered b (m : M Page Stop unit) (m' : M Page string unit) p :
  (forall q, m q = settled m' q) -> when b m p = settled (when b m') p.
Proof. intros H. destruct b; [apply H | reflexivity]. Qed.

Lemma settled_try {A} (m : M Page string A) h p :
  settled (try_catch m h) p
  = try_catch_thrown (settled m) (fun e => settled (h e)) p.
Proof.
  unfold settled, try_catch, try_catch_thrown.
  destruct (m p) as [p' [e|x]]; reflexivity.
Qed.

Lemma settled_bind {A B} (m : M Page string A) (k : A -> M Page string B) p :
  settled (m ≫= k) p = (settled m ≫= fun x => settled (k x)) p.
Proof.
  unfold settled, mbind, M_bind.
  destruct (m p) as [p' [e|x]]; reflexivity.
Qed.

Lemma bind_ext {S E A B} (m m' : M S E A) (k k' : A -> M S E B) :
  (forall s, m s = m' s) -> (forall x s, k x s = k' x s) ->
  forall s, (m ≫= k) s = (m' ≫= k') s.
Proof.
  intros Hm Hk s. unfold mbind, M_bind. rewrite Hm.
  destruct (m' s) as [s' [e|x]]; [reflexivity | apply Hk].
Qed.

Lemma try_thrown_ext {A} (m m' : M Page Stop A) h h' :
  (forall p, m p = m' p) -> (forall e p, h e p = h' e p) ->
  forall p, try_catch_thrown m h p = try_catch_thrown m' h' p.
Proof.
  intros Hm Hh p. unfold try_catch_thrown. rewrite Hm.
  destruct (m' p) as [p' [[e|]|x]]; [apply Hh | reflexivity | reflexivity].
Qed.

(** With every endpoint answering, the awaited call is the call of the
    settled service. *)
Lemma createVerificationSession_answered ep out options p :
  Awaited.createVerificationSession ep out allAnswer options p
  = settled (createVerificationSession ep out options) p.
Proof.
  unfold Awaited.createVerificationSession, createVerificationSession.
  cbv zeta. rewrite settled_try. revert p. apply try_thrown_ext.
  2:{ intros e p. rewrite settled_bind. apply bind_ext; reflexivity. }
  intros p. rewrite settled_bind. revert p.
  apply bind_ext; [reflexivity|]. intros check p.
  destruct (negb (isValid check)); [reflexivity|].
  rewrite settled_bind. revert p. apply bind_ext.
  { intros p. destruct (healthcareContext options); [|reflexivity].
    apply when_answered. intros q.
    apply validateNPHIESContext_answered. reflexivity. }
  intros [] p. rewrite settled_bind. revert p. apply bind_ext.
  { intros p. destruct (nationalIdContext options); [|reflexivity].
    apply when_answered. intros q.
    apply validateSudanNIDContext_answered. reflexivity. }
  intros [] p. rewrite settled_bind. revert p. apply bind_ext; [reflexivity|].
  intros response p.
  destruct (negb (ok response)); [reflexivity|].
  rewrite settled_bind. revert p. apply bind_ext; [reflexivity|].
  intros session p. rewrite settled_bind. revert p. apply bind_ext.
  { intros p. apply when_answered. intros q.
    apply syncWithNeuralSystem_answered. reflexivity. }
  intros [] p. reflexivity.
Qed.

Lemma try_thrown_bind_returns {A B} (m : M Page Stop A)
  (k : A -> M Page Stop B) h p p' x :
  m p = (p', inr x) ->
  try_catch_thrown (m ≫= k) h p = try_catch_thrown (k x) h p'.
Proof.
  intros H. unfold try_catch_thrown.
  rewrite (bind_returns _ _ _ _ _ H). reflexivity.
Qed.

Lemma answered_best_effort (m : M Page Stop unit) (m' : M Page string unit) :
  (forall q, m q = settled m' q) -> best_effort m' ->
  forall p, exists p', m p = (p', inr tt) /\ security p' = security p.
Proof.
  intros Hm Hb p. destruct (Hb p) as (p' & H & S).
  exists p'. split; [|exact S]. rewrite Hm. apply settled_returns, H.
Qed.

Section Call.

Variable ep : Endpoints.
Variable out : Outside.
Variable quiet : Silent.
Variable options : Options.
Variable p : Page.

Let oid : string := generateOID verification (countryCode options) (oidClock out).
Let sv : Service * Verdict :=
  validateVerificationRequest (ambient out) oid
    {| uc_type := type options; uc_countryCode := countryCode options |}
    (security p).

Variable response : HttpResponse.
Variable session : JsObject.

Hypothesis allowed : isValid (snd sv) = true.
Hypothesis nphies_answers : nphiesSilent quiet = false.
Hypothesis sudanNid_answers : sudanNidSilent quiet = false.
Hypothesis api_answers : apiSilent quiet = false.
Hypothesis api_resolved : apiReply out = Resolved response.
Hypothesis api_ok : ok response = true.
Hypothesis api_session : body response = Some session.

(** An allowed call whose registries and session endpoint answer, the
    latter with a session, comes to the neural dispatch right after the
    session request, with the security service as the check left it. *)
Lemma awaited_up_to_sync :
  exists p4,
    security p4 = fst sv
    /\ last (fetched p4) = Some "/api/create-verification-session"
    /\ Awaited.createVerificationSession ep out quiet options p
       = try_catch_thrown
           (when (truthy (neuralSyncEndpoint ep))
                 (Awaited.syncWithNeuralSystem ep out quiet);;
            mret (obj_set "oid" (JStr oid) session))
           (fun error =>
              settled (log (console_error "Error creating verification session:"
                                          error));;
              throw (Thrown error))
           p4.
Proof.
  unfold Awaited.createVerificationSession. cbv zeta. fold oid.
  destruct sv as [s1 v] eqn:Ev. subst sv. cbn [fst snd] in *.
  set (p1 := {| security := s1;
                console :=
                  if 50 <? riskScore v
                  then (console p
                        ++ [console_warn "Security incident reported:"
                                         "high_risk_verification"])%list
                  else console p;
                fetched := fetched p |}).
  assert (Hc : settled (securityCheck (ambient out) oid
                          {| uc_type := type options;
                             uc_countryCode := countryCode options |}) p
               = (p1, inr v))
    by (unfold settled, securityCheck; rewrite Ev; reflexivity).
  set (pre1 := match healthcareContext options with
               | Some context =>
                   when (code_is "SA" (countryCode options))
                        (Awaited.validateNPHIESContext ep out quiet context)
               | None => mret tt
               end).
  set (pre2 := match nationalIdContext options with
               | Some context =>
                   when (code_is "SD" (countryCode options))
                        (Awaited.validateSudanNIDContext ep out quiet context)
               | None => mret tt
               end).
  assert (B1 : forall q, exists q', pre1 q = (q', inr tt)
                                    /\ security q' = security q).
  { subst pre1. destruct (healthcareContext options) as [context|];
      [|intros q; exists q; auto].
    apply (answered_best_effort _
             (when (code_is "SA" (countryCode options))
                   (validateNPHIESContext ep out context))).
    - intros q. apply when_answered. intros q'.
      apply validateNPHIESContext_answered, nphies_answers.
    - apply best_effort_when, validateNPHIESContext_best_effort. }
  assert (B2 : forall q, exists q', pre2 q = (q', inr tt)
                                    /\ security q' = security q).
  { subst pre2. destruct (nationalIdContext options) as [context|];
      [|intros q; exists q; auto].
    apply (answered_best_effort _
             (when (code_is "SD" (countryCode options))
                   (validateSudanNIDContext ep out context))).
    - intros q. apply when_answered. intros q'.
      apply validateSudanNIDContext_answered, sudanNid_answers.
    - apply best_effort_when, validateSudanNIDContext_best_effort. }
  destruct (B1 p1) as (p2 & H2 & S2).
  destruct (B2 p2) as (p3 & H3 & S3).
  set (p4 := {| security := security p3; console := console p3;
                fetched := (fetched p3 ++ ["/api/create-verification-session"])%list |}).
  assert (Hf : await_fetch "/api/create-verification-session" (apiReply out)
                 (apiSilent quiet) p3 = (p4, inr response))
    by (unfold await_fetch; rewrite api_answers, api_resolved; reflexivity).
  assert (Hj : settled (json response) p4 = (p4, inr session))
    by (unfold settled, json; rewrite api_session; reflexivity).
  exists p4. split; [cbn; rewrite S3, S2; reflexivity|].
  split; [apply last_snoc|].
  erewrite try_thrown_bind_returns by exact Hc.
  rewrite allowed. cbn [negb].
  erewrite try_thrown_bind_returns by exact H2.
  erewrite try_thrown_bind_returns by exact H3.
  erewrite try_thrown_bind_returns by exact Hf.
  rewrite api_ok. cbn [negb].
  erewrite try_thrown_bind_returns by exact Hj.
  reflexivity.
Qed.

(** When the neural endpoint settles as well, the call returns the
    session, whatever that endpoint answered. *)
Lemma awaited_result :
  neuralSilent quiet = false ->
  snd (Awaited.createVerificationSession ep out quiet options p)
  = inr (obj_set "oid" (JStr oid) session)
  /\ security (fst (Awaited.createVerificationSession ep out quiet options p))
     = fst sv.
Proof.
  intros neural_answers.
  assert (Hq : quiet = allAnswer).
  { destruct quiet; cbn in *; subst; reflexivity. }
  rewrite Hq, createVerificationSession_answered.
  destruct (createVerificationSession_result ep options out p) as [R S].
  cbv zeta in R, S. fold oid in R, S. fold sv in R, S.
  unfold outcome_of in R. rewrite allowed, api_resolved, api_ok, api_session in R.
  cbn [negb] in R.
  unfold settled.
  destruct (createVerificationSession ep out options p) as [p' [e|x]];
    cbn [fst snd] in *; [discriminate|].
  injection R as ->. split; [reflexivity | exact S].
Qed.

End Call.

End Awaiting.

(** ** The edge handler *)

Section Storage.

Import Oid Api.

Variable env : Env.
Variable i : Incoming.

Lemma keeps_ret {A} (x : A) : keeps (mret x).
Proof. intros c c' r [= <- _]. auto. Qed.

Lemma keeps_throw {A} e : keeps (throw (A := A) e).
Proof. intros c c' r [= <- _]. auto. Qed.

Lemma keeps_gets {A} (f : Cloud -> A) : keeps (gets f).
Proof. intros c c' r [= <- _]. auto. Qed.

Lemma keeps_bind {A B} (m : M Cloud string A) (k : A -> M Cloud string B) :
  keeps m -> (forall x, keeps (k x)) -> keeps (m ≫= k).
Proof.
  intros Hm Hk c c' r. unfold mbind, M_bind.
  destruct (m c) as [c1 [e|x]] eqn:E1.
  - intros [= <- _]. eapply Hm; eauto.
  - intros E2. destruct (Hm _ _ _ E1) as [H1 H2].
    destruct (Hk _ _ _ _ E2) as [H3 H4]. split; congruence.
Qed.

Lemma keeps_faulty fault : keeps (faulty fault).
Proof. destruct fault; [apply keeps_throw | apply keeps_ret]. Qed.

Lemma keeps_when b m : keeps m -> keeps (when b m).
Proof. destruct b; [auto | intros _; apply keeps_ret]. Qed.

Lemma keeps_validateSaudiFacility code : keeps (validateSaudiFacility i code).
Proof.
  unfold validateSaudiFacility, select_facility.
  destruct (negb (truthy code)); [apply keeps_ret|].
  repeat (apply keeps_bind; [|intros ?]);
    auto using keeps_faulty, keeps_gets, keeps_ret.
Qed.

Lemma keeps_validateSudanWilaya code : keeps (validateSudanWilaya i code).
Proof.
  unfold validateSudanWilaya, select_wilaya.
  destruct (negb (truthy code)); [apply keeps_ret|].
  repeat (apply keeps_bind; [|intros ?]);
    auto using keeps_faulty, keeps_gets, keeps_ret.
Qed.

Lemma keeps_stripe_fetch params : keeps (stripe_fetch i params).
Proof.
  intros c c' r. unfold stripe_fetch.
  destruct (stripe i); intros [= <- _]; auto.
Qed.

Lemma keeps_stripe_json r : keeps (stripe_json r).
Proof. unfold stripe_json. destruct (s_json r); [apply keeps_ret | apply keeps_throw]. Qed.

Lemma keeps_kv_neural_put key v : keeps (kv_neural_put i key v).
Proof.
  unfold kv_neural_put. apply keeps_bind; [apply keeps_faulty|].
  intros _ c c' r [= <- _]. auto.
Qed.

(** Running a step that keeps the stores before a run that writes through
    is still a run that writes through. *)
Lemma written_through_after {A B} (m : M Cloud string A) (k : A -> M Cloud string B) :
  keeps m ->
  (forall x c c' r, k x c = (c', r) -> written_through c c') ->
  forall c c' r, (m ≫= k) c = (c', r) -> written_through c c'.
Proof.
  intros Hm Hk c c' r. unfold mbind, M_bind.
  destruct (m c) as [c1 [e|x]] eqn:E1.
  - intros [= <- _]. destruct (Hm _ _ _ E1) as [H1 H2]. left. auto.
  - intros E2. destruct (Hm _ _ _ E1) as [H1 H2].
    specialize (Hk _ _ _ _ E2). unfold written_through, appended in *.
    rewrite H1, H2 in Hk. exact Hk.
Qed.

Lemma written_through_refl c : written_through c c.
Proof. left. auto. Qed.

(** The three writes at the end of the handler: the cache is reached only
    through a completed insert. *)
Lemma store_then_cache {A} row v (rest : M Cloud string A) c c' r :
  keeps rest ->
  kv_session_oid v = session_oid row ->
  (d1_insert i row;; kv_sessions_put i (stripe_session_id row) v;; rest) c = (c', r) ->
  written_through c c'.
Proof.
  intros Hrest Hoid. unfold d1_insert, kv_sessions_put, gets, modify.
  unfold mbind, M_bind, faulty.
  destruct (d1_insert_fault i) as [message|]; cbn.
  { intros [= <- _]. apply written_through_refl. }
  destruct (existsb _ (verification_sessions c)) eqn:Hfresh; cbn.
  { intros [= <- _]. apply written_through_refl. }
  assert (Hnew : forall r0, In r0 (verification_sessions c) ->
                   session_oid r0 <> session_oid row
                   /\ stripe_session_id r0 <> stripe_session_id row).
  { intros r0 Hin.
    assert (Hr0 : String.eqb (session_oid r0) (session_oid row)
                  || String.eqb (stripe_session_id r0) (stripe_session_id row)
                  = false).
    { destruct (_ || _) eqn:Hb; [|reflexivity].
      rewrite <- Hfresh. symmetry. apply existsb_exists. exists r0. auto. }
    apply orb_false_iff in Hr0 as [H1 H2].
    apply String.eqb_neq in H1, H2. auto. }
  destruct (kv_sessions_fault i) as [message|]; cbn.
  { intros [= <- _]. left. split; [reflexivity|]. right. exists row. split; auto. }
  intros E. apply Hrest in E. cbn in E. destruct E as [E1 E2].
  right. exists row, v.
  split; [split; [exact E2 | exact Hnew] | split; [exact E1 | exact Hoid]].
Qed.

Lemma handle_written_through c c' r :
  handle env i c = (c', r) -> written_through c c'.
Proof.
  unfold handle. revert c c' r.
  apply written_through_after.
  { destruct (request_body i); [apply keeps_ret | apply keeps_throw]. }
  intros body.
  apply written_through_after.
  { destruct (healthcare_context body); [|apply keeps_ret].
    destruct (code_is "SA" (country_code body));
      [apply keeps_validateSaudiFacility | apply keeps_ret]. }
  intros facilityValid.
  destruct (negb facilityValid).
  { intros c c' r [= <- _]. apply written_through_refl. }
  apply written_through_after.
  { destruct (national_context body); [|apply keeps_ret].
    destruct (code_is "SD" (country_code body));
      [apply keeps_validateSudanWilaya | apply keeps_ret]. }
  intros wilayaValid.
  destruct (negb wilayaValid).
  { intros c c' r [= <- _]. apply written_through_refl. }
  apply written_through_after; [apply keeps_stripe_fetch|].
  intros stripeResponse.
  destruct (negb (s_ok stripeResponse)).
  { intros c c' r [= <- _]. apply written_through_refl. }
  apply written_through_after; [apply keeps_stripe_json|].
  intros stripeSession c c' r.
  apply (store_then_cache
           {| session_oid := sessionOID (BRAINSAIT_OID_ROOT env) (country_code body) (now i);
              stripe_session_id := id stripeSession;
              session_status := "created";
              country_context := or_else (country_code body) "US";
              session_data :=
                {| sd_type := type body;
                   sd_return_url := return_url body;
                   sd_healthcare_context := healthcare_context body;
                   sd_national_context := national_context body;
                   sd_metadata := metadata body |};
              expires_at := expiry i |}).
  - apply keeps_bind; [|intros ?; apply keeps_ret].
    apply keeps_when, keeps_kv_neural_put.
  - reflexivity.
Qed.

Lemma written_through_backed c c' :
  written_through c c' -> cache_backed c -> cache_backed c'.
Proof.
  intros [[Hs Hr]|(row & v & [Hr _] & Hs & Hoid)] Hc key v' Hkey.
  - rewrite Hs in Hkey. destruct (Hc _ _ Hkey) as (row & Hin & Hrow).
    exists row. split; [|exact Hrow].
    destruct Hr as [->|[row' [-> _]]]; [|apply in_or_app]; auto.
  - rewrite Hs in Hkey. rewrite Hr.
    destruct (decide (stripe_session_id row = key)) as [<-|Hne].
    + rewrite lookup_insert_eq in Hkey. injection Hkey as <-.
      exists row. split; [apply in_or_app; right; left; reflexivity | auto].
    + rewrite lookup_insert_ne in Hkey by exact Hne.
      destruct (Hc _ _ Hkey) as (row' & Hin & Hrow).
      exists row'. split; [apply in_or_app; auto | exact Hrow].
Qed.

Lemma appended_distinct c c' row :
  appended c c' row -> oids_distinct c -> oids_distinct c'.
Proof.
  intros [Hr Hnew] Hd. unfold oids_distinct in *.
  rewrite Hr, fmap_app. apply NoDup_app.
  split; [exact Hd|]. split; [|apply NoDup_singleton].
  intros oid Hold Hrow. apply list_elem_of_singleton in Hrow. subst oid.
  apply list_elem_of_fmap in Hold as (r & Hoid & Hin).
  apply list_elem_of_In in Hin. destruct (Hnew r Hin) as [Hne _]. auto.
Qed.

Lemma written_through_distinct c c' :
  written_through c c' -> oids_distinct c -> oids_distinct c'.
Proof.
  intros [[_ [Hr|[row Hr]]]|(row & v & Hr & _)] Hd.
  - unfold oids_distinct in *. rewrite Hr. exact Hd.
  - eapply appended_distinct; eauto.
  - eapply appended_distinct; eauto.
Qed.

Lemma onRequestPost_written_through c :
  written_through c (fst (onRequestPost env i c)).
Proof.
  unfold onRequestPost.
  destruct (handle env i c) as [c' [message|response]] eqn:E;
    apply handle_written_through in E; exact E.
Qed.

End Storage.

Section HandlerClaims.

Import Oid Api.

Lemma find_nothing {A} (f : A -> bool) (l : list A) :
  (forall x, In x l -> f x = false) -> List.find f l = None.
Proof.
  induction l as [|x l IH]; cbn; [reflexivity|].
  intros H. rewrite (H x) by auto. apply IH. auto.
Qed.

Lemma truthy_nonempty code : code <> "" -> truthy (Some code) = true.
Proof.
  intros H. unfold truthy. apply negb_true_iff, String.eqb_neq. exact H.
Qed.

(** Unfolds one run of the handler down to its case analysis. *)
Ltac run_handler :=
  unfold onRequestPost, handle, validateSaudiFacility, validateSudanWilaya,
    select_facility, select_wilaya, faulty, gets, throw;
  unfold mbind, M_bind, mret, M_ret.

(** C6.  A request for Sudan whose wilaya code has no active row, or for
    Saudi Arabia whose facility code has no row that is both active and
    certified, is answered with status 400 while the registry tables can
    be queried; the handler returns before it calls the identity provider
    and leaves every store as it found it (no provider request, no session
    row, no cache entry). *)
Theorem C6_bad_regional_code_rejected env i c body error :
  request_body i = Some body ->
  d1_select_fault i = None ->
  bad_regional_code c body error ->
  onRequestPost env i c = (c, reply 400 error None).
Proof.
  intros Hbody Hdb [(Hcc & -> & nc & code & Hnc & Hcode & Hne & Hrows)
                   |(Hcc & -> & hc & code & Hhc & Hcode & Hne & Hrows)].
  - assert (Hfind : List.find (fun r => String.eqb (wilaya_code r) code
                                         && wilaya_is_active r)
                              (sudan_wilayas c) = None).
    { apply find_nothing. intros r Hin.
      destruct (String.eqb_spec (wilaya_code r) code) as [E|]; [|reflexivity].
      cbn. eauto. }
    run_handler. rewrite Hbody, Hcc, Hnc, Hcode.
    change (code_is "SA" (Some "SD")) with false.
    change (code_is "SD" (Some "SD")) with true.
    rewrite (truthy_nonempty code Hne), Hdb. cbn.
    destruct (healthcare_context body); cbn; rewrite Hfind; reflexivity.
  - assert (Hfind : List.find (fun r => String.eqb (facility_code r) code
                                         && facility_is_active r
                                         && nphies_certified r)
                              (healthcare_facilities c) = None).
    { apply find_nothing. intros r Hin. rewrite <- andb_assoc.
      destruct (String.eqb_spec (facility_code r) code) as [E|]; [|reflexivity].
      cbn. eauto. }
    run_handler. rewrite Hbody, Hcc, Hhc, Hcode.
    change (code_is "SA" (Some "SA")) with true.
    rewrite (truthy_nonempty code Hne), Hdb. cbn.
    rewrite Hfind. reflexivity.
Qed.

Lemma C6_unknown_wilaya_witness :
  onRequestPost production (arriving (sudanRequest "SD99") 1700000000000 "vs_1")
                seeded
  = (seeded, reply 400 "Invalid Sudan wilaya" None).
Proof.
  apply (C6_bad_regional_code_rejected production
           (arriving (sudanRequest "SD99") 1700000000000 "vs_1")
           seeded (sudanRequest "SD99") "Invalid Sudan wilaya");
    [reflexivity | reflexivity |].
  left. split; [reflexivity|]. split; [reflexivity|].
  exists {| sudanNationalId := Some "19900101-1234";
            ministryCode := None;
            wilayaCode := Some "SD99" |}, "SD99".
  repeat split; [discriminate|].
  intros r [<-|[<-|[]]]; [discriminate | reflexivity].
Defined.

(** C9.  One run of the handler either leaves the session cache as it
    was, or has first appended the session's row to the durable table and
    then cached that same session under the row's provider id: no run
    writes the cache without its insert having completed.  So a cache whose
    every entry has its durable row still has that property afterwards. *)
Theorem C9_cache_only_after_durable_insert env i c :
  cache_backed c ->
  written_through c (fst (onRequestPost env i c))
  /\ cache_backed (fst (onRequestPost env i c)).
Proof.
  intros Hc.
  pose proof (onRequestPost_written_through env i c) as W.
  split; [exact W | exact (written_through_backed _ _ W Hc)].
Qed.

Lemma C9_cache_only_after_durable_insert_witness :
  let c' := fst (onRequestPost production
                   (arriving (sudanRequest "SD01") 1700000000000 "vs_1") seeded) in
  written_through seeded c' /\ cache_backed c'.
Proof.
  apply (C9_cache_only_after_durable_insert production
           (arriving (sudanRequest "SD01") 1700000000000 "vs_1") seeded).
  intros key v H. unfold seeded in H. cbn [SESSIONS] in H.
  rewrite lookup_empty in H. discriminate.
Defined.

(** The two ways the cache write is skipped, and the one way it happens,
    on the small deployment. *)
Example insert_fails_cache_untouched :
  let r := onRequestPost production
             (insert_down (arriving (sudanRequest "SD01") 1700000000000 "vs_1")
                          "D1_ERROR: no such table")
             seeded in
  status (snd r) = 500
  /\ verification_sessions (fst r) = []
  /\ SESSIONS (fst r) = ∅
  /\ length (provider_calls (fst r)) = 1%nat.
Proof. cbv zeta. repeat split; vm_compute; reflexivity. Qed.

Example insert_succeeds_cache_written :
  let r := onRequestPost production
             (arriving (sudanRequest "SD01") 1700000000000 "vs_1") seeded in
  status (snd r) = 200
  /\ stripe_session_id <$> verification_sessions (fst r) = ["vs_1"]
  /\ kv_session_oid <$> SESSIONS (fst r) !! "vs_1"
     = Some "1.3.6.1.4.1.61026.1.729.1700000000000".
Proof. cbv zeta. repeat split; vm_compute; reflexivity. Qed.

End HandlerClaims.

(** ** Identifiers of distinct sessions *)

Section IdentifierClaims.

Import Oid.

(** C7 (code defect).  Two different create-session requests for the same
    country that reach the handler in the same millisecond are given the
    same identifier, although the repository describes the identifier as
    unique and declares its column UNIQUE.  Handled side by side, both are
    answered 200 with that identifier.  Handled one after the other, the
    second is sent to the provider under the identifier of the first, and
    only then fails on the durable table's uniqueness constraint: the
    answer is 500, the table still holds one row, and the provider has
    been asked for two sessions. *)
Theorem C7_same_millisecond_same_oid :
  let first := Api.arriving (Api.saudiRequest "document" "KSA001")
                            1700000000000 "vs_1" in
  let second := Api.arriving (Api.saudiRequest "id_number" "KSA001")
                             1700000000000 "vs_2" in
  let r1 := Api.onRequestPost Api.production first Api.seeded in
  let r2 := Api.onRequestPost Api.production second Api.seeded in
  let r2' := Api.onRequestPost Api.production second (fst r1) in
  Api.request_body first <> Api.request_body second
  /\ Api.status (snd r1) = 200
  /\ Api.status (snd r2) = 200
  /\ Api.oid_of (snd r1) = Some "1.3.6.1.4.1.61026.1.682.1700000000000"
  /\ Api.oid_of (snd r2) = Api.oid_of (snd r1)
  /\ Api.oid_sent <$> Api.provider_calls (fst r2')
     = [Api.oid_of (snd r1); Api.oid_of (snd r1)]
  /\ Api.status (snd r2') = 500
  /\ Api.stripe_session_id <$> Api.verification_sessions (fst r2') = ["vs_1"].
Proof.
  cbv zeta. split; [discriminate|].
  repeat split; vm_compute; reflexivity.
Qed.

End IdentifierClaims.

(** ** When a collaborator fails *)

Section Failures.

Import Security Oid.

Lemma not_both_countries cc : code_is "SD" cc = true -> code_is "SA" cc = false.
Proof.
  destruct cc as [c|]; cbn; [|discriminate].
  intros H. apply String.eqb_eq in H. subst c. reflexivity.
Qed.

(** A failing registry query in the edge handler ends the request in the
    outer [catch]: status 500, the message on the console, nothing else
    changed. *)
Lemma registry_query_failure_is_500 env i c body message :
  Api.request_body i = Some body ->
  Api.d1_select_fault i = Some message ->
  Api.needs_registry body = true ->
  Api.onRequestPost env i c
  = (Api.set_console
       (Api.console c
        ++ [console_error "Verification session creation error:" message])%list c,
     Api.reply 500 "Internal server error" (Some message)).
Proof.
  intros Hbody Hfault Hneeds. unfold Api.needs_registry in Hneeds.
  unfold Api.onRequestPost, Api.handle, Api.validateSaudiFacility,
    Api.validateSudanWilaya, Api.select_facility, Api.select_wilaya,
    Api.faulty, gets, throw.
  unfold mbind, M_bind, mret, M_ret.
  rewrite Hbody, Hfault.
  apply orb_true_iff in Hneeds as [H|H]; apply andb_true_iff in H as [Hcc H].
  - destruct (Api.healthcare_context body) as [hc|]; [|discriminate].
    rewrite Hcc, H. reflexivity.
  - destruct (Api.national_context body) as [nc|]; [|discriminate].
    rewrite Hcc, (not_both_countries _ Hcc), H.
    destruct (Api.healthcare_context body); reflexivity.
Qed.







(** The failure is not silent on the console: the warning is there, after
    the session endpoint has been fetched. *)
Example neural_sync_failure_logged :
  let r := Client.createVerificationSession Client.allEndpoints
             (Client.with_neural (Rejected "Failed to fetch") Client.allUp)
             Client.saudiClinic Client.firstVisit in
  Client.console (fst r) = [console_warn "Neural sync warning:" "Failed to fetch"]
  /\ Client.fetched (fst r)
     = ["https://nphies.example/api/validate";
        "/api/create-verification-session";
        "https://neural.brainsait.example/sync"].
Proof. cbv zeta. split; vm_compute; reflexivity. Qed.

End Failures.

(** * Further properties of the code *)

(** ** The risk scorer: counting, banding, lockout *)

Section ScorerFurther.

Import Security.

Lemma fraud_by_markers a userContext m :
  performAdvancedFraudChecks a userContext m
  = Z.min ((if detectHeadlessBrowser a then 60 else 0)
           + (if detectAutomationTools a then 50 else 0)) 100.
Proof.
  unfold performAdvancedFraudChecks, detectLocationMismatch, detectVPNUsage.
  destruct (uc_countryCode userContext); rewrite ?andb_false_r;
    destruct (detectHeadlessBrowser a), (detectAutomationTools a); reflexivity.
Qed.

Lemma fraud_nonneg a userContext m :
  0 <= performAdvancedFraudChecks a userContext m.
Proof.
  rewrite fraud_by_markers.
  destruct (detectHeadlessBrowser a), (detectAutomationTools a); cbn; lia.
Qed.

(** X1.  One call counts one attempt for its own session key: the stored
    metrics carry the incremented count, the current time, the score just
    computed and the fingerprint already on record; the metrics of every
    other key are left as they were. *)
Theorem attempt_counted_for_own_key a sessionId userContext s :
  let r := validateVerificationRequest a sessionId userContext s in
  (exists m,
      securityMetrics (fst r) !! sessionId = Some m
      /\ verificationAttempts m
         = verificationAttempts (recordedMetrics a sessionId s) + 1
      /\ lastAttemptTimestamp m = clock a
      /\ suspiciousActivityScore m = riskScore (snd r)
      /\ deviceFingerprint m = deviceFingerprint (recordedMetrics a sessionId s))
  /\ (forall other, other <> sessionId ->
        securityMetrics (fst r) !! other = securityMetrics s !! other).
Proof.
  cbv zeta. unfold validateVerificationRequest, recordedMetrics, resolvedFingerprint.
  destruct (sessionStorage s !! fp_key) as [fp|] eqn:E;
    [destruct (truthy (Some fp))|];
    cbn [initializeDeviceFingerprinting fst snd securityMetrics sessionStorage
         riskScore];
    (split;
     [ rewrite lookup_insert_eq; eexists; split; [reflexivity|];
       destruct (securityMetrics s !! sessionId); cbn; auto
     | intros other Hne; rewrite lookup_insert_ne by congruence; reflexivity ]).
Qed.

(** X2.  The decision is read off the score alone: a call is allowed
    exactly below 70, a reason is given exactly when it is blocked, and the
    reason is then one of two texts, by the 90 mark.  The two lower
    texts of [getRiskReason] never reach a caller. *)
Theorem decision_bands a sessionId userContext s :
  let v := snd (validateVerificationRequest a sessionId userContext s) in
  (isValid v = true <-> riskScore v < 70)
  /\ (blockedReason v = None <-> isValid v = true)
  /\ (70 <= riskScore v < 90 <->
      blockedReason v = Some "Suspicious activity patterns")
  /\ (90 <= riskScore v <->
      blockedReason v = Some "High fraud risk detected")
  /\ blockedReason v <> Some "Multiple failed attempts"
  /\ blockedReason v <> Some "Security threshold exceeded".
Proof.
  cbv zeta.
  destruct (verdict_of_score a sessionId userContext s) as [Hv Hr].
  set (v := snd (validateVerificationRequest a sessionId userContext s)) in *.
  rewrite Hv, Hr. unfold getRiskReason.
  destruct (Z.ltb_spec (riskScore v) 70);
    destruct (Z.leb_spec 90 (riskScore v));
    destruct (Z.leb_spec 70 (riskScore v));
    repeat split; intros; try discriminate; try lia; auto.
Qed.

(** Once the recorded count has reached the configured maximum, the next
    call is blocked whatever the device shows. *)
Lemma over_maximum_blocked a sessionId userContext s :
  maxVerificationAttempts (config s)
    <= verificationAttempts (recordedMetrics a sessionId s) ->
  isValid (snd (validateVerificationRequest a sessionId userContext s)) = false.
Proof.
  intros Hmax.
  destruct (verdict_of_score a sessionId userContext s) as [-> _].
  rewrite riskScore_sum.
  destruct (Z.ltb_spec (maxVerificationAttempts (config s))
              (verificationAttempts (recordedMetrics a sessionId s) + 1));
    [|lia].
  apply Z.ltb_ge.
  pose proof (fraud_nonneg a userContext (recordedMetrics a sessionId s)).
  destruct (fp_differs _ _), (enableAdvancedFraudDetection (config s)); lia.
Qed.

(** X3.  Lockout: once the count recorded for a session key has reached
    the configured maximum, every later call under that key is blocked, in
    any browser and at any time, for as long as the metrics are kept. *)
Theorem lockout_persists calls sessionId userContext s m :
  securityMetrics s !! sessionId = Some m ->
  maxVerificationAttempts (config s) <= verificationAttempts m ->
  Forall (fun v => isValid v = false)
         (snd (submit calls sessionId userContext s)).
Proof.
  revert s m. induction calls as [|a rest IH]; intros s m Hm Hmax; cbn [submit].
  { constructor. }
  destruct (validateVerificationRequest a sessionId userContext s)
    as [s1 v] eqn:E1.
  destruct (submit rest sessionId userContext s1) as [s2 vs] eqn:E2.
  cbn [snd].
  assert (Hrec : recordedMetrics a sessionId s = m)
    by (unfold recordedMetrics; rewrite Hm; reflexivity).
  constructor.
  - change v with (snd (s1, v)). rewrite <- E1.
    apply over_maximum_blocked. rewrite Hrec. exact Hmax.
  - destruct (metrics_after a sessionId userContext s) as (m1 & Hm1 & Hn & _).
    rewrite E1 in Hm1. cbn [fst] in Hm1.
    change vs with (snd (s2, vs)). rewrite <- E2.
    apply (IH s1 m1 Hm1).
    replace (config s1) with (config s)
      by (change s1 with (fst (s1, v)); rewrite <- E1; symmetry; apply config_after).
    rewrite Hn, Hrec. lia.
Qed.

Lemma lockout_persists_witness :
  Forall (fun v => isValid v = false)
         (snd (submit fourWithinFiveSeconds "k" documentSA thirdAttemptElsewhere)).
Proof.
  apply (lockout_persists fourWithinFiveSeconds "k" documentSA
           thirdAttemptElsewhere
           {| verificationAttempts := 3;
              lastAttemptTimestamp := 1699999990000;
              suspiciousActivityScore := 30;
              deviceFingerprint := Some "b3RoZXItZGV2aWNlLWZpbmdlcnByaW50";
              ipAddress := Some getUserIP;
              userAgent := Some "Mozilla/5.0" |});
    [reflexivity | vm_compute; discriminate].
Defined.

(** X4.  A key without recorded metrics never pays the device penalty, and
    with a maximum of at least one attempt its first call scores 30 plus
    the advanced-check contribution; so it is allowed exactly when advanced
    detection is off or the browser shows neither marker. *)
Theorem first_call_for_a_key a sessionId userContext s :
  securityMetrics s !! sessionId = None ->
  1 <= maxVerificationAttempts (config s) ->
  let v := snd (validateVerificationRequest a sessionId userContext s) in
  riskScore v
  = 30 + (if enableAdvancedFraudDetection (config s)
          then Z.min ((if detectHeadlessBrowser a then 60 else 0)
                      + (if detectAutomationTools a then 50 else 0)) 100
          else 0)
  /\ (isValid v = true <->
      enableAdvancedFraudDetection (config s) = false
      \/ (detectHeadlessBrowser a = false /\ detectAutomationTools a = false)).
Proof.
  intros Hnew Hmax. cbv zeta.
  destruct (verdict_of_score a sessionId userContext s) as [-> _].
  rewrite riskScore_sum.
  assert (Hrec : recordedMetrics a sessionId s
                 = {| verificationAttempts := 0;
                      lastAttemptTimestamp := 0;
                      suspiciousActivityScore := 0;
                      deviceFingerprint := Some (resolvedFingerprint a s);
                      ipAddress := Some getUserIP;
                      userAgent := Some (nav_userAgent (navigator a)) |})
    by (unfold recordedMetrics; rewrite Hnew; reflexivity).
  rewrite Hrec. cbn [verificationAttempts deviceFingerprint fp_differs].
  rewrite String.eqb_refl. cbn [negb].
  destruct (Z.ltb_spec (maxVerificationAttempts (config s)) (0 + 1)); [lia|].
  rewrite fraud_by_markers.
  destruct (enableAdvancedFraudDetection (config s)),
           (detectHeadlessBrowser a), (detectAutomationTools a);
    cbn; (split; [reflexivity|]); split; intros; auto;
    try discriminate; intuition discriminate.
Qed.

Lemma first_call_for_a_key_witness :
  riskScore (snd (validateVerificationRequest (webdriverBrowser 1700000000000)
                    "k2" documentSA thirdAttemptElsewhere)) = 30 + 0.
Proof.
  apply (first_call_for_a_key (webdriverBrowser 1700000000000) "k2" documentSA
           thirdAttemptElsewhere);
    [reflexivity | vm_compute; discriminate].
Defined.

End ScorerFurther.

(** ** The risk scorer: incident history, clearing, device change *)

Section ScorerHistory.

Import Security.

Lemma report_last i l : last (reportSecurityIncident i l) = Some i.
Proof.
  unfold reportSecurityIncident.
  destruct (100 <? length (l ++ [i])%list)%nat eqn:E.
  - apply Nat.ltb_lt in E. rewrite length_app in *. cbn [length] in *.
    rewrite drop_app_le by lia. apply last_snoc.
  - apply last_snoc.
Qed.

Lemma report_length i l :
  length (reportSecurityIncident i l) = Nat.min (S (length l)) 100.
Proof.
  unfold reportSecurityIncident.
  destruct (100 <? length (l ++ [i])%list)%nat eqn:E.
  - apply Nat.ltb_lt in E. rewrite length_drop. rewrite length_app in *. cbn in *. lia.
  - apply Nat.ltb_ge in E. rewrite length_app in *. cbn in *. lia.
Qed.

Lemma incidents_after a sessionId userContext s :
  let r := validateVerificationRequest a sessionId userContext s in
  incidents (fst r) = logSecurityEvent sessionId (snd r) (incidents s).
Proof.
  cbv zeta. unfold validateVerificationRequest.
  destruct (sessionStorage s !! fp_key) as [fp|]; [destruct (truthy (Some fp))|];
    reflexivity.
Qed.



(** X6.  Clearing one session key forgets that key only: its next call is
    counted as attempt 1 and scored as a first call; every other key keeps
    its metrics.  Clearing with no argument - or with the empty string,
    which JavaScript treats alike - forgets every key. *)
Theorem clearing_metrics a sessionId s :
  (sessionId <> "" ->
     let s' := clearSecurityMetrics (Some sessionId) s in
     securityMetrics s' !! sessionId = None
     /\ (forall other, other <> sessionId ->
           securityMetrics s' !! other = securityMetrics s !! other)
     /\ verificationAttempts (recordedMetrics a sessionId s') + 1 = 1
     /\ fp_differs (deviceFingerprint (recordedMetrics a sessionId s'))
                   (resolvedFingerprint a s') = false)
  /\ securityMetrics (clearSecurityMetrics None s) = ∅
  /\ securityMetrics (clearSecurityMetrics (Some "") s) = ∅
  /\ getSecurityMetrics (Some "") s = inr (securityMetrics s).
Proof.
  split; [|repeat split].
  intros Hne. cbv zeta. unfold clearSecurityMetrics.
  rewrite (proj2 (negb_true_iff _) (proj2 (String.eqb_neq _ _) Hne) : truthy (Some sessionId) = true).
  change (default "" (Some sessionId)) with sessionId.
  cbn [set_securityMetrics securityMetrics].
  split; [apply lookup_delete_eq|].
  split; [intros other Ho; apply lookup_delete_ne; intros E; apply Ho; symmetry;
          exact E|].
  unfold recordedMetrics, set_securityMetrics. cbn [securityMetrics].
  rewrite lookup_delete_eq. cbn. rewrite String.eqb_refl. auto.
Qed.

Lemma clearing_metrics_witness :
  securityMetrics (clearSecurityMetrics (Some "k") thirdAttemptElsewhere) !! "k"
  = None.
Proof.
  apply (proj1 (clearing_metrics (plainBrowser 0) "k" thirdAttemptElsewhere)).
  discriminate.
Defined.

(** X7.  A changed device costs exactly 40: for a session on record with
    the fingerprint of the first device, the same call made from a browser
    session holding another fingerprint scores 40 more. *)
Theorem device_change_adds_40 a sessionId userContext s1 s2 m fp0 fp1 :
  config s1 = config s2 ->
  securityMetrics s1 !! sessionId = Some m ->
  securityMetrics s2 !! sessionId = Some m ->
  deviceFingerprint m = Some fp0 ->
  sessionStorage s1 !! fp_key = Some fp0 ->
  sessionStorage s2 !! fp_key = Some fp1 ->
  fp0 <> "" -> fp1 <> "" -> fp1 <> fp0 ->
  riskScore (snd (validateVerificationRequest a sessionId userContext s2))
  = riskScore (snd (validateVerificationRequest a sessionId userContext s1)) + 40.
Proof.
  intros Hc H1 H2 Hfp Hs1 Hs2 Hne0 Hne1 Hdiff.
  rewrite !riskScore_sum.
  unfold recordedMetrics, resolvedFingerprint.
  rewrite H1, H2, Hs1, Hs2, Hc, Hfp.
  unfold truthy.
  rewrite (proj2 (String.eqb_neq _ _) Hne0), (proj2 (String.eqb_neq _ _) Hne1).
  cbn [negb fp_differs].
  rewrite String.eqb_refl.
  rewrite (proj2 (String.eqb_neq fp0 fp1)) by congruence.
  cbn [negb]. lia.
Qed.

Lemma device_change_adds_40_witness :
  riskScore (snd (validateVerificationRequest (plainBrowser 1700000000000) "k"
                    documentSA thirdAttemptElsewhere))
  = riskScore (snd (validateVerificationRequest (plainBrowser 1700000000000) "k"
                      documentSA
                      {| securityMetrics := securityMetrics thirdAttemptElsewhere;
                         config := config thirdAttemptElsewhere;
                         realTimeMonitoringActive := false;
                         deviceFingerprintingActive := true;
                         cspActive := false;
                         sessionStorage :=
                           {[ fp_key := "b3RoZXItZGV2aWNlLWZpbmdlcnByaW50" ]};
                         incidents := [] |})) + 40.
Proof.
  apply (device_change_adds_40 (plainBrowser 1700000000000) "k" documentSA
           _ thirdAttemptElsewhere
           {| verificationAttempts := 3;
              lastAttemptTimestamp := 1699999990000;
              suspiciousActivityScore := 30;
              deviceFingerprint := Some "b3RoZXItZGV2aWNlLWZpbmdlcnByaW50";
              ipAddress := Some getUserIP;
              userAgent := Some "Mozilla/5.0" |}
           "b3RoZXItZGV2aWNlLWZpbmdlcnByaW50"
           (canvasPrint (plainBrowser 0)));
    try reflexivity; discriminate.
Defined.

End ScorerHistory.

(** ** Automation markers *)

Section Markers.

Import Security.

Lemma prefix_iff needle hay :
  String.prefix needle hay = true <-> exists post, hay = needle ++ post.
Proof.
  revert hay. induction needle as [|c needle IH]; intros hay.
  - split; [intros _; exists hay; reflexivity | destruct hay; reflexivity].
  - destruct hay as [|d hay]; cbn.
    + split; [discriminate | intros [post H]; discriminate].
    + destruct (ascii_dec c d) as [->|Hne].
      * rewrite IH. split; intros [post H]; exists post.
        -- exact (f_equal (String d) H).
        -- change (String d hay = String d (needle ++ post)) in H. congruence.
      * split; [discriminate|]. intros [post H].
        change (String d hay = String c (needle ++ post)) in H. congruence.
Qed.

Lemma includes_iff needle hay :
  includes needle hay = true <-> exists pre post, hay = pre ++ needle ++ post.
Proof.
  induction hay as [|d hay IH]; cbn [includes]; rewrite orb_true_iff, prefix_iff.
  - split.
    + intros [[post H]|H]; [|discriminate]. exists "", post. exact H.
    + intros (pre & post & H). left. destruct pre as [|e pre].
      * exists post. exact H.
      * change ("" = String e (pre ++ needle ++ post)) in H. discriminate.
  - rewrite IH. split.
    + intros [[post H]|(pre & post & H)].
      * exists "", post. exact H.
      * exists (String d pre), post. exact (f_equal (String d) H).
    + intros (pre & post & H). destruct pre as [|e pre].
      * left. exists post. exact H.
      * right. change (String d hay = String e (pre ++ needle ++ post)) in H.
        exists pre, post. congruence.
Qed.

(** X8.  With advanced fraud detection on, a marked browser is blocked on
    every call, whatever its history.  A tooling marker (no plugins, no
    languages, or a user agent with [HeadlessChrome] anywhere in it)
    brings the score to 80 at least; a headless marker brings it to 90 at
    least, and the reason given is then the one of the highest band. *)
Theorem marked_browser_blocked a sessionId userContext s :
  enableAdvancedFraudDetection (config s) = true ->
  let v := snd (validateVerificationRequest a sessionId userContext s) in
  ((nav_plugins (navigator a) = 0%nat
    \/ nav_languages (navigator a) = 0%nat
    \/ (exists pre post,
          nav_userAgent (navigator a) = pre ++ "HeadlessChrome" ++ post)) ->
   isValid v = false /\ 80 <= riskScore v)
  /\ ((nav_webdriver (navigator a) = true
       \/ win_PhantomJS (window a) = true
       \/ win_phantom (window a) = true
       \/ win_selenium (window a) = true
       \/ win_nightmare (window a) = true) ->
      isValid v = false /\ 90 <= riskScore v
      /\ blockedReason v = Some "High fraud risk detected").
Proof.
  intros Hon. cbv zeta.
  destruct (verdict_of_score a sessionId userContext s) as [-> ->].
  rewrite riskScore_sum, Hon, fraud_by_markers.
  split.
  - intros Hmark.
    assert (Ht : detectAutomationTools a = true).
    { unfold detectAutomationTools.
      rewrite !orb_true_iff, !Nat.eqb_eq, includes_iff. tauto. }
    rewrite Ht.
    assert (H : 80 <= (if maxVerificationAttempts (config s)
                          <? verificationAttempts (recordedMetrics a sessionId s) + 1
                       then 50 else 0)
                      + 30
                      + (if fp_differs (deviceFingerprint (recordedMetrics a sessionId s))
                                       (resolvedFingerprint a s)
                         then 40 else 0)
                      + Z.min ((if detectHeadlessBrowser a then 60 else 0) + 50) 100).
    { destruct (_ <? _), (fp_differs _ _), (detectHeadlessBrowser a); cbn; lia. }
    split; [apply Z.ltb_ge; lia | exact H].
  - intros Hmark.
    assert (Hh : detectHeadlessBrowser a = true).
    { unfold detectHeadlessBrowser. rewrite !orb_true_iff. tauto. }
    rewrite Hh.
    assert (H : 90 <= (if maxVerificationAttempts (config s)
                          <? verificationAttempts (recordedMetrics a sessionId s) + 1
                       then 50 else 0)
                      + 30
                      + (if fp_differs (deviceFingerprint (recordedMetrics a sessionId s))
                                       (resolvedFingerprint a s)
                         then 40 else 0)
                      + Z.min (60 + (if detectAutomationTools a then 50 else 0)) 100).
    { destruct (_ <? _), (fp_differs _ _), (detectAutomationTools a); cbn; lia. }
    split; [apply Z.ltb_ge; lia|]. split; [exact H|].
    match goal with |- (if ?x <? 70 then _ else _) = _ =>
      destruct (Z.ltb_spec x 70); [lia|];
      unfold getRiskReason; destruct (Z.leb_spec 90 x); [reflexivity | lia]
    end.
Qed.

Lemma marked_browser_blocked_witness :
  let headlessChrome :=
    {| clock := 1700000000000;
       navigator :=
         {| nav_webdriver := false;
            nav_userAgent :=
              "Mozilla/5.0 (X11; Linux x86_64) HeadlessChrome/120.0.0.0 Safari/537.36";
            nav_plugins := 5;
            nav_languages := 2 |};
       window := window (plainBrowser 1700000000000);
       canvasPrint := canvasPrint (plainBrowser 1700000000000) |} in
  let v := snd (validateVerificationRequest headlessChrome
                  "1.3.6.1.4.1.61026.1.682.1700000000000" documentSA
                  (fresh (mkConfig true true true))) in
  isValid v = false /\ 80 <= riskScore v.
Proof.
  cbv zeta.
  apply (marked_browser_blocked
           {| clock := 1700000000000;
              navigator :=
                {| nav_webdriver := false;
                   nav_userAgent :=
                     "Mozilla/5.0 (X11; Linux x86_64) HeadlessChrome/120.0.0.0 Safari/537.36";
                   nav_plugins := 5;
                   nav_languages := 2 |};
              window := window (plainBrowser 1700000000000);
              canvasPrint := canvasPrint (plainBrowser 1700000000000) |}
           "1.3.6.1.4.1.61026.1.682.1700000000000" documentSA
           (fresh (mkConfig true true true)) eq_refl).
  right. right. exists "Mozilla/5.0 (X11; Linux x86_64) ", "/120.0.0.0 Safari/537.36".
  reflexivity.
Defined.

End Markers.

(** ** The browser-side service: blocked attempts, thrown errors, the
    returned session *)

Section ClientFurther.

Import Security Oid Client.

Variable ep : Endpoints.
Variable out : Outside.
Variable options : Options.

Let oid := generateOID verification (countryCode options) (oidClock out).
Let ctx : UserContext :=
  {| uc_type := type options; uc_countryCode := countryCode options |}.

(** X9.  A blocked attempt goes nowhere: [createVerificationSession]
    throws "Security validation failed: " followed by the reason, and has
    fetched nothing by then - neither a registry, nor the session endpoint,
    nor the neural endpoint. *)
Theorem blocked_attempt_fetches_nothing p :
  isValid (snd (validateVerificationRequest (ambient out) oid ctx (security p)))
  = false ->
  let r := createVerificationSession ep out options p in
  snd r = inl ("Security validation failed: "
               ++ getRiskReason
                    (riskScore (snd (validateVerificationRequest (ambient out)
                                       oid ctx (security p)))))
  /\ fetched (fst r) = fetched p.
Proof.
  intros Hblocked. cbv zeta.
  destruct (verdict_of_score (ambient out) oid ctx (security p)) as [Hv Hr].
  rewrite Hv in Hblocked. rewrite Hblocked in Hr.
  unfold createVerificationSession. fold oid ctx.
  unfold try_catch, mbind, M_bind, securityCheck.
  destruct (validateVerificationRequest (ambient out) oid ctx (security p))
    as [s1 v] eqn:Ev.
  cbn [snd] in *. rewrite Hv, Hblocked, Hr. cbn. auto.
Qed.

End ClientFurther.

Section ClientErrors.

Import Security Oid Client.

(** X10.  Whatever [createVerificationSession] throws, it has logged: the
    newest console line is the error line carrying the thrown message. *)
Theorem thrown_error_is_logged ep out options p e :
  snd (createVerificationSession ep out options p) = inl e ->
  last (console (fst (createVerificationSession ep out options p)))
  = Some (console_error "Error creating verification session:" e).
Proof.
  unfold createVerificationSession, try_catch.
  match goal with
  | |- context [match ?m p with _ => _ end] => destruct (m p) as [p' [e'|x]]
  end.
  - cbn. intros [= ->]. apply last_snoc.
  - cbn. discriminate.
Qed.

Lemma thrown_error_is_logged_witness :
  last (console (fst (createVerificationSession allEndpoints drivenByWebdriver
                        saudiClinic firstVisit)))
  = Some (console_error "Error creating verification session:"
            "Security validation failed: High fraud risk detected").
Proof.
  apply (thrown_error_is_logged allEndpoints drivenByWebdriver saudiClinic
           firstVisit).
  vm_compute. reflexivity.
Defined.

Lemma blocked_attempt_fetches_nothing_witness :
  fetched (fst (createVerificationSession allEndpoints drivenByWebdriver
                  saudiClinic firstVisit)) = [].
Proof.
  apply (proj2 (blocked_attempt_fetches_nothing allEndpoints drivenByWebdriver
                  saudiClinic firstVisit eq_refl)).
Defined.

(** X11.  The session a successful call returns is the session endpoint's
    reply with one field changed: [oid] is the identifier generated in the
    browser, also when the reply had an [oid] of its own; every other field,
    [id] included, reads as in the reply. *)
Theorem returned_session_fields ep out options p response session :
  isValid (snd (validateVerificationRequest (ambient out)
                  (generateOID verification (countryCode options) (oidClock out))
                  {| uc_type := type options;
                     uc_countryCode := countryCode options |}
                  (security p))) = true ->
  apiReply out = Resolved response ->
  ok response = true ->
  body response = Some session ->
  exists returned,
    snd (createVerificationSession ep out options p) = inr returned
    /\ obj_get "oid" returned
       = Some (JStr (generateOID verification (countryCode options)
                                 (oidClock out)))
    /\ forall field, field <> "oid" ->
         obj_get field returned = obj_get field session.
Proof.
  intros Hvalid Hapi Hok Hbody.
  destruct (createVerificationSession_result ep options out p) as [R _].
  cbv zeta in R. unfold outcome_of in R.
  rewrite Hvalid, Hapi, Hok, Hbody in R. cbn [negb] in R.
  eexists. split; [exact R|]. split.
  - apply obj_get_set_same.
  - intros field Hne. apply obj_get_set_other. exact Hne.
Qed.

Lemma returned_session_fields_witness :
  exists returned,
    snd (createVerificationSession allEndpoints allUp saudiClinic firstVisit)
    = inr returned
    /\ obj_get "oid" returned
       = Some (JStr (generateOID verification (countryCode saudiClinic)
                                 (oidClock allUp)))
    /\ forall field, field <> "oid" ->
         obj_get field returned = obj_get field createdSession.
Proof.
  apply (returned_session_fields allEndpoints allUp saudiClinic firstVisit
           {| ok := true; status := 200; statusText := "OK";
              body := Some createdSession |} createdSession);
    reflexivity.
Defined.



End ClientErrors.

(** ** The edge handler: past validation, at the provider, in the stores *)

Section HandlerFurther.

Import Oid Api.

Variable env : Env.
Variable i : Incoming.

Lemma find_something {A} (f : A -> bool) (l : list A) x :
  In x l -> f x = true -> is_Some (List.find f l).
Proof.
  induction l as [|y l IH]; cbn; [intros []|].
  intros [->|Hin] Hf.
  - rewrite Hf. eauto.
  - destruct (f y); eauto.
Qed.

Lemma facility_step_passes c body :
  passes_regional i c body ->
  match healthcare_context body with
  | Some hc =>
      if code_is "SA" (country_code body)
      then validateSaudiFacility i (facilityCode hc)
      else mret true
  | None => mret true
  end c = (c, inr true).
Proof.
  intros Hpass.
  destruct (healthcare_context body) as [hc|] eqn:Hhc; [|reflexivity].
  destruct (code_is "SA" (country_code body)) eqn:Hcc; [|reflexivity].
  unfold validateSaudiFacility.
  destruct (truthy (facilityCode hc)) eqn:Ht; [|reflexivity].
  destruct Hpass as [Hno|[Hdb [Hsa _]]].
  { unfold needs_registry in Hno. rewrite Hcc, Hhc, Ht in Hno. discriminate. }
  destruct (facilityCode hc) as [code|] eqn:Hcode; [|discriminate].
  assert (Hne : code <> "")
    by (intros ->; discriminate).
  destruct (Hsa hc code Hcc Hhc Hcode Hne) as (r & Hin & Hc & Ha & Hn).
  cbn [negb default]. unfold select_facility, faulty, gets.
  unfold mbind, M_bind, mret, M_ret. rewrite Hdb.
  destruct (find_something
              (fun r => String.eqb (facility_code r) code
                        && facility_is_active r && nphies_certified r)
              (healthcare_facilities c) r Hin) as [r' Hr'].
  { rewrite Hc, Ha, Hn, String.eqb_refl. reflexivity. }
  change (Datatypes.id code) with code. rewrite Hr'. reflexivity.
Qed.

Lemma wilaya_step_passes c body :
  passes_regional i c body ->
  match national_context body with
  | Some nc =>
      if code_is "SD" (country_code body)
      then validateSudanWilaya i (wilayaCode nc)
      else mret true
  | None => mret true
  end c = (c, inr true).
Proof.
  intros Hpass.
  destruct (national_context body) as [nc|] eqn:Hnc; [|reflexivity].
  destruct (code_is "SD" (country_code body)) eqn:Hcc; [|reflexivity].
  unfold validateSudanWilaya.
  destruct (truthy (wilayaCode nc)) eqn:Ht; [|reflexivity].
  destruct Hpass as [Hno|[Hdb [_ Hsd]]].
  { unfold needs_registry in Hno. rewrite Hcc, Hnc, Ht in Hno.
    rewrite orb_true_r in Hno. discriminate. }
  destruct (wilayaCode nc) as [code|] eqn:Hcode; [|discriminate].
  assert (Hne : code <> "")
    by (intros ->; discriminate).
  destruct (Hsd nc code Hcc Hnc Hcode Hne) as (r & Hin & Hc & Ha).
  cbn [negb default]. unfold select_wilaya, faulty, gets.
  unfold mbind, M_bind, mret, M_ret. rewrite Hdb.
  destruct (find_something
              (fun r => String.eqb (wilaya_code r) code && wilaya_is_active r)
              (sudan_wilayas c) r Hin) as [r' Hr'].
  { rewrite Hc, Ha, String.eqb_refl. reflexivity. }
  change (Datatypes.id code) with code. rewrite Hr'. reflexivity.
Qed.

(** Brings a run whose request parses and passes regional validation to
    the provider call. *)
Ltac to_provider Hbody Hpass :=
  unfold onRequestPost, handle;
  erewrite bind_returns by (rewrite Hbody; reflexivity);
  erewrite bind_returns by (apply facility_step_passes; exact Hpass);
  cbn [negb];
  erewrite bind_returns by (apply wilaya_step_passes; exact Hpass);
  cbn [negb].

(** Runs the rest of the handler by cases on what it meets. *)
Ltac through_stores :=
  unfold stripe_fetch, stripe_json, d1_insert, kv_sessions_put, kv_neural_put,
    faulty, gets, modify, throw, when;
  unfold mbind, M_bind, mret, M_ret.

(** X13.  Pass-through.  A request that parses and gets past regional
    validation - because it needs no registry (another country, no
    regional context, no code), or because the registry accepts its codes -
    is sent to the identity provider, once, under the session identifier
    of this run. *)
Theorem validated_request_reaches_provider c body :
  request_body i = Some body ->
  passes_regional i c body ->
  provider_calls (fst (onRequestPost env i c))
  = (provider_calls c
     ++ [stripe_params body
           (sessionOID (BRAINSAIT_OID_ROOT env) (country_code body) (now i))])%list.
Proof.
  intros Hbody Hpass. to_provider Hbody Hpass. through_stores.
  destruct (stripe i) as [message|r]; [reflexivity|].
  destruct (s_ok r); [|reflexivity]. cbn [negb].
  destruct (s_json r) as [session|]; [|reflexivity].
  destruct (d1_insert_fault i); [reflexivity|].
  cbn [set_provider_calls verification_sessions].
  destruct (existsb _ (verification_sessions c)); [reflexivity|].
  destruct (kv_sessions_fault i); [reflexivity|].
  destruct (neural_enabled body); [|reflexivity].
  destruct (kv_neural_fault i); reflexivity.
Qed.

(** X14.  A provider failure stores nothing.  When the provider answers
    with a status that is not OK, the handler passes that status and the
    provider's text on under "Stripe API error"; when the provider cannot
    be reached, it answers 500 and logs the error.  In both cases the only
    trace in the stores is the provider request itself. *)
Theorem provider_failure_stores_nothing c body :
  request_body i = Some body ->
  passes_regional i c body ->
  let params := stripe_params body
                  (sessionOID (BRAINSAIT_OID_ROOT env) (country_code body) (now i)) in
  (forall r, stripe i = StripeResolved r -> s_ok r = false ->
     onRequestPost env i c
     = (set_provider_calls (provider_calls c ++ [params])%list c,
        reply (s_status r) "Stripe API error" (Some (s_text r))))
  /\ (forall message, stripe i = StripeRejected message ->
       onRequestPost env i c
       = (set_console
            (console c
             ++ [console_error "Verification session creation error:" message])%list
            (set_provider_calls (provider_calls c ++ [params])%list c),
          reply 500 "Internal server error" (Some message))).
Proof.
  intros Hbody Hpass. cbv zeta. split.
  - intros r Hr Hok. to_provider Hbody Hpass. through_stores.
    rewrite Hr, Hok. reflexivity.
  - intros message Hr. to_provider Hbody Hpass. through_stores.
    rewrite Hr. reflexivity.
Qed.

Lemma existsb_nothing {A} (f : A -> bool) (l : list A) :
  (forall x, In x l -> f x = false) -> existsb f l = false.
Proof.
  induction l as [|x l IH]; cbn; [reflexivity|].
  intros H. rewrite (H x) by auto. apply IH. auto.
Qed.

(** X15.  A session is created when every step succeeds: the request
    parses and passes regional validation, the provider returns a session,
    neither identifier is already stored, and the stores accept the
    writes.  The answer is 200 with the provider's session and the run's
    identifier.  The durable table gains exactly the session's row, in
    status "created", whose data column holds five fields of the request
    (type, return address, the two regional contexts and the metadata,
    not the country code) and whose expiry is the one the database
    computes.  The cache maps the provider id to the identifier, stamped
    with the first reading of the clock; and the neural context is stored
    under the identifier exactly when the request's metadata enables it,
    with both fixed features on and stamped with a second, later reading
    of the clock. *)
Theorem session_created c body r session :
  request_body i = Some body ->
  passes_regional i c body ->
  stripe i = StripeResolved r -> s_ok r = true -> s_json r = Some session ->
  d1_insert_fault i = None ->
  kv_sessions_fault i = None ->
  kv_neural_fault i = None ->
  let oid := sessionOID (BRAINSAIT_OID_ROOT env) (country_code body) (now i) in
  (forall row, In row (verification_sessions c) ->
     session_oid row <> oid /\ stripe_session_id row <> id session) ->
  let c' := fst (onRequestPost env i c) in
  snd (onRequestPost env i c)
  = {| status := 200;
       payload := SessionPayload session oid (neural_enabled body)
                    (negb (code_is "US" (country_code body))) |}
  /\ verification_sessions c'
     = (verification_sessions c
        ++ [{| session_oid := oid;
               stripe_session_id := id session;
               session_status := "created";
               country_context := or_else (country_code body) "US";
               session_data :=
                 {| sd_type := type body;
                    sd_return_url := return_url body;
                    sd_healthcare_context := healthcare_context body;
                    sd_national_context := national_context body;
                    sd_metadata := metadata body |};
               expires_at := expiry i |}])%list
  /\ SESSIONS c'
     = <[id session := {| kv_session_oid := oid;
                          kv_created_at := isoNow i;
                          kv_country_code := country_code body;
                          kv_type := type body |}]> (SESSIONS c)
  /\ NEURAL_CONTEXT c'
     = if neural_enabled body
       then <[oid := {| nc_session_oid := oid;
                        nc_stripe_session_id := id session;
                        nc_country_context := country_code body;
                        nc_verification_type := type body;
                        nc_real_time_sync := true;
                        nc_obsidian_integration := true;
                        nc_regional_integration :=
                          negb (code_is "US" (country_code body));
                        nc_created_at := isoNowNeural i |}]> (NEURAL_CONTEXT c)
       else NEURAL_CONTEXT c.
Proof.
  intros Hbody Hpass Hr Hok Hjson Hins Hkv Hneural oid Hfresh. cbv zeta.
  assert (Hnone : existsb
                    (fun r0 => String.eqb (session_oid r0) oid
                               || String.eqb (stripe_session_id r0) (id session))
                    (verification_sessions c) = false).
  { apply existsb_nothing. intros row Hin.
    destruct (Hfresh row Hin) as [H1 H2].
    apply orb_false_iff. split; apply String.eqb_neq; assumption. }
  to_provider Hbody Hpass. through_stores.
  rewrite Hr, Hok, Hjson, Hins, Hkv, Hneural. cbn [negb].
  cbn [set_provider_calls verification_sessions session_oid stripe_session_id].
  fold oid. rewrite Hnone.
  destruct (neural_enabled body); cbn; auto.
Qed.

(** X23.  A collision is noticed late.  When the identifier of the run, or
    the provider's session id, is already in the durable table, the
    request has passed validation and the provider has already created a
    session for it by the time the insert is refused: the answer is 500,
    the error is logged, and nothing but the record of the provider
    request has changed. *)
Theorem colliding_identifier_refused c body r session :
  request_body i = Some body ->
  passes_regional i c body ->
  stripe i = StripeResolved r -> s_ok r = true -> s_json r = Some session ->
  d1_insert_fault i = None ->
  let oid := sessionOID (BRAINSAIT_OID_ROOT env) (country_code body) (now i) in
  (exists row, In row (verification_sessions c)
               /\ (session_oid row = oid \/ stripe_session_id row = id session)) ->
  exists message,
    onRequestPost env i c
    = (set_console
         (console c
          ++ [console_error "Verification session creation error:" message])%list
         (set_provider_calls (provider_calls c ++ [stripe_params body oid])%list c),
       reply 500 "Internal server error" (Some message)).
Proof.
  intros Hbody Hpass Hr Hok Hjson Hins oid (row & Hin & Hrow).
  assert (Hsome : existsb
                    (fun r0 => String.eqb (session_oid r0) oid
                               || String.eqb (stripe_session_id r0) (id session))
                    (verification_sessions c) = true).
  { apply existsb_exists. exists row. split; [exact Hin|].
    apply orb_true_iff. destruct Hrow as [H|H]; [left|right];
      apply String.eqb_eq; exact H. }
  eexists.
  to_provider Hbody Hpass. through_stores.
  rewrite Hr, Hok, Hjson, Hins. cbn [negb].
  cbn [set_provider_calls verification_sessions session_oid stripe_session_id].
  fold oid. rewrite Hsome. reflexivity.
Qed.

End HandlerFurther.

Section HandlerFurtherWitnesses.

Import Oid Api.

Lemma sd01_accepted i :
  d1_select_fault i = None ->
  passes_regional i seeded (sudanRequest "SD01").
Proof.
  intros Hdb. right. split; [exact Hdb|]. split.
  - intros hc code H. discriminate.
  - intros nc code _ [= <-] [= <-] _.
    exists {| wilaya_code := "SD01"; wilaya_is_active := true |}.
    split; [left; reflexivity | split; reflexivity].
Qed.

Lemma validated_request_reaches_provider_witness :
  provider_calls (fst (onRequestPost production
                         (arriving foreignRequest 1700000000000 "vs_9") seeded))
  = [stripe_params foreignRequest
       (sessionOID (BRAINSAIT_OID_ROOT production) (Some "US") 1700000000000)].
Proof.
  apply (validated_request_reaches_provider production
           (arriving foreignRequest 1700000000000 "vs_9") seeded foreignRequest);
    [reflexivity | left; reflexivity].
Defined.

Lemma provider_failure_stores_nothing_witness :
  onRequestPost production
    (with_stripe (stripeRefuses 402 "card_declined")
       (arriving (sudanRequest "SD01") 1700000000000 "vs_1")) seeded
  = (set_provider_calls
       [stripe_params (sudanRequest "SD01")
          (sessionOID (BRAINSAIT_OID_ROOT production) (Some "SD") 1700000000000)]
       seeded,
     reply 402 "Stripe API error" (Some "card_declined")).
Proof.
  exact (proj1 (provider_failure_stores_nothing production
                  (with_stripe (stripeRefuses 402 "card_declined")
                     (arriving (sudanRequest "SD01") 1700000000000 "vs_1"))
                  seeded (sudanRequest "SD01") eq_refl
                  (sd01_accepted
                     (with_stripe (stripeRefuses 402 "card_declined")
                        (arriving (sudanRequest "SD01") 1700000000000 "vs_1"))
                     eq_refl))
               {| s_ok := false; s_status := 402; s_text := "card_declined";
                  s_json := None |} eq_refl eq_refl).
Defined.

Lemma session_created_witness :
  let run := onRequestPost production
               (arriving (sudanRequest "SD01") 1700000000000 "vs_1") seeded in
  snd run
  = {| status := 200;
       payload := SessionPayload
                    {| id := "vs_1"; fields := [("status", JStr "requires_input")] |}
                    "1.3.6.1.4.1.61026.1.729.1700000000000" true true |}
  /\ verification_sessions (fst run)
     = [{| session_oid := "1.3.6.1.4.1.61026.1.729.1700000000000";
           stripe_session_id := "vs_1";
           session_status := "created";
           country_context := "SD";
           session_data :=
             {| sd_type := "id_number";
                sd_return_url := "https://iod.brainsait.example/return";
                sd_healthcare_context := None;
                sd_national_context :=
                  Some {| sudanNationalId := Some "19900101-1234";
                          ministryCode := None;
                          wilayaCode := Some "SD01" |};
                sd_metadata := Some [("neural_integration", "enabled")] |};
           expires_at := "2023-11-15 22:13:20" |}]
  /\ kv_created_at <$> SESSIONS (fst run) !! "vs_1"
     = Some "2023-11-14T22:13:20.004Z"
  /\ nc_created_at
       <$> NEURAL_CONTEXT (fst run) !! "1.3.6.1.4.1.61026.1.729.1700000000000"
     = Some "2023-11-14T22:13:20.009Z".
Proof.
  cbv zeta.
  assert (H : _) by (apply (session_created production
           (arriving (sudanRequest "SD01") 1700000000000 "vs_1") seeded
           (sudanRequest "SD01")
           {| s_ok := true; s_status := 200; s_text := "";
              s_json := Some {| id := "vs_1";
                                fields := [("status", JStr "requires_input")] |} |}
           {| id := "vs_1"; fields := [("status", JStr "requires_input")] |});
    [reflexivity | apply sd01_accepted; reflexivity | reflexivity | reflexivity
    | reflexivity | reflexivity | reflexivity | reflexivity | intros row []]).
  destruct H as (H1 & H2 & H3 & H4).
  split; [exact H1|]. split; [exact H2|]. split.
  - rewrite H3. rewrite lookup_insert_eq. reflexivity.
  - rewrite H4. change (neural_enabled (sudanRequest "SD01")) with true.
    cbv iota. rewrite lookup_insert_eq. reflexivity.
Defined.

Lemma colliding_identifier_refused_witness :
  let first := arriving (saudiRequest "document" "KSA001") 1700000000000 "vs_1" in
  let second := arriving (saudiRequest "id_number" "KSA001") 1700000000000 "vs_2" in
  let stored := fst (onRequestPost production first seeded) in
  exists message,
    onRequestPost production second stored
    = (set_console
         (console stored
          ++ [console_error "Verification session creation error:" message])%list
         (set_provider_calls
            (provider_calls stored
             ++ [stripe_params (saudiRequest "id_number" "KSA001")
                   "1.3.6.1.4.1.61026.1.682.1700000000000"])%list stored),
       reply 500 "Internal server error" (Some message)).
Proof.
  cbv zeta.
  apply (colliding_identifier_refused production
           (arriving (saudiRequest "id_number" "KSA001") 1700000000000 "vs_2")
           (fst (onRequestPost production
                   (arriving (saudiRequest "document" "KSA001")
                             1700000000000 "vs_1") seeded))
           (saudiRequest "id_number" "KSA001")
           {| s_ok := true; s_status := 200; s_text := "";
              s_json := Some {| id := "vs_2";
                                fields := [("status", JStr "requires_input")] |} |}
           {| id := "vs_2"; fields := [("status", JStr "requires_input")] |});
    try reflexivity.
  - right. split; [reflexivity|]. split.
    + intros hc code _ [= <-] [= <-] _.
      exists {| facility_code := "KSA001"; facility_is_active := true;
                nphies_certified := true |}.
      split; [left; reflexivity | repeat split].
    + intros nc code H. discriminate.
  - eexists. split; [left; reflexivity|]. left. vm_compute. reflexivity.
Defined.

(** X24.  The stored sessions keep pairwise different identifiers through
    every run of the handler, whatever the request and whatever fails. *)
Theorem stored_identifiers_stay_distinct env i c :
  oids_distinct c -> oids_distinct (fst (onRequestPost env i c)).
Proof.
  apply written_through_distinct, onRequestPost_written_through.
Qed.

Lemma stored_identifiers_stay_distinct_witness :
  let first := arriving (saudiRequest "document" "KSA001") 1700000000000 "vs_1" in
  let second := arriving (saudiRequest "id_number" "KSA001") 1700000000000 "vs_2" in
  let third := arriving (sudanRequest "SD01") 1700000000000 "vs_3" in
  let stored := fst (onRequestPost production first seeded) in
  session_oid <$> verification_sessions stored
    = ["1.3.6.1.4.1.61026.1.682.1700000000000"]
  /\ oids_distinct
       (fst (onRequestPost production third
               (fst (onRequestPost production second stored)))).
Proof.
  cbv zeta. split; [vm_compute; reflexivity|].
  apply (stored_identifiers_stay_distinct production).
  apply (stored_identifiers_stay_distinct production).
  apply (stored_identifiers_stay_distinct production).
  constructor.
Defined.

End HandlerFurtherWitnesses.

(** ** The edge handler: what an answer with a session stands for *)

Section HandlerAnswers.

Import Oid Api.

Variable env : Env.
Variable i : Incoming.

(** Splits a run of the handler at every test it makes, innermost first. *)
Ltac split_run :=
  repeat match goal with
         | |- context [match ?x with _ => _ end] =>
             lazymatch x with
             | context [match _ with _ => _ end] => fail
             | _ => destruct x eqn:?
             end
         | |- context [if ?x then _ else _] =>
             lazymatch x with
             | context [if _ then _ else _] => fail
             | _ => destruct x eqn:?
             end
         end.

(** X16.  An answer that carries a session is never premature: its status
    is 200, the session's row is in the durable table in status "created"
    under the answered identifier, the cache maps the provider id to that
    identifier, and the neural context is stored under the identifier when
    the answer says so and untouched when it does not. *)
Theorem session_answer_means_stored c st session oid n r :
  snd (onRequestPost env i c)
  = {| status := st; payload := SessionPayload session oid n r |} ->
  let c' := fst (onRequestPost env i c) in
  st = 200
  /\ (exists row, In row (verification_sessions c')
                  /\ session_oid row = oid
                  /\ stripe_session_id row = id session
                  /\ session_status row = "created")
  /\ kv_session_oid <$> SESSIONS c' !! id session = Some oid
  /\ (n = true ->
      nc_stripe_session_id <$> NEURAL_CONTEXT c' !! oid = Some (id session))
  /\ (n = false -> NEURAL_CONTEXT c' = NEURAL_CONTEXT c).
Proof.
  cbv zeta.
  unfold onRequestPost, handle, validateSaudiFacility, validateSudanWilaya,
    select_facility, select_wilaya, stripe_fetch, stripe_json, d1_insert,
    kv_sessions_put, kv_neural_put, faulty, gets, modify, throw, when, reply.
  unfold mbind, M_bind, mret, M_ret.
  split_run; cbn [fst snd]; try discriminate.
  all: intros [= <- <- <- <- <-].
  all: cbn [fst snd verification_sessions SESSIONS NEURAL_CONTEXT
            set_NEURAL_CONTEXT set_SESSIONS set_verification_sessions
            set_provider_calls].
  all: split; [reflexivity|].
  all: split; [eexists; split; [apply in_or_app; right; left; reflexivity
                               | cbn; auto]|].
  all: split; [rewrite lookup_insert_eq; reflexivity|].
  all: split; intros Hn;
    first [discriminate | rewrite lookup_insert_eq; reflexivity | reflexivity].
Qed.

(** The identifier an answer carries is the one built from the request's
    top-level country code and the handler's clock. *)
Lemma answered_identifier c oid :
  oid_of (snd (onRequestPost env i c)) = Some oid ->
  exists body,
    request_body i = Some body
    /\ oid = sessionOID (BRAINSAIT_OID_ROOT env) (country_code body) (now i).
Proof.
  unfold onRequestPost, handle, validateSaudiFacility, validateSudanWilaya,
    select_facility, select_wilaya, stripe_fetch, stripe_json, d1_insert,
    kv_sessions_put, kv_neural_put, faulty, gets, modify, throw, when, reply.
  unfold mbind, M_bind, mret, M_ret.
  split_run; cbn [fst snd oid_of payload]; try discriminate.
  all: intros [= <-]; eexists; split; reflexivity.
Qed.

End HandlerAnswers.

Section HandlerAnswersWitness.

Import Oid Api.

Lemma session_answer_means_stored_witness :
  kv_session_oid
    <$> SESSIONS (fst (onRequestPost production
                         (arriving (saudiRequest "document" "KSA001")
                                   1700000000000 "vs_1") seeded)) !! "vs_1"
  = Some "1.3.6.1.4.1.61026.1.682.1700000000000".
Proof.
  apply (session_answer_means_stored production
           (arriving (saudiRequest "document" "KSA001") 1700000000000 "vs_1")
           seeded 200
           {| id := "vs_1"; fields := [("status", JStr "requires_input")] |}
           "1.3.6.1.4.1.61026.1.682.1700000000000" false true).
  vm_compute. reflexivity.
Defined.

End HandlerAnswersWitness.

(** ** The provider request *)

Section ProviderRequest.

Import Oid Api.

Lemma string_length_append (s t : string) :
  String.length (s ++ t) = (String.length s + String.length t)%nat.
Proof.
  induction s as [|c s IH]; [reflexivity|].
  change (S (String.length (s ++ t)) = S (String.length s + String.length t)).
  rewrite IH. reflexivity.
Qed.

Lemma append_cancel_r (s t x : string) : s ++ x = t ++ x -> s = t.
Proof.
  revert t. induction s as [|c s IH]; intros [|d t] H.
  - reflexivity.
  - change (x = String d (t ++ x)) in H.
    apply (f_equal String.length) in H. cbn [String.length] in H.
    rewrite string_length_append in H. lia.
  - change (String c (s ++ x) = x) in H.
    apply (f_equal String.length) in H. cbn [String.length] in H.
    rewrite string_length_append in H. lia.
  - change (String c (s ++ x) = String d (t ++ x)) in H.
    injection H as -> H. f_equal. apply IH. exact H.
Qed.

Lemma metadata_key_inj k k' :
  "metadata[" ++ k ++ "]" = "metadata[" ++ k' ++ "]" <-> k = k'.
Proof.
  split; [|intros ->; reflexivity].
  intros H. apply append_cancel_l in H. apply append_cancel_r in H. exact H.
Qed.

(** Folding the metadata entries into the parameters: the last entry whose
    parameter name is [key] decides, else what was there before. *)
Lemma fold_metadata_lookup entries (base : gmap string string) key :
  fold_left (fun acc kv => <["metadata[" ++ fst kv ++ "]" := snd kv]> acc)
            entries base !! key
  = match List.find (fun kv => String.eqb ("metadata[" ++ fst kv ++ "]") key)
                    (rev entries) with
    | Some kv => Some (snd kv)
    | None => base !! key
    end.
Proof.
  induction entries as [|kv entries IH] using rev_ind; [reflexivity|].
  rewrite fold_left_app, rev_app_distr. cbn [fold_left rev List.app List.find].
  destruct (String.eqb_spec ("metadata[" ++ fst kv ++ "]") key) as [<-|Hne].
  - apply lookup_insert_eq.
  - rewrite lookup_insert_ne by exact Hne. exact IH.
Qed.

Lemma find_same {A} (f g : A -> bool) l :
  (forall x, f x = g x) -> List.find f l = List.find g l.
Proof.
  intros H. induction l as [|x l IH]; cbn; [reflexivity|].
  rewrite H, IH. reflexivity.
Qed.

Lemma find_never {A} (f : A -> bool) l :
  (forall x, f x = false) -> List.find f l = None.
Proof.
  intros H. induction l as [|x l IH]; cbn; [reflexivity|].
  rewrite H. exact IH.
Qed.

(** X17.  What the provider is sent.  The verification type and the return
    URL are always the request's own: no metadata entry can displace them.
    The identifier sent as [metadata[brainsait_oid]] is the session
    identifier of the run unless the request's metadata has an entry
    [brainsait_oid], in which case that entry's value is sent instead; and
    every metadata entry [k] of the request arrives as [metadata[k]]. *)
Theorem provider_request_fields body oid :
  let params := stripe_params body oid in
  params !! "type" = Some (type body)
  /\ params !! "return_url" = Some (return_url body)
  /\ oid_sent params = Some (default oid (metadata_get "brainsait_oid" body))
  /\ (forall k v, metadata_get k body = Some v ->
        params !! ("metadata[" ++ k ++ "]") = Some v).
Proof.
  cbv zeta. unfold stripe_params, oid_sent, metadata_get.
  destruct (metadata body) as [entries|].
  2:{ repeat split; try reflexivity. intros k v H. discriminate. }
  rewrite !fold_metadata_lookup.
  split; [|split; [|split]].
  - rewrite find_never; [reflexivity|].
    intros kv. apply String.eqb_neq.
    change ("metadata[" ++ fst kv ++ "]")
      with (String "m" ("etadata[" ++ fst kv ++ "]")).
    discriminate.
  - rewrite find_never; [reflexivity|].
    intros kv. apply String.eqb_neq.
    change ("metadata[" ++ fst kv ++ "]")
      with (String "m" ("etadata[" ++ fst kv ++ "]")).
    discriminate.
  - rewrite (find_same _ (fun kv => String.eqb (fst kv) "brainsait_oid")).
    + destruct (List.find _ (rev entries)); reflexivity.
    + intros kv.
      destruct (String.eqb_spec (fst kv) "brainsait_oid") as [->|Hne].
      * apply String.eqb_refl.
      * apply String.eqb_neq. intros H.
        apply (metadata_key_inj (fst kv) "brainsait_oid") in H. contradiction.
  - intros k v. rewrite fold_metadata_lookup.
    rewrite (find_same
               (fun kv : string * string =>
                  String.eqb ("metadata[" ++ fst kv ++ "]") ("metadata[" ++ k ++ "]"))
               (fun kv => String.eqb (fst kv) k)).
    + destruct (List.find _ (rev entries)) as [kv|]; cbn; intros [= <-];
        reflexivity.
    + intros kv.
      destruct (String.eqb_spec (fst kv) k) as [->|Hne].
      * apply String.eqb_refl.
      * apply String.eqb_neq. intros H.
        apply (proj1 (metadata_key_inj (fst kv) k)) in H. contradiction.
Qed.

(** The override at work: the request names ["1.2.3"], and that is what
    the provider is told, not the identifier of the run. *)
Example caller_names_the_identifier :
  oid_sent (stripe_params foreignRequest "1.3.6.1.4.1.61026.1.840.1700000000000")
  = Some "1.2.3".
Proof. vm_compute. reflexivity. Qed.

End ProviderRequest.

(** ** The neural service: hashing *)

Section Hashing.

Import Neural.

Lemma toInt32_range z : - 2 ^ 31 <= toInt32 z < 2 ^ 31.
Proof.
  unfold toInt32.
  pose proof (Z.mod_pos_bound (z + 2 ^ 31) (2 ^ 32) eq_refl). lia.
Qed.

(** Wrapping forgets whole multiples of 2^32, and nothing else. *)
Lemma toInt32_shift z k : toInt32 (z + k * 2 ^ 32) = toInt32 z.
Proof.
  unfold toInt32.
  replace (z + k * 2 ^ 32 + 2 ^ 31) with (z + 2 ^ 31 + k * 2 ^ 32) by lia.
  rewrite Z.mod_add by discriminate. reflexivity.
Qed.

Lemma toInt32_wraps z : exists k, toInt32 z = z + k * 2 ^ 32.
Proof.
  unfold toInt32. exists (- ((z + 2 ^ 31) / 2 ^ 32)).
  pose proof (Z.div_mod (z + 2 ^ 31) (2 ^ 32) ltac:(discriminate)). lia.
Qed.

Lemma and32_diag z : and32 z z = toInt32 z.
Proof. unfold and32. apply Z.land_diag. Qed.

(** One turn of the loop multiplies by 31 and adds the code unit, in
    32-bit arithmetic. *)
Lemma hashStep_wraps h h' c :
  h = toInt32 h' -> hashStep h c = toInt32 (31 * h' + c).
Proof.
  intros ->. unfold hashStep, shl32. rewrite and32_diag.
  rewrite Z.shiftl_mul_pow2 by lia.
  destruct (toInt32_wraps h') as [k1 E1].
  destruct (toInt32_wraps (toInt32 h')) as [k2 E2].
  destruct (toInt32_wraps (toInt32 (toInt32 h') * 2 ^ 5)) as [k3 E3].
  rewrite E3, E2, E1.
  replace ((h' + k1 * 2 ^ 32 + k2 * 2 ^ 32) * 2 ^ 5 + k3 * 2 ^ 32
           - (h' + k1 * 2 ^ 32) + c)
    with (31 * h' + c + (31 * k1 + 32 * k2 + k3) * 2 ^ 32) by lia.
  apply toInt32_shift.
Qed.

Lemma fold_hashStep this h h' :
  h = toInt32 h' ->
  fold_left hashStep this h
  = toInt32 (fold_left (fun a c => 31 * a + c) this h').
Proof.
  revert h h'. induction this as [|c this IH]; intros h h' Hh; cbn [fold_left].
  - exact Hh.
  - apply IH. apply hashStep_wraps. exact Hh.
Qed.

(** X18.  [hashCode] is the absolute value of the 32-bit wrap of the
    base-31 polynomial of the code units.  It is never negative, and it can
    be as large as 2^31 - one more than fits a signed 32-bit number, since
    the absolute value is taken after the wrap. *)
Theorem hashCode_closed_form this :
  hashCode this = Z.abs (toInt32 (horner this))
  /\ 0 <= hashCode this <= 2 ^ 31.
Proof.
  assert (E : hashCode this = Z.abs (toInt32 (horner this))).
  { unfold hashCode, horner. destruct this as [|c this]; [reflexivity|].
    cbn [length Nat.eqb]. f_equal. apply fold_hashStep. reflexivity. }
  split; [exact E|]. rewrite E.
  pose proof (toInt32_range (horner this)). lia.
Qed.

(** The upper bound is met. *)
Example hashCode_out_of_int32 :
  hashCode (units "polygenelubricants") = 2 ^ 31.
Proof. vm_compute. reflexivity. Qed.

End Hashing.

(** ** The neural store *)

Section NeuralStore.

Import Neural.

(** Settles a coherence goal once the step has been taken. *)
Ltac settle :=
  unfold coherent in *; cbn in *;
  repeat match goal with H : _ /\ _ |- _ => destruct H end;
  repeat split; intros;
  try congruence; try discriminate; try tauto; eauto.

Lemma coherent_step w e : coherent (store w) -> coherent (store (step w e)).
Proof.
  intros Hw. destruct w as [s out log0]. cbn [store] in *.
  assert (Hsome : forall ws, mcpConnection s = Some ws -> isConnected s = true)
    by (intros ws H; apply (proj2 (proj1 Hw)); rewrite H; discriminate).
  destruct e; cbn [step].
  - (* Opened *) settle.
  - (* Message *)
    unfold onmessage. destruct data as [d|]; [|settle].
    destruct (Oid.code_is "obsidian_sync" (msg_type d)); settle.
  - (* Errored *) settle.
  - (* Closed *) settle.
  - (* Sync *)
    unfold syncWithObsidian. cbn [store].
    destruct (mcpConnection s) as [ws|] eqn:Hws; [|settle].
    destruct open; cbn [negb]; [|settle].
    destruct send_fails; settle.
  - (* Update *) settle.
  - (* Activate *) settle.
  - (* Disconnect *) settle.
  - (* Create *)
    unfold createNeuralContext, syncWithObsidian. cbn [store set_store fst].
    destruct (isConnected s) eqn:Hc; [|settle].
    cbn [setActiveOID updateNeuralContext mcpConnection].
    destruct (mcpConnection s) as [ws|] eqn:Hws; [|settle].
    destruct open; cbn [negb]; [|settle].
    destruct send_fails; settle.
Qed.

(** X19.  The store stays coherent.  Whatever the socket, the peer and the
    page do, and in whatever order - open, message, error, close, sync,
    update, activate, disconnect, create - the store reports a connection
    exactly when it holds a socket, is never left in [syncing], and shows
    [connected] only while it is connected. *)
Theorem store_stays_coherent events :
  coherent (store (run events start)).
Proof.
  unfold run.
  assert (H0 : coherent (store start))
    by (repeat split; cbn; try discriminate; congruence).
  revert H0. generalize start.
  induction events as [|e events IH]; intros w Hw; cbn [fold_left]; [exact Hw|].
  apply IH, coherent_step, Hw.
Qed.

(** X20.  [createNeuralContext] makes the new identifier the active one
    and files the new context under [identity_verification], leaving the
    other entries of the neural context alone.  It sends the context to
    the peer exactly when the store was connected, holds a socket that is
    open, and the send goes through; the message then already carries the
    new identifier. *)
Theorem createNeuralContext_effect
  flags data cc now iso open send_fails iso1 iso2 w :
  let r := createNeuralContext flags data cc now iso open send_fails iso1 iso2 w in
  let ctx := snd r in
  neural_oid ctx = generateNeuralOID neural (Some (units "verification")) now
  /\ verification_id ctx = obj_get "id" data
  /\ activeOID (store (fst r)) = Some (neural_oid ctx)
  /\ neuralContext (store (fst r)) !! "identity_verification" = Some (Built ctx)
  /\ (forall k, k <> "identity_verification" ->
        neuralContext (store (fst r)) !! k = neuralContext (store w) !! k)
  /\ sent (fst r)
     = if isConnected (store w)
          && bool_decide (is_Some (mcpConnection (store w)))
          && open && negb send_fails
       then (sent w ++ [{| sm_timestamp := iso1;
                           sm_oid := Some (neural_oid ctx);
                           sm_data := ctx |}])%list
       else sent w.
Proof.
  cbv zeta. destruct w as [s out log0].
  unfold createNeuralContext, syncWithObsidian. cbn [store set_store fst snd].
  cbn [setActiveOID updateNeuralContext mcpConnection activeOID neuralContext].
  assert (Hk : forall m : gmap string ContextValue, forall v,
             ({[ "identity_verification" := v ]} ∪ m) !! "identity_verification"
             = Some v).
  { intros m v. apply lookup_union_Some_l. apply lookup_singleton_eq. }
  assert (Ho : forall (m : gmap string ContextValue) v k,
             k <> "identity_verification" ->
             ({[ "identity_verification" := v ]} ∪ m) !! k = m !! k).
  { intros m v k Hne. apply lookup_union_r. apply lookup_singleton_ne. congruence. }
  destruct (isConnected s); cbn [andb];
    [|repeat split; cbn; auto].
  destruct (mcpConnection s) as [ws|]; cbn [andb bool_decide];
    [|repeat split; cbn; auto].
  destruct open; cbn [negb andb]; [|repeat split; cbn; auto].
  destruct send_fails; repeat split; cbn; auto.
Qed.

End NeuralStore.

(** ** One session, two identifiers *)

Section IdentifierEncoding.

Import Oid.

(** X22.  An identifier encodes its type arc, its country arc and the
    clock reading it was built from, and nothing else: under one root two
    handler identifiers are equal exactly when their country arcs and
    their clock readings are, and two browser identifiers exactly when
    their types, country arcs and clock readings are.  Two calls for the
    same country within one millisecond are thus given the same
    identifier. *)
Theorem identifier_encoding root c1 c2 t1 t2 ty1 ty2 :
  (sessionOID root c1 t1 = sessionOID root c2 t2
   <-> countryOid c1 = countryOid c2 /\ t1 = t2)
  /\ (generateOID ty1 c1 t1 = generateOID ty2 c2 t2
      <-> ty1 = ty2 /\ country c1 = country c2 /\ t1 = t2).
Proof.
  split; split.
  - unfold sessionOID. intros H. apply append_cancel_l in H.
    destruct (countryOid_cases c1) as [E1|[E1|E1]],
             (countryOid_cases c2) as [E2|[E2|E2]];
      rewrite E1, E2 in *; cbn in H; try discriminate;
      injection H as H; apply Number_toString_inj in H; auto.
  - intros [Hc Ht]. unfold sessionOID. rewrite Hc, Ht. reflexivity.
  - unfold generateOID. intros H. apply append_cancel_l in H.
    destruct (country_cases c1) as [E1|[E1|E1]],
             (country_cases c2) as [E2|[E2|E2]];
      rewrite E1, E2 in *; destruct ty1, ty2; cbn in H; try discriminate;
      injection H as H; apply Number_toString_inj in H; auto.
  - intros (Hty & Hc & Ht). unfold generateOID. rewrite Hty, Hc, Ht. reflexivity.
Qed.

End IdentifierEncoding.

Section Entries.

Lemma find_app {A} (f : A -> bool) l1 l2 :
  List.find f (l1 ++ l2)%list
  = match List.find f l1 with
    | Some x => Some x
    | None => List.find f l2
    end.
Proof.
  induction l1 as [|x l1 IH]; cbn; [reflexivity|].
  destruct (f x); [reflexivity | exact IH].
Qed.

Lemma find_rev_filter {A} (f g : A -> bool) l :
  (forall x, f x = true -> g x = true) ->
  List.find f (rev (List.filter g l)) = List.find f (rev l).
Proof.
  intros H. induction l as [|x l IH]; [reflexivity|].
  cbn [List.filter rev]. destruct (g x) eqn:Hg.
  - cbn [rev]. rewrite !find_app, IH. reflexivity.
  - rewrite find_app, IH. cbn [List.find].
    destruct (f x) eqn:Hf; [|destruct (List.find f (rev l)); reflexivity].
    rewrite (H x Hf) in Hg. discriminate.
Qed.

Lemma find_rev_filtered {A} (f g : A -> bool) l :
  (forall x, g x = true -> f x = false) ->
  List.find f (rev (List.filter g l)) = None.
Proof.
  intros H. induction l as [|x l IH]; [reflexivity|].
  cbn [List.filter]. destruct (g x) eqn:Hg; [|exact IH].
  cbn [rev]. rewrite find_app, IH. cbn [List.find].
  rewrite (H x Hg). reflexivity.
Qed.

Lemma entry_get_put_same k v o : entry_get k (entry_put k v o) = v.
Proof.
  unfold entry_get, entry_put. destruct v as [v|].
  - rewrite rev_app_distr. cbn [rev List.app List.find fst].
    rewrite String.eqb_refl. reflexivity.
  - rewrite find_rev_filtered; [reflexivity|].
    intros x Hx. apply negb_true_iff in Hx. exact Hx.
Qed.

Lemma entry_get_put_other k k' v o :
  k <> k' -> entry_get k' (entry_put k v o) = entry_get k' o.
Proof.
  intros Hne. unfold entry_get, entry_put.
  assert (Hf : List.find (fun kv : string * string => String.eqb (fst kv) k')
                 (rev (List.filter (fun kv => negb (String.eqb (fst kv) k)) o))
               = List.find (fun kv => String.eqb (fst kv) k') (rev o)).
  { apply find_rev_filter. intros x Hx. apply String.eqb_eq in Hx.
    apply negb_true_iff, String.eqb_neq. congruence. }
  destruct v as [v|]; [|rewrite Hf; reflexivity].
  rewrite rev_app_distr. cbn [rev List.app List.find fst].
  rewrite (proj2 (String.eqb_neq k k')) by exact Hne.
  rewrite Hf. reflexivity.
Qed.

End Entries.

Section BrowserToHandler.

Import Oid.

Variable stringifyHealthcare : Client.HealthcareContext -> string.
Variable stringifyNational : Client.NationalIdContext -> string.
Variable environment : option string.
Variable options : Client.Options.
Variable t : Z.

Let browserOID : string := generateOID verification (Client.countryCode options) t.
Let body : Api.VerificationRequest :=
  Api.fromBrowser
    (Client.requestBody stringifyHealthcare stringifyNational environment
       browserOID options).

Lemma neural_enabled_get request :
  Api.neural_enabled request
  = match Api.metadata_get "neural_integration" request with
    | Some v => String.eqb v "enabled"
    | None => false
    end.
Proof.
  unfold Api.neural_enabled, Api.metadata_get.
  destruct (Api.metadata request) as [entries|]; [|reflexivity].
  destruct (List.find _ (rev entries)); reflexivity.
Qed.

(** The metadata the handler reads, key by key. *)
Lemma browser_metadata k :
  Api.metadata_get k body
  = if String.eqb k "neural_sync" then Some "enabled"
    else if String.eqb k "national_context"
    then stringifyNational <$> Client.nationalIdContext options
    else if String.eqb k "healthcare_context"
    then stringifyHealthcare <$> Client.healthcareContext options
    else if String.eqb k "country_code" then Client.countryCode options
    else if String.eqb k "session_oid" then Some browserOID
    else if String.eqb k "environment"
    then Some (or_else environment "production")
    else if String.eqb k "brainsait_app" then Some "identity-verification"
    else if String.eqb k "iod_integration" then Some "true"
    else entry_get k (default [] (Client.metadata options)).
Proof.
  change (Api.metadata_get k body)
    with (entry_get k (Client.rb_metadata
                         (Client.requestBody stringifyHealthcare stringifyNational
                            environment browserOID options))).
  cbn [Client.requestBody Client.rb_metadata].
  repeat match goal with
         | |- entry_get k (entry_put ?k0 _ _) = _ =>
             destruct (String.eqb_spec k k0) as [->|?Hne];
             [ apply entry_get_put_same
             | rewrite entry_get_put_other by congruence ]
         end.
  reflexivity.
Qed.

(** A request from the browser service goes straight to the provider,
    whatever the registry tables hold and whether or not they can be
    queried. *)
Lemma browser_request_reaches_provider env i c :
  Api.request_body i = Some body ->
  Api.provider_calls (fst (Api.onRequestPost env i c))
  = (Api.provider_calls c
     ++ [Api.stripe_params body
           (Api.BRAINSAIT_OID_ROOT env ++ ".1.840."
            ++ Number_toString (Api.now i))])%list.
Proof.
  intros Hbody. unfold Api.onRequestPost, Api.handle.
  erewrite bind_returns by (rewrite Hbody; reflexivity).
  erewrite bind_returns by reflexivity. cbn [negb].
  erewrite bind_returns by reflexivity. cbn [negb].
  change (sessionOID (Api.BRAINSAIT_OID_ROOT env) (Api.country_code body)
            (Api.now i))
    with (Api.BRAINSAIT_OID_ROOT env ++ ".1.840." ++ Number_toString (Api.now i)).
  unfold Api.stripe_fetch, Api.stripe_json, Api.d1_insert, Api.kv_sessions_put,
    Api.kv_neural_put, Api.faulty, gets, modify, throw, when.
  unfold mbind, M_bind, mret, M_ret.
  destruct (Api.stripe i) as [message|r]; [reflexivity|].
  destruct (Api.s_ok r); [|reflexivity]. cbn [negb].
  destruct (Api.s_json r) as [session|]; [|reflexivity].
  destruct (Api.d1_insert_fault i); [reflexivity|].
  cbn [Api.set_provider_calls Api.verification_sessions].
  destruct (existsb _ (Api.verification_sessions c)); [reflexivity|].
  destruct (Api.kv_sessions_fault i); [reflexivity|].
  destruct (Api.neural_enabled body); [|reflexivity].
  destruct (Api.kv_neural_fault i); reflexivity.
Qed.

(** X21.  What the edge handler makes of a session request sent by the
    browser service.  The browser sends the country code and the regional
    contexts inside [metadata] only, so the handler reads none of them at
    the top level: it consults no registry table and sends every such
    request on to the provider, and every identifier it answers with has
    the country arc 840, whatever the country of the call.  Under a common root that identifier is never the one the
    browser generated for the same call, which the handler receives as
    [metadata.session_oid], next to the country code as
    [metadata.country_code].  The handler's neural context is stored only
    if the caller's own metadata enables [neural_integration]: the
    browser's [neural_sync] entry is not the key the handler tests. *)
Theorem browser_request_at_handler env i :
  Api.request_body i = Some body ->
  Api.needs_registry body = false
  /\ (forall c,
        Api.provider_calls (fst (Api.onRequestPost env i c))
        = (Api.provider_calls c
           ++ [Api.stripe_params body
                 (Api.BRAINSAIT_OID_ROOT env ++ ".1.840."
                  ++ Number_toString (Api.now i))])%list)
  /\ (forall c oid,
        Api.oid_of (snd (Api.onRequestPost env i c)) = Some oid ->
        oid = Api.BRAINSAIT_OID_ROOT env ++ ".1.840." ++ Number_toString (Api.now i)
        /\ (Api.BRAINSAIT_OID_ROOT env = oidPrefix -> oid <> browserOID))
  /\ Api.metadata_get "session_oid" body = Some browserOID
  /\ Api.metadata_get "country_code" body = Client.countryCode options
  /\ Api.metadata_get "neural_sync" body = Some "enabled"
  /\ Api.neural_enabled body
     = match entry_get "neural_integration"
               (default [] (Client.metadata options)) with
       | Some v => String.eqb v "enabled"
       | None => false
       end.
Proof.
  intros Hbody. split; [reflexivity|].
  split; [intros c; apply browser_request_reaches_provider, Hbody|].
  split; [|repeat split].
  - intros c oid Hoid.
    destruct (answered_identifier env i c oid Hoid) as (body' & Hb & ->).
    rewrite Hbody in Hb. injection Hb as <-.
    split; [reflexivity|].
    intros Hroot H. rewrite Hroot in H. subst browserOID.
    unfold sessionOID, generateOID in H. apply append_cancel_l in H.
    destruct (country_cases (Client.countryCode options)) as [E|[E|E]];
      rewrite E in H; cbn in H; discriminate.
  - rewrite browser_metadata. reflexivity.
  - rewrite browser_metadata. reflexivity.
  - rewrite browser_metadata. reflexivity.
  - rewrite neural_enabled_get, browser_metadata. reflexivity.
Qed.

End BrowserToHandler.

Section BrowserToHandlerWitness.

Import Oid.

Lemma browser_request_at_handler_witness :
  let sent := Client.requestBody (fun _ => "{}") (fun _ => "{}") None
                (generateOID verification (Some "SA") 1700000000000)
                Client.saudiClinic in
  let r := Api.onRequestPost Api.production
             (Api.arriving (Api.fromBrowser sent) 1700000000002 "vs_1")
             Api.seeded in
  Api.oid_of (snd r) = Some "1.3.6.1.4.1.61026.1.840.1700000000002"
  /\ Api.metadata_get "session_oid" (Api.fromBrowser sent)
     = Some "1.3.6.1.4.1.61026.1.682.1700000000000"
  /\ Api.country_context <$> Api.verification_sessions (fst r) = ["US"]
  /\ Api.NEURAL_CONTEXT (fst r) = ∅.
Proof.
  cbv zeta.
  destruct (browser_request_at_handler (fun _ => "{}") (fun _ => "{}") None
              Client.saudiClinic 1700000000000 Api.production
              (Api.arriving
                 (Api.fromBrowser
                    (Client.requestBody (fun _ => "{}") (fun _ => "{}") None
                       (generateOID verification (Some "SA") 1700000000000)
                       Client.saudiClinic))
                 1700000000002 "vs_1")
              eq_refl) as (_ & _ & Hoid & Hsent & _).
  split; [vm_compute; reflexivity|].
  split; [exact Hsent|].
  split; vm_compute; reflexivity.
Defined.

End BrowserToHandlerWitness.
